(** * NVIDIA Container Toolkit: resource discovery and edit composition

    A shallow embedding of the Go sources

    - [internal/edits]            (device.go, lib.go, api.go)
    - [internal/discover]         (the ldcache-update hook discoverer)
    - [internal/lookup/root]      (root.go, the driver root)
    - [tools/container/toolkit/installer] (artifact-root.go)
    - [dotsosymlinks]             (the create-dot-so-symlinks command)

    Go strings are byte sequences and are embedded as [string]; a Go
    [uint32] is embedded as a [Z]; a Go pointer that may be [nil] is an
    [option]; a Go [(value, error)] result is a pair whose second component
    is an [option error]; calls into the operating system go through
    explicit interfaces (type classes) so that every function stays
    executable once an instance is supplied. *)

From Stdlib Require Import ZArith Ascii String List Lia Bool.
From stdpp Require Import base gmap strings list.
From Equations Require Import Equations.
From Stdlib Require DecimalString DecimalNat DecimalZ HexadecimalString HexadecimalN.
Import ListNotations.
Local Open Scope string_scope.
Local Open Scope list_scope.

(* ================================================================= *)
(** * Part I: definitions                                              *)
(* ================================================================= *)

(** ** Errors

    [fmt.Errorf("...: %w", err)] wraps an error below a message. *)
Inductive error : Type :=
| ErrNew (msg : string)
| ErrWrap (msg : string) (inner : error).

Fixpoint error_text (e : error) : string :=
  match e with
  | ErrNew m => m
  | ErrWrap m inner => m +:+ ": " +:+ error_text inner
  end.

(** A Go result [(v, err)]. *)
Definition result (A : Type) : Type := (A * option error)%type.

(** ** Go's [strings] package (the functions the sources call) *)
Module strings.

(** [s[n:]], empty when [n] exceeds the length. *)
Fixpoint drop (n : nat) (s : string) : string :=
  match n, s with
  | O, _ => s
  | S _, EmptyString => EmptyString
  | S k, String _ t => drop k t
  end.

(** [s[:n]]. *)
Definition take (n : nat) (s : string) : string := substring 0 n s.

Definition HasPrefix (s prefix : string) : bool := String.prefix prefix s.

Definition TrimPrefix (s prefix : string) : string :=
  if HasPrefix s prefix then drop (String.length prefix) s else s.

Definition HasSuffix (s suffix : string) : bool :=
  (String.length suffix <=? String.length s)%nat
  && String.eqb (drop (String.length s - String.length suffix) s) suffix.

Definition TrimSuffix (s suffix : string) : string :=
  if HasSuffix s suffix
  then take (String.length s - String.length suffix) s
  else s.

(** Prepend a byte to the part under construction. *)
Definition cons_head (c : ascii) (parts : list string) : list string :=
  match parts with
  | [] => [String c EmptyString]
  | h :: t => String c h :: t
  end.

(** [split_from sep skip s]: the parts of [s] once its first [skip]
    bytes (the rest of a separator just recognised) are passed over. *)
Fixpoint split_from (sep : string) (skip : nat) (s : string) : list string :=
  match s with
  | EmptyString => [EmptyString]
  | String c s' =>
      match skip with
      | S k => split_from sep k s'
      | O =>
          if String.prefix sep s
          then EmptyString :: split_from sep (String.length sep - 1) s'
          else cons_head c (split_from sep 0 s')
      end
  end.

(** [strings.Split(s, sep)]: all parts of [s] between the leftmost,
    non-overlapping occurrences of [sep]; with an empty [sep] the
    string is exploded into its bytes. *)
Definition Split (s sep : string) : list string :=
  match sep with
  | EmptyString => map (fun c => String c EmptyString) (list_ascii_of_string s)
  | _ => split_from sep 0 s
  end.

(** [strings.Contains]. *)
Fixpoint Contains (s sub : string) : bool :=
  String.prefix sub s
  || match s with
     | EmptyString => false
     | String _ s' => Contains s' sub
     end.

End strings.

(** ** Go's [path/filepath] package on Unix (lexical functions)

    Paths are read byte by byte: [?], [*] and character classes stand
    for bytes, which is what they stand for on ASCII names. *)
Module filepath.

Definition Separator : ascii := "/"%char.

Definition IsPathSeparator (c : ascii) : bool := Ascii.eqb c Separator.

(** The path elements between separators. *)
Fixpoint elements (s : string) : list string :=
  match s with
  | EmptyString => [EmptyString]
  | String c s' =>
      if IsPathSeparator c then EmptyString :: elements s'
      else strings.cons_head c (elements s')
  end.

(** One element of [Clean]: the output is kept as a stack of elements,
    innermost first.  Empty and [.] elements vanish; [..] removes the
    element before it, is dropped at the root, and is kept at the
    start of a relative path. *)
Definition clean_step (rooted : bool) (out : list string) (e : string)
  : list string :=
  if String.eqb e "" || String.eqb e "." then out
  else if String.eqb e ".." then
    match out with
    | top :: rest => if String.eqb top ".." then e :: out else rest
    | [] => if rooted then [] else [e]
    end
  else e :: out.

(** [filepath.Clean]. *)
Definition Clean (path : string) : string :=
  match path with
  | EmptyString => "."
  | String c _ =>
      let rooted := IsPathSeparator c in
      let out := rev (fold_left (clean_step rooted) (elements path) []) in
      if rooted then String Separator (String.concat "/" out)
      else match out with
           | [] => "."
           | _ => String.concat "/" out
           end
  end.

(** [path[:i+1]] for the index [i] of the last separator; empty when
    the path has none. *)
Fixpoint upto_last_sep (s : string) : string :=
  match s with
  | EmptyString => EmptyString
  | String c s' =>
      match upto_last_sep s' with
      | EmptyString =>
          if IsPathSeparator c then String c EmptyString else EmptyString
      | r => String c r
      end
  end.

Fixpoint has_sep (s : string) : bool :=
  match s with
  | EmptyString => false
  | String c s' => IsPathSeparator c || has_sep s'
  end.

(** [path[i+1:]] for the index [i] of the last separator; the whole
    path when it has none. *)
Fixpoint after_last_sep (s : string) : string :=
  match s with
  | EmptyString => EmptyString
  | String c s' =>
      if has_sep s' then after_last_sep s'
      else if IsPathSeparator c then s' else s
  end.

Fixpoint strip_trailing_seps (s : string) : string :=
  match s with
  | EmptyString => EmptyString
  | String c s' =>
      match strip_trailing_seps s' with
      | EmptyString =>
          if IsPathSeparator c then EmptyString else String c EmptyString
      | r => String c r
      end
  end.

(** [filepath.Dir]. *)
Definition Dir (path : string) : string := Clean (upto_last_sep path).

(** [filepath.Base]. *)
Definition Base (path : string) : string :=
  match path with
  | EmptyString => "."
  | _ =>
      match after_last_sep (strip_trailing_seps path) with
      | EmptyString => "/"
      | b => b
      end
  end.

(** [filepath.Join]: leading empty elements are ignored, the rest is
    joined with the separator and cleaned. *)
Fixpoint Join (elem : list string) : string :=
  match elem with
  | [] => ""
  | e :: rest =>
      if String.eqb e "" then Join rest
      else Clean (String.concat "/" elem)
  end.

(** *** Shell patterns ([filepath.Match]) *)

Inductive token : Type :=
| Lit (c : ascii)                                  (* the byte itself *)
| AnyChar                                          (* [?] *)
| Star                                             (* [*] *)
| Class (negated : bool) (ranges : list (ascii * ascii)).  (* [[..]] *)

Definition in_range (c : ascii) (r : ascii * ascii) : bool :=
  (nat_of_ascii (fst r) <=? nat_of_ascii c)%nat
  && (nat_of_ascii c <=? nat_of_ascii (snd r))%nat.

Definition in_class (negated : bool) (ranges : list (ascii * ascii))
           (c : ascii) : bool :=
  xorb negated (existsb (in_range c) ranges).

(** One range [lo] or [lo-hi] of a class; a backslash escapes. *)
Definition getEsc (chunk : string) : option (ascii * string) :=
  match chunk with
  | EmptyString => None
  | String c rest =>
      if Ascii.eqb c "-" || Ascii.eqb c "]" then None
      else if Ascii.eqb c "\" then
        match rest with
        | EmptyString => None
        | String d rest' => Some (d, rest')
        end
      else Some (c, rest)
  end.

(** The ranges of a class up to its closing bracket. *)
Fixpoint scan_ranges (fuel : nat) (nrange : nat) (chunk : string)
  : option (list (ascii * ascii) * string) :=
  match fuel with
  | O => None
  | S f =>
      match chunk, nrange with
      | String "]"%char rest, S _ => Some ([], rest)
      | _, _ =>
          match getEsc chunk with
          | None => None
          | Some (lo, rest) =>
              match rest with
              | EmptyString => None
              | String "-"%char rest1 =>
                  match getEsc rest1 with
                  | None => None
                  | Some (hi, rest2) =>
                      match scan_ranges f (S nrange) rest2 with
                      | None => None
                      | Some (rs, rest3) => Some ((lo, hi) :: rs, rest3)
                      end
                  end
              | _ =>
                  match scan_ranges f (S nrange) rest with
                  | None => None
                  | Some (rs, rest3) => Some ((lo, lo) :: rs, rest3)
                  end
              end
          end
      end
  end.

(** The tokens of a pattern; [None] is [ErrBadPattern]. *)
Fixpoint scan (fuel : nat) (pattern : string) : option (list token) :=
  match fuel with
  | O => match pattern with EmptyString => Some [] | _ => None end
  | S f =>
      match pattern with
      | EmptyString => Some []
      | String "*"%char rest => option_map (cons Star) (scan f rest)
      | String "?"%char rest => option_map (cons AnyChar) (scan f rest)
      | String "\"%char rest =>
          match rest with
          | EmptyString => None
          | String c rest' => option_map (cons (Lit c)) (scan f rest')
          end
      | String "["%char rest =>
          let '(negated, body) :=
            match rest with
            | String "^"%char body => (true, body)
            | _ => (false, rest)
            end in
          match scan_ranges (S (String.length body)) 0 body with
          | None => None
          | Some (rs, rest') =>
              option_map (cons (Class negated rs)) (scan f rest')
          end
      | String c rest => option_map (cons (Lit c)) (scan f rest)
      end
  end.

(** Matching a token list: [*] stands for any run of non-separator
    bytes, [?] and a class for one non-separator byte. *)
Fixpoint match_tokens (p : list token) (name : string) : bool :=
  match p with
  | [] => String.eqb name ""
  | Lit c :: p' =>
      match name with
      | String d name' => Ascii.eqb c d && match_tokens p' name'
      | EmptyString => false
      end
  | AnyChar :: p' =>
      match name with
      | String d name' => negb (IsPathSeparator d) && match_tokens p' name'
      | EmptyString => false
      end
  | Class negated ranges :: p' =>
      match name with
      | String d name' => in_class negated ranges d && match_tokens p' name'
      | EmptyString => false
      end
  | Star :: p' =>
      (fix star (s : string) : bool :=
         match_tokens p' s
         || match s with
            | EmptyString => false
            | String d s' => negb (IsPathSeparator d) && star s'
            end) name
  end.

Definition ErrBadPattern : error := ErrNew "syntax error in pattern".

(** [filepath.Match(pattern, name)]. *)
Definition Match (pattern name : string) : result bool :=
  match scan (String.length pattern) pattern with
  | None => (false, Some ErrBadPattern)
  | Some toks => (match_tokens toks name, None)
  end.

End filepath.

(** ** Logging

    [logger.Interface]: the lines written, oldest first, each with its
    level. *)
Inductive level : Type := Debug | Info | Warning.

Definition logline : Type := (level * string)%type.

(** [%v] of a string slice. *)
Definition show_list (l : list string) : string :=
  "[" +:+ String.concat " " l +:+ "]".

(** ** [internal/lookup]: locators *)
Module lookup.

(** The files a search through the search paths below a root comes
    across for a pattern, in discovery order. *)
Class Finder : Type :=
  find : string -> list string -> string -> list string.

Record options : Type := {
  root : string;
  searchPaths : list string;
  isOptional : bool;
  count : nat            (* 0: no limit *)
}.

Definition ErrNotFound : error := ErrNew "not found".

(** Modelled from the spec: the [Locate] method of the file and library
    locators (package [internal/lookup], absent from the sources at
    hand).  "For each search path, resolve it relative to root, then
    glob-match pattern against directory entries"; "a count limit stops
    search after the first N matches"; "fails with NotFound unless
    optional is set, in which case an empty result is returned without
    error". *)
Definition Locate `{Finder} (o : options) (pattern : string)
  : result (list string) :=
  let all := find (root o) (searchPaths o) pattern in
  let filenames :=
    match count o with
    | O => all
    | n => firstn n all
    end in
  match filenames with
  | [] =>
      if isOptional o then ([], None)
      else ([], Some (ErrWrap ("pattern " +:+ pattern) ErrNotFound))
  | _ => (filenames, None)
  end.

(** A locator as its callers see it: [lookup.Locator]. *)
Definition Locator : Type := string -> result (list string).

End lookup.

(** ** [internal/discover] *)
Module discover.

Record Device : Type := {
  Device_HostPath : string;
  Device_Path : string
}.

Record Mount : Type := {
  Mount_HostPath : string;
  Mount_Path : string;
  Mount_Options : list string
}.

Record Hook : Type := {
  Hook_Lifecycle : string;
  Hook_Path : string;
  Hook_Args : list string
}.

(** The [Discover] interface.  A discoverer may consult and change
    state of its own ([St]); each operation is failable on its own. *)
Record Discover (St : Type) : Type := {
  Devices : St -> result (list Device) * St;
  Mounts : St -> result (list Mount) * St;
  Hooks : St -> result (list Hook) * St
}.
Arguments Devices {St}.
Arguments Mounts {St}.
Arguments Hooks {St}.

(** [discover.None]: the discoverer that finds nothing. *)
Definition None_ (St : Type) : Discover St := {|
  Devices := fun s => (([], None), s);
  Mounts := fun s => (([], None), s);
  Hooks := fun s => (([], None), s)
|}.

Definition nvidiaCTKDefaultFilePath : string := "/usr/bin/nvidia-ctk".

(** [cdi.CreateContainerHook]. *)
Definition CreateContainerHook : string := "createContainer".

(** [isLibName] checks if the specified filename is a library. *)
Definition isLibName (filename : string) : bool :=
  let base := filepath.Base filename in
  let '(isLib, err) := filepath.Match "lib?*.so*" base in
  if negb isLib || bool_decide (err <> None) then false
  else
    let parts := strings.Split base ".so" in
    if (length parts =? 1)%nat then true
    else
      let lastPart := List.last parts "" in
      String.eqb lastPart "" || strings.HasPrefix lastPart ".".

(** [getLibraryPaths] extracts the library paths from the mounts. *)
Definition getLibraryPaths (mounts : list Mount) : list string :=
  map Mount_Path (List.filter (fun m => isLibName (Mount_Path m)) mounts).

(** The loop of [uniqueFolders]: [paths] is the slice built so far and
    [checked] the map of the folders already met. *)
Fixpoint uniqueFolders_loop (libraries : list string)
         (paths : list string) (checked : gmap string bool)
  : list string :=
  match libraries with
  | [] => paths
  | l :: rest =>
      let dir := filepath.Dir l in
      if String.eqb dir "" then uniqueFolders_loop rest paths checked
      else if default false (checked !! dir)
           then uniqueFolders_loop rest paths checked
           else uniqueFolders_loop rest (paths ++ [dir])
                                   (<[dir := true]> checked)
  end.

(** [uniqueFolders] returns the unique set of folders of the files. *)
Definition uniqueFolders (libraries : list string) : list string :=
  uniqueFolders_loop libraries [] ∅.

(** The [--folder f] pairs appended to the arguments. *)
Fixpoint folder_args (folders : list string) : list string :=
  match folders with
  | [] => []
  | f :: rest => "--folder" :: f :: folder_args rest
  end.

(** [CreateLDCacheUpdateHook] locates the toolkit CLI and creates the
    hook that updates the ldcache; the lines it logs come with it. *)
Definition CreateLDCacheUpdateHook (lookup : lookup.Locator)
           (execuable defaultPath : string) (libraries : list string)
  : Hook * list logline :=
  let '(targets, err) := lookup execuable in
  let '(hookPath, log) :=
    match err with
    | Some e =>
        (defaultPath,
         [(Warning, "Failed to locate " +:+ execuable +:+ ": " +:+ error_text e)])
    | None =>
        match targets with
        | [] => (defaultPath, [(Warning, execuable +:+ " not found")])
        | t0 :: _ =>
            (t0, [(Debug, "Found " +:+ execuable +:+ " candidates: "
                            +:+ show_list targets)])
        end
    end in
  let log :=
    log ++ [(Debug, "Using NVIDIA Container Toolkit CLI path " +:+ hookPath)] in
  let args :=
    [filepath.Base hookPath; "hook"; "update-ldcache"]
      ++ folder_args (uniqueFolders libraries) in
  ({| Hook_Lifecycle := CreateContainerHook;
      Hook_Path := hookPath;
      Hook_Args := args |}, log).

(** The [ldconfig] discoverer. *)
Record ldconfig (St : Type) : Type := {
  mountsFrom : Discover St;
  lookup_ : lookup.Locator;
  nvidiaCTKExecutablePath : string
}.
Arguments mountsFrom {St}.
Arguments lookup_ {St}.
Arguments nvidiaCTKExecutablePath {St}.

(** [ldconfig.Hooks]: the hook that updates the ldcache for the
    libraries among the mounts of [mountsFrom]. *)
Definition ldconfig_Hooks {St} (d : ldconfig St) (s : St)
  : result (list Hook) * list logline * St :=
  let '((mounts, err), s') := Mounts (mountsFrom d) s in
  match err with
  | Some e =>
      (([], Some (ErrWrap "failed to discover mounts for ldcache update" e)),
       [], s')
  | None =>
      let '(h, log) :=
        CreateLDCacheUpdateHook (lookup_ d) (nvidiaCTKExecutablePath d)
                                nvidiaCTKDefaultFilePath
                                (getLibraryPaths mounts) in
      (([h], None), log, s')
  end.

(** The [ldconfig] discoverer embeds [None]: no devices, no mounts. *)
Definition ldconfig_Discover {St} (d : ldconfig St) : Discover St := {|
  Devices := Devices (None_ St);
  Mounts := Mounts (None_ St);
  Hooks := fun s => let '(r, _, s') := ldconfig_Hooks d s in (r, s')
|}.

End discover.

(** ** Outcomes of a call that may panic *)
Inductive outcome (A : Type) : Type :=
| Returned (a : A)
| Panicked (msg : string).
Arguments Returned {A}.
Arguments Panicked {A}.

(** ** [golang.org/x/sys/unix] and [os] *)
Module unix.

(** The fields of [unix.Stat_t] the sources read, both [uint32]. *)
Record Stat_t : Type := {
  Mode : Z;
  Gid : Z
}.

Definition S_IFMT : Z := 0xF000.    (* 0170000 *)
Definition S_IFCHR : Z := 0x2000.   (* 0020000 *)

(** [unix.Lstat]: the status of a path, or an error. *)
Class LstatFS : Type := Lstat : string -> Stat_t + error.

End unix.

Module os.

Definition ModePerm : Z := 0x1FF.   (* 0777 *)

(** [FileMode.Perm]. *)
Definition Perm (m : Z) : Z := Z.land m ModePerm.

Record FileInfo : Type := { IsDir : bool }.

(** [os.Stat]: the file's info, or an error. *)
Class StatFS : Type := stat : string -> FileInfo + error.

(** The pair [os.Stat] hands back: the info is [nil] beside an error. *)
Definition Stat `{StatFS} (name : string) : result (option FileInfo) :=
  match stat name with
  | inl info => (Some info, None)
  | inr e => (None, Some e)
  end.


(** [os.LookupEnv]: the value of an environment variable, if it is set. *)
Class Environ : Type := LookupEnv : string -> option string.

End os.

(** ** The CDI specification types ([specs-go], [pkg/cdi]) *)
Module specs.

Record DeviceNode : Type := {
  DeviceNode_Path : string;
  DeviceNode_HostPath : string
}.

Record Mount : Type := {
  Mount_HostPath : string;
  Mount_ContainerPath : string;
  Mount_Options : list string
}.

Record Hook : Type := {
  Hook_HookName : string;
  Hook_Path : string;
  Hook_Args : list string
}.

Record ContainerEdits : Type := {
  DeviceNodes : list DeviceNode;
  Hooks : list Hook;
  Mounts : list Mount;
  AdditionalGIDs : list Z
}.

Definition empty : ContainerEdits :=
  {| DeviceNodes := []; Hooks := []; Mounts := []; AdditionalGIDs := [] |}.

(** The serialized form of a device node, as its struct tags give it:
    [path] is always written, [hostPath] has [omitempty]. *)
Definition DeviceNode_fields (n : DeviceNode) : list (string * string) :=
  ("path", DeviceNode_Path n)
    :: (if String.eqb (DeviceNode_HostPath n) "" then []
        else [("hostPath", DeviceNode_HostPath n)]).

(** The value serialized under a key. *)
Fixpoint field (key : string) (fields : list (string * string))
  : option string :=
  match fields with
  | [] => None
  | (k, v) :: rest => if String.eqb k key then Some v else field key rest
  end.

End specs.

Module cdi.

(** [cdi.ContainerEdits] embeds a pointer to [specs.ContainerEdits]. *)
Record ContainerEdits : Type := {
  ContainerEdits_ : option specs.ContainerEdits
}.

(** [ContainerEdits.Append] of the CDI library: every collection of
    [o] is appended to that of [e]; a nil [o] changes nothing. *)
Definition Append (e : ContainerEdits) (o : option ContainerEdits)
  : ContainerEdits :=
  match o with
  | None => e
  | Some o' =>
      match ContainerEdits_ o' with
      | None => e
      | Some oe =>
          let ee := default specs.empty (ContainerEdits_ e) in
          {| ContainerEdits_ := Some {|
               specs.DeviceNodes := specs.DeviceNodes ee ++ specs.DeviceNodes oe;
               specs.Hooks := specs.Hooks ee ++ specs.Hooks oe;
               specs.Mounts := specs.Mounts ee ++ specs.Mounts oe;
               specs.AdditionalGIDs :=
                 specs.AdditionalGIDs ee ++ specs.AdditionalGIDs oe |} |}
      end
  end.

(** [ContainerEdits.Apply] of the CDI library merges the edits into an
    OCI runtime specification, in place. *)
Class Applier (Spec : Type) : Type :=
  Apply : specs.ContainerEdits -> Spec -> option error * Spec.

End cdi.

(** ** [internal/edits] *)
Module edits.

(** [type device discover.Device]. *)
Definition device : Type := discover.Device.

(** [toSpec] converts a discovered device to a CDI device node:
    [HostPath] is cleared if it is equal to [Path]. *)
Definition device_toSpec (d : device) : result specs.DeviceNode :=
  let hostPath := discover.Device_HostPath d in
  let hostPath :=
    if String.eqb hostPath (discover.Device_Path d) then "" else hostPath in
  ({| specs.DeviceNode_HostPath := hostPath;
      specs.DeviceNode_Path := discover.Device_Path d |}, None).

(** [getRequiredGID] returns the group id of the device if the device
    is not world read/writable; 0 if the information cannot be had. *)
Definition getRequiredGID `{unix.LstatFS} (d : device) : Z :=
  let path := discover.Device_HostPath d in
  let path := if String.eqb path "" then discover.Device_Path d else path in
  if String.eqb path "" then 0%Z
  else
    match unix.Lstat path with
    | inr _ => 0%Z
    | inl stat =>
        if negb (Z.land (unix.Mode stat) unix.S_IFMT =? unix.S_IFCHR)%Z
        then 0%Z
        else
          let permissionsForOther := os.Perm (unix.Mode stat) in
          if (Z.land permissionsForOther 6 =? 0)%Z then unix.Gid stat
          else 0%Z
    end.

(** [toEdits] converts a discovered device to CDI container edits. *)
Definition device_toEdits `{unix.LstatFS} (d : device)
           (allowAdditionalGIDs : bool) : result (option cdi.ContainerEdits) :=
  match device_toSpec d with
  | (_, Some err) => (None, Some err)
  | (deviceNode, None) =>
      let additionalGIDs :=
        if allowAdditionalGIDs then
          let requiredGID := getRequiredGID d in
          if negb (requiredGID =? 0)%Z then [requiredGID] else []
        else [] in
      (Some {| cdi.ContainerEdits_ := Some {|
                 specs.DeviceNodes := [deviceNode];
                 specs.Hooks := [];
                 specs.Mounts := [];
                 specs.AdditionalGIDs := additionalGIDs |} |}, None)
  end.

(** Modelled from the spec: the conversion of a discovered mount
    ([mount.toEdits], absent from the sources at hand): "for every
    mount, appends a mount-edit entry unchanged". *)
Definition mount_toEdits (m : discover.Mount) : option cdi.ContainerEdits :=
  Some {| cdi.ContainerEdits_ := Some {|
            specs.DeviceNodes := [];
            specs.Hooks := [];
            specs.Mounts :=
              [{| specs.Mount_HostPath := discover.Mount_HostPath m;
                  specs.Mount_ContainerPath := discover.Mount_Path m;
                  specs.Mount_Options := discover.Mount_Options m |}];
            specs.AdditionalGIDs := [] |} |}.

(** Modelled from the spec: the conversion of a discovered hook
    ([hook.toEdits], absent from the sources at hand): "for every hook,
    appends a hook-edit entry unchanged". *)
Definition hook_toEdits (h : discover.Hook) : option cdi.ContainerEdits :=
  Some {| cdi.ContainerEdits_ := Some {|
            specs.DeviceNodes := [];
            specs.Hooks :=
              [{| specs.Hook_HookName := discover.Hook_Lifecycle h;
                  specs.Hook_Path := discover.Hook_Path h;
                  specs.Hook_Args := discover.Hook_Args h |}];
            specs.Mounts := [];
            specs.AdditionalGIDs := [] |} |}.

Record options : Type := {
  allowAdditionalGIDs : bool
}.

(** [NewContainerEdits] creates an empty CDI [ContainerEdits]. *)
Definition NewContainerEdits : cdi.ContainerEdits :=
  {| cdi.ContainerEdits_ := Some specs.empty |}.

(** The loop over the devices of [EditsFromDiscoverer]: the first
    device that cannot be converted ends it with that error. *)
Fixpoint append_devices `{unix.LstatFS} (allow : bool)
         (devices : list discover.Device) (c : cdi.ContainerEdits)
  : cdi.ContainerEdits + error :=
  match devices with
  | [] => inl c
  | d :: rest =>
      match device_toEdits d allow with
      | (_, Some err) => inr err
      | (e, None) => append_devices allow rest (cdi.Append c e)
      end
  end.

(** [EditsFromDiscoverer] creates CDI container edits for the
    discoverer. *)
Definition EditsFromDiscoverer `{unix.LstatFS} {St : Type} (o : options)
           (d : discover.Discover St) (s : St)
  : result (option cdi.ContainerEdits) * St :=
  let '((devices, err), s1) := discover.Devices d s in
  match err with
  | Some e => ((None, Some (ErrWrap "failed to discover devices" e)), s1)
  | None =>
      let '((mounts, err), s2) := discover.Mounts d s1 in
      match err with
      | Some e => ((None, Some (ErrWrap "failed to discover mounts" e)), s2)
      | None =>
          let '((hooks, err), s3) := discover.Hooks d s2 in
          match err with
          | Some e =>
              ((None, Some (ErrWrap "failed to discover hooks" e)), s3)
          | None =>
              match append_devices (allowAdditionalGIDs o) devices
                                   NewContainerEdits with
              | inr e =>
                  ((None,
                    Some (ErrWrap
                            "failed to create container edits for device" e)),
                   s3)
              | inl c =>
                  let c :=
                    fold_left (fun c m => cdi.Append c (mount_toEdits m))
                              mounts c in
                  let c :=
                    fold_left (fun c h => cdi.Append c (hook_toEdits h))
                              hooks c in
                  ((Some c, None), s3)
              end
          end
      end
  end.

(** [type edits struct { cdi.ContainerEdits; logger }]: the logger is
    the list of lines that [Modify] hands back. *)
Record edits : Type := {
  edits_ContainerEdits : cdi.ContainerEdits
}.

(** The lines [Modify] logs for an edit set. *)
Definition Modify_log (ce : specs.ContainerEdits) : list logline :=
  [(Info, "Mounts:")]
    ++ map (fun m => (Info, "Mounting " +:+ specs.Mount_HostPath m +:+ " at "
                              +:+ specs.Mount_ContainerPath m))
           (specs.Mounts ce)
    ++ [(Info, "Devices:")]
    ++ map (fun dn => (Info, "Injecting " +:+ specs.DeviceNode_Path dn))
           (specs.DeviceNodes ce)
    ++ [(Info, "Hooks:")]
    ++ map (fun h => (Info, "Injecting " +:+ specs.Hook_Path h +:+ " "
                              +:+ show_list (specs.Hook_Args h)))
           (specs.Hooks ce).

(** [Modify] applies the defined edits to the incoming OCI spec: the
    error, the spec as it is left, and the lines logged. *)
Definition Modify {Spec : Type} `{cdi.Applier Spec} (e : option edits)
           (spec : Spec) : option error * Spec * list logline :=
  match e with
  | None => (None, spec, [])
  | Some e' =>
      match cdi.ContainerEdits_ (edits_ContainerEdits e') with
      | None => (None, spec, [])
      | Some ce =>
          let '(err, spec') := cdi.Apply ce spec in
          (err, spec', Modify_log ce)
      end
  end.


(** [SpecModifierFromDiscoverer] creates the modifier that applies the
    edits of the discoverer; the edits are copied out of the pointer
    [EditsFromDiscoverer] hands back. *)
Definition SpecModifierFromDiscoverer `{unix.LstatFS} {St : Type}
           (o : options) (d : discover.Discover St) (s : St)
  : outcome (result (option edits)) * St :=
  let '((c, err), s') := EditsFromDiscoverer o d s in
  match err with
  | Some e =>
      (Returned (None, Some (ErrWrap "error constructing container edits" e)),
       s')
  | None =>
      match c with
      | None =>
          (Panicked "invalid memory address or nil pointer dereference", s')
      | Some c' => (Returned (Some {| edits_ContainerEdits := c' |}, None), s')
      end
  end.

End edits.

(** ** [internal/lookup/root]: the driver root *)
Module root.

Record Driver : Type := {
  Root : string;
  librarySearchPaths : list string;
  configSearchPaths : list string;
  version : string;
  libraryRoot : string
}.

(** [filepath.SplitList]: the elements of a colon-separated list; the
    empty string has none. *)
Fixpoint split_colon (s : string) : list string :=
  match s with
  | EmptyString => [EmptyString]
  | String c s' =>
      if Ascii.eqb c ":" then EmptyString :: split_colon s'
      else strings.cons_head c (split_colon s')
  end.

Definition SplitList (path : string) : list string :=
  if String.eqb path "" then [] else split_colon path.

(** [normalizeSearchPaths] expands every element that is a path list. *)
Definition normalizeSearchPaths (paths : list string) : list string :=
  flat_map SplitList paths.

(** [Libraries] returns a locator for driver libraries: the options it
    is built with. *)
Definition Libraries (r : Driver) : lookup.options := {|
  lookup.root := Root r;
  lookup.searchPaths := normalizeSearchPaths (librarySearchPaths r);
  lookup.isOptional := false;
  lookup.count := 0
|}.

(** [libcudaPath] returns the path to [libcuda.so.*.*] in the driver
    root, for the locator [Libraries] hands out.  Indexing an empty
    slice panics. *)
Definition libcudaPath (locator : lookup.Locator)
  : outcome (result string * list logline) :=
  let pattern := "libcuda.so.*.*" in
  let '(paths, err) := locator pattern in
  match err with
  | Some e =>
      Returned (("", Some (ErrWrap ("failed to locate " +:+ pattern) e)), [])
  | None =>
      match paths with
      | [] => Panicked "index out of range [0] with length 0"
      | libcudaPath :: more =>
          let log :=
            match more with
            | [] => []
            | _ => [(Warning, "Selecting " +:+ libcudaPath
                                +:+ " out of multiple libcuda.so paths.")]
            end in
          Returned ((libcudaPath, None), log)
      end
  end.

(** [Version] returns the driver version as a string; the driver comes
    back with the version it has cached. *)
Definition Version `{lookup.Finder} (r : Driver)
  : outcome (result string * list logline * Driver) :=
  if negb (String.eqb (version r) "") then Returned ((version r, None), [], r)
  else
    match libcudaPath (lookup.Locate (Libraries r)) with
    | Panicked msg => Panicked msg
    | Returned ((_, Some err), log) =>
        Returned (("", Some (ErrWrap "failed to locate libcuda.so" err)),
                  log, r)
    | Returned ((libcudaPath, None), log) =>
        let version :=
          strings.TrimPrefix (filepath.Base libcudaPath) "libcuda.so." in
        if String.eqb version "" then
          Returned (("", Some (ErrNew
                     ("failed to determine libcuda.so version from path: "
                        +:+ libcudaPath))), log, r)
        else
          let r' := {| Root := Root r;
                       librarySearchPaths := librarySearchPaths r;
                       configSearchPaths := configSearchPaths r;
                       version := version;
                       libraryRoot := libraryRoot r |} in
          Returned ((version, None), log, r')
    end.

(** [LibraryRoot] returns the folder in which the driver libraries can
    be found. *)
Definition LibraryRoot `{lookup.Finder} (r : Driver)
  : outcome (result string * list logline * Driver) :=
  if negb (String.eqb (libraryRoot r) "")
  then Returned ((libraryRoot r, None), [], r)
  else
    match libcudaPath (lookup.Locate (Libraries r)) with
    | Panicked msg => Panicked msg
    | Returned ((_, Some err), log) =>
        Returned (("", Some (ErrWrap "failed to locate libcuda.so" err)),
                  log, r)
    | Returned ((libcudaPath, None), log) =>
        let r' := {| Root := Root r;
                     librarySearchPaths := librarySearchPaths r;
                     configSearchPaths := configSearchPaths r;
                     version := version r;
                     libraryRoot := filepath.Dir libcudaPath |} in
        Returned ((libraryRoot r', None), log, r')
    end.


(** [xdgDataDirs] finds the paths as specified in the environment
    variable XDG_DATA_DIRS. *)
Definition xdgDataDirs `{os.Environ} : list string :=
  match os.LookupEnv "XDG_DATA_DIRS" with
  | Some dirs =>
      if negb (String.eqb dirs "") then normalizeSearchPaths [dirs]
      else ["/usr/local/share"; "/usr/share"]
  | None => ["/usr/local/share"; "/usr/share"]
  end.

(** [configSearchOptions]: the options the locator for driver configs
    is built with.  If [configSearchPaths] is specified, these paths
    are used as absolute paths, otherwise [/etc] and the data
    directories are searched below the driver root. *)
Definition configSearchOptions `{os.Environ} (r : Driver) : lookup.options :=
  if (0 <? length (configSearchPaths r))%nat then
    {| lookup.root := "/";
       lookup.searchPaths := normalizeSearchPaths (configSearchPaths r);
       lookup.isOptional := false;
       lookup.count := 0 |}
  else
    {| lookup.root := Root r;
       lookup.searchPaths := ["/etc"] ++ xdgDataDirs;
       lookup.isOptional := false;
       lookup.count := 0 |}.

(** [Configs] returns a locator for driver configs. *)
Definition Configs `{lookup.Finder} `{os.Environ} (r : Driver)
  : lookup.Locator :=
  lookup.Locate (configSearchOptions r).

End root.

(** ** [tools/container/toolkit/installer] *)
Module installer.

(** The condition [err != nil && !info.IsDir()] on what [os.Stat]
    handed back: [&&] evaluates its right side only when the left one
    holds, and a method call on a nil [FileInfo] panics. *)
Definition stat_failed_and_not_dir (r : result (option os.FileInfo))
  : outcome bool :=
  let '(info, err) := r in
  match err with
  | None => Returned false
  | Some _ =>
      match info with
      | None => Panicked "invalid memory address or nil pointer dereference"
      | Some i => Returned (negb (os.IsDir i))
      end
  end.

(** [resolvePackageType]. *)
Definition resolvePackageType `{os.StatFS} (hostRoot packageType : string)
  : outcome (result string) :=
  if negb (String.eqb packageType "") && negb (String.eqb packageType "auto")
  then Returned (packageType, None)
  else
    match stat_failed_and_not_dir
            (os.Stat (filepath.Join [hostRoot; "/usr/bin/rpm"])) with
    | Panicked msg => Panicked msg
    | Returned true => Returned ("rpm", None)
    | Returned false =>
        match stat_failed_and_not_dir
                (os.Stat (filepath.Join [hostRoot; "/usr/bin/dpkg"])) with
        | Panicked msg => Panicked msg
        | Returned true => Returned ("deb", None)
        | Returned false => Returned ("deb", None)
        end
    end.

(** The root of the artifacts of a package type ([newArtifactRoot]). *)
Definition artifactRoot_path (packageType : string) : result string :=
  if String.eqb packageType "deb" then ("/artifacts/deb", None)
  else if String.eqb packageType "rpm" then ("/artifacts/rpm", None)
  else ("", Some (ErrNew ("invalid package type: " +:+ packageType))).


(** *** The installer of the toolkit files *)

(** Errors as the installer hands them on: an error of a single
    operation, the errors joined by [errors.Join], or such an error
    wrapped below a message by [fmt.Errorf("...: %w", err)]. *)
#[warnings="-register-all"]
Inductive joined : Type :=
| Plain (e : error)
| Joined (errs : list joined)
| Wrapped (msg : string) (inner : joined).

(** [errors.Join]: nil values are discarded, and the result is nil when
    every value is. *)
Definition errors_Join (errs : list (option joined)) : option joined :=
  match omap id errs with
  | [] => None
  | es => Some (Joined es)
  end.

(** The [Installer] interface: [Install(destDir)] on a world [W]. *)
Definition Installer (W : Type) : Type := string -> W -> option joined * W.

Record artifactRoot : Type := {
  path : string;
  libraries : lookup.options;
  executables : string      (* the root of the executable locator *)
}.

(** [newArtifactRoot]: the artifacts of a package type, with a library
    locator capped to one match. *)
Definition newArtifactRoot (packageType : string) : result (option artifactRoot) :=
  let mk (path : string) : result (option artifactRoot) :=
    (Some {| path := path;
             libraries := {| lookup.root := path;
                             lookup.searchPaths :=
                               ["/usr/lib64"; "/usr/lib/x86_64-linux-gnu";
                                "/usr/lib/aarch64-linux-gnu"];
                             lookup.isOptional := false;
                             lookup.count := 1 |};
             executables := path |}, None) in
  if String.eqb packageType "deb" then mk "/artifacts/deb"
  else if String.eqb packageType "rpm" then mk "/artifacts/rpm"
  else (None, Some (ErrNew ("invalid package type: " +:+ packageType))).

(** [findLibrary]. *)
Definition findLibrary `{lookup.Finder} (r : artifactRoot) (name : string)
  : result string :=
  let '(candidates, err) := lookup.Locate (libraries r) name in
  match err with
  | Some e => ("", Some (ErrWrap "error locating library" e))
  | None =>
      match candidates with
      | [] => ("", Some (ErrNew ("library " +:+ name +:+ " not found")))
      | c0 :: _ => (c0, None)
      end
  end.

(** [findExecutable], on the executable locator of the artifact root. *)
Definition findExecutable (locator : lookup.Locator) (name : string)
  : result string :=
  let '(candidates, err) := locator name in
  match err with
  | Some e => ("", Some (ErrWrap "error locating executable" e))
  | None =>
      match candidates with
      | [] => ("", Some (ErrNew ("executable " +:+ name +:+ " not found")))
      | c0 :: _ => (c0, None)
      end
  end.

Record toolkitInstaller : Type := {
  toolkit_artifactRoot : option artifactRoot;
  hostRoot : string;
  packageType : string;
  ignoreErrors : bool
}.

(** [type Option]: a function that sets a field of the installer. *)
Definition Option : Type := toolkitInstaller -> toolkitInstaller.

Definition WithArtifactRoot (a : option artifactRoot) : Option := fun ti =>
  {| toolkit_artifactRoot := a; hostRoot := hostRoot ti;
     packageType := packageType ti; ignoreErrors := ignoreErrors ti |}.

Definition WithIgnoreErrors (b : bool) : Option := fun ti =>
  {| toolkit_artifactRoot := toolkit_artifactRoot ti; hostRoot := hostRoot ti;
     packageType := packageType ti; ignoreErrors := b |}.

Definition WithPackageType (p : string) : Option := fun ti =>
  {| toolkit_artifactRoot := toolkit_artifactRoot ti; hostRoot := hostRoot ti;
     packageType := p; ignoreErrors := ignoreErrors ti |}.

Definition WithHostRoot (h : string) : Option := fun ti =>
  {| toolkit_artifactRoot := toolkit_artifactRoot ti; hostRoot := h;
     packageType := packageType ti; ignoreErrors := ignoreErrors ti |}.

(** [New]: the installer the options describe; without an artifact root
    given, that of the resolved package type. *)
Definition New `{os.StatFS} (opts : list Option)
  : outcome (result (option toolkitInstaller)) :=
  let t := fold_left (fun t opt => opt t) opts
                     {| toolkit_artifactRoot := None; hostRoot := "";
                        packageType := ""; ignoreErrors := false |} in
  match toolkit_artifactRoot t with
  | Some _ => Returned (Some t, None)
  | None =>
      match resolvePackageType (hostRoot t) (packageType t) with
      | Panicked msg => Panicked msg
      | Returned (_, Some err) => Returned (None, Some err)
      | Returned (resolvedPackageType, None) =>
          match newArtifactRoot resolvedPackageType with
          | (_, Some err) => Returned (None, Some err)
          | (a, None) => Returned (Some (WithArtifactRoot a t), None)
          end
      end
  end.

(** The installers of the libraries and of the executables of an
    installer: [collectLibraries] and [collectExecutables]. *)
Class Collector (W : Type) : Type := {
  collectLibraries : toolkitInstaller -> W -> result (list (Installer W));
  collectExecutables :
    toolkitInstaller -> string -> W -> result (list (Installer W))
}.

(** The loop of [Install]: every installer is run, and its error
    joined to those before. *)
Fixpoint Install_loop {W : Type} (installers : list (Installer W))
         (destDir : string) (errs : option joined) (w : W)
  : option joined * W :=
  match installers with
  | [] => (errs, w)
  | i :: rest =>
      let '(err, w') := i destDir w in
      Install_loop rest destDir (errors_Join [errs; err]) w'
  end.

(** [Install] ensures that the required toolkit files are installed in
    the specified directory. *)
Definition Install {W : Type} `{Collector W} (t : toolkitInstaller)
           (destDir : string) (w : W) : option joined * W :=
  let '(libraries_, err) := collectLibraries t w in
  match err with
  | Some e => (Some (Wrapped "failed to collect libraries" (Plain e)), w)
  | None =>
      let '(executables_, err) := collectExecutables t destDir w in
      match err with
      | Some e => (Some (Wrapped "failed to collect executables" (Plain e)), w)
      | None => Install_loop (libraries_ ++ executables_) destDir None w
      end
  end.

(** [os.Symlink] on a world. *)
Class Symlinker (W : Type) : Type :=
  os_Symlink : W -> string -> string -> option error * W.

(** [installSymlinkStub]. *)
Definition installSymlinkStub {W : Type} `{Symlinker W} (target link : string)
           (w : W) : option error * W :=
  let '(err, w') := os_Symlink w target link in
  match err with
  | Some e =>
      (Some (ErrWrap ("error creating symlink '" +:+ link +:+ "' => '"
                        +:+ target +:+ "'") e), w')
  | None => (None, w')
  end.

Record symlink : Type := {
  linkname : string;
  target : string
}.

(** [symlink.Install]. *)
Definition symlink_Install {W : Type} `{Symlinker W} (s : symlink)
  : Installer W := fun destDir w =>
  let symlinkPath := filepath.Join [destDir; linkname s] in
  let '(err, w') := installSymlinkStub (target s) symlinkPath w in
  (option_map Plain err, w').

(** The text of an error ([Error()]): joined errors are written one to
    a line. *)
Fixpoint joined_text (j : joined) : string :=
  match j with
  | Plain e => error_text e
  | Joined errs => String.concat (String "010" "") (map joined_text errs)
  | Wrapped msg inner => msg +:+ ": " +:+ joined_text inner
  end.

End installer.

(** ** The [create-dot-so-symlinks] command *)
Module dotsosymlinks.

(** What the command asks of the operating system, on a file system
    [FS]: the library search of the locator, [filepath.Glob] and
    [os.Symlink] (which leaves the file system changed, or fails). *)
Class OS (FS : Type) : Type := {
  Find : FS -> lookup.Finder;
  Glob : FS -> string -> result (list string);
  Symlink : FS -> string -> string -> option error * FS;
  (** a symlink call that fails leaves the file system as it was *)
  Symlink_failed : forall fs oldname newname e fs',
    Symlink fs oldname newname = (Some e, fs') -> fs' = fs
}.

(** What it asks of [internal/oci]: the container state loaded from a
    file (or standard input), and the root of that container. *)
Class OCI (State : Type) : Type := {
  LoadContainerState : string -> result State;
  GetContainerRoot : State -> result string
}.

Record config : Type := {
  containerSpec : string;
  driverVersion : string
}.

(** The body of the loop of [run] for one located library. *)
Definition run_lib {FS} `{OS FS} (cfg : config) (fs : FS) (lib : string)
  : FS :=
  if negb (strings.HasSuffix lib (".so." +:+ driverVersion cfg)) then fs
  else
    let libSoPath := strings.TrimSuffix lib ("." +:+ driverVersion cfg) in
    let '(libSoXPaths, err) := Glob fs (libSoPath +:+ ".[0-9]") in
    match libSoXPaths, err with
    | [p], None =>
        let '(_, fs') := Symlink fs (filepath.Base p) libSoPath in
        fs'
    | _, _ => fs
    end.

(** [run]: the error handed back and the file system as it is left. *)
Definition run {FS State} `{OS FS} `{OCI State} (cfg : config) (fs : FS)
  : option error * FS :=
  let '(s, err) := LoadContainerState (containerSpec cfg) in
  match err with
  | Some e => (Some (ErrWrap "failed to load container state" e), fs)
  | None =>
      let '(containerRoot, err) := GetContainerRoot s in
      match err with
      | Some e => (Some (ErrWrap "failed to determined container root" e), fs)
      | None =>
          let locator :=
            lookup.Locate (H := Find fs)
              {| lookup.root := containerRoot;
                 lookup.searchPaths := [];
                 lookup.isOptional := true;
                 lookup.count := 0 |} in
          let '(libs, err) := locator ("*.so." +:+ driverVersion cfg) in
          match err with
          | Some e =>
              (Some (ErrWrap ("failed to locate libraries for driver version "
                                +:+ driverVersion cfg) e), fs)
          | None => (None, fold_left (run_lib cfg) libs fs)
          end
      end
  end.

End dotsosymlinks.

(** ** The vocabulary of the specification *)
(** ** [internal/config]: feature toggles *)
Module config.

Definition featureName : Type := string.
Definition feature : Type := bool.

Definition FeatureAllowAdditionalGIDs : featureName := "allow-additional-gids".
Definition FeatureGDRCopy : featureName := "gdrcopy".
Definition FeatureGDS : featureName := "gds".
Definition FeatureMOFED : featureName := "mofed".
Definition FeatureNVSWITCH : featureName := "nvswitch".

Definition featureEnabled : feature := true.
Definition featureDisabled : feature := false.

(** [features] specifies a set of named features; a nil pointer is a
    feature left unset. *)
Record features : Type := {
  GDS : option feature;
  MOFED : option feature;
  NVSWITCH : option feature;
  GDRCopy : option feature;
  AllowAdditionalGIDs : option feature
}.

(** [getenver]: an environment to read variables from (the process, a
    container image); an unset variable reads as the empty string. *)
Definition getenver : Type := string -> string.

(** The loop of [isEnabled] over the environments: the first value
    that is recognised decides. *)
Fixpoint isEnabled_loop (envvar : string) (ins : list getenver) : option bool :=
  match ins with
  | [] => None
  | in_ :: rest =>
      let v := in_ envvar in
      if String.eqb v "enabled" || String.eqb v "true" then Some true
      else if String.eqb v "disabled" || String.eqb v "false" then Some false
      else isEnabled_loop envvar rest
  end.

(** [isEnabled] checks whether a feature is enabled. *)
Definition isEnabled (f : option feature) (envvar : string)
           (ins : list getenver) : bool :=
  match (if negb (String.eqb envvar "") then isEnabled_loop envvar ins
         else None) with
  | Some b => b
  | None =>
      match f with
      | Some b => b
      | None => false
      end
  end.

(** The environment variable of each feature. *)
Definition featureEnvvars : gmap featureName string :=
  <[FeatureGDS := "NVIDIA_GDS"]>
    (<[FeatureMOFED := "NVIDIA_MOFED"]>
       (<[FeatureNVSWITCH := "NVIDIA_NVSWITCH"]>
          (<[FeatureGDRCopy := "NVIDIA_GDRCOPY"]>
             (<[FeatureAllowAdditionalGIDs := "NVIDIA_ALLOW_ADDITIONAL_GIDS"]> ∅)))).

(** [IsEnabled] checks whether a specified named feature is enabled. *)
Definition IsEnabled (fs : features) (n : featureName) (ins : list getenver)
  : bool :=
  let envvar := default "" (featureEnvvars !! n) in
  if String.eqb n FeatureGDS then isEnabled (GDS fs) envvar ins
  else if String.eqb n FeatureMOFED then isEnabled (MOFED fs) envvar ins
  else if String.eqb n FeatureNVSWITCH then isEnabled (NVSWITCH fs) envvar ins
  else if String.eqb n FeatureGDRCopy then isEnabled (GDRCopy fs) envvar ins
  else if String.eqb n FeatureAllowAdditionalGIDs
       then isEnabled (AllowAdditionalGIDs fs) envvar ins
  else false.

End config.

(** ** [go-nvlib]: the PCI devices of the device inventory *)
Module nvpci.

(** The fields of [NvidiaPCIDevice] the sources read: [IommuGroup] is an
    [int], [Device] a [uint16]. *)
Record NvidiaPCIDevice : Type := {
  Address : string;
  Driver : string;
  IommuGroup : Z;
  Device : N
}.

(** [nvpcilib.GetGPUs]. *)
Class Interface : Type := GetGPUs : result (list NvidiaPCIDevice).

End nvpci.

(** ** [pkg/nvcdi]: the VFIO mode *)
Module nvcdi.

(** [specs.Device]: a named device with its container edits. *)
Record Device : Type := {
  Name : string;
  ContainerEdits : specs.ContainerEdits
}.

(** [%d] of an index, [%d] of an [int], [%x] of an unsigned number. *)
Definition fmt_index (n : nat) : string :=
  DecimalString.NilEmpty.string_of_uint (Nat.to_uint n).
Definition fmt_d (z : Z) : string :=
  DecimalString.NilEmpty.string_of_int (Z.to_int z).
Definition fmt_x (n : N) : string :=
  HexadecimalString.NilEmpty.string_of_uint (N.to_hex_uint n).

(** The loop of [GetAllDeviceSpecs], from the index [idx] on: the
    device specs appended and the lines logged. *)
Fixpoint GetAllDeviceSpecs_loop (idx : nat)
         (devices : list nvpci.NvidiaPCIDevice)
  : list Device * list logline :=
  match devices with
  | [] => ([], [])
  | dev :: rest =>
      let '(deviceSpecs, log) := GetAllDeviceSpecs_loop (S idx) rest in
      if String.eqb (nvpci.Driver dev) "vfio-pci" then
        ({| Name := fmt_index idx;
            ContainerEdits := {|
              specs.DeviceNodes :=
                [{| specs.DeviceNode_Path :=
                      "/dev/vfio/" +:+ fmt_d (nvpci.IommuGroup dev);
                    specs.DeviceNode_HostPath := "" |}];
              specs.Hooks := [];
              specs.Mounts := [];
              specs.AdditionalGIDs := [] |} |} :: deviceSpecs,
         (Debug, "Found NVIDIA device: address=" +:+ nvpci.Address dev
                   +:+ ", driver=" +:+ nvpci.Driver dev
                   +:+ ", iommu_group=" +:+ fmt_d (nvpci.IommuGroup dev)
                   +:+ ", deviceId=" +:+ fmt_x (nvpci.Device dev)) :: log)
      else (deviceSpecs, log)
  end.

(** [GetAllDeviceSpecs] returns the device specs for all available
    devices. *)
Definition GetAllDeviceSpecs `{nvpci.Interface}
  : result (list Device) * list logline :=
  let '(devices, err) := nvpci.GetGPUs in
  match err with
  | Some e => (([], Some (ErrWrap "failed getting NVIDIA GPUs" e)), [])
  | None =>
      let '(deviceSpecs, log) := GetAllDeviceSpecs_loop 0 devices in
      ((deviceSpecs, None), log)
  end.

(** [GetCommonEdits] returns common edits for all devices: there are
    none. *)
Definition GetCommonEdits : result (option cdi.ContainerEdits) :=
  (Some {| cdi.ContainerEdits_ := Some specs.empty |}, None).

End nvcdi.

(** ** [tools/container/toolkit]: installing the toolkit *)
Module toolkit.

Definition DefaultNvidiaDriverRoot : string := "/run/nvidia/driver".
Definition nvidiaContainerToolkitConfigSource : string :=
  "/etc/nvidia-container-runtime/config.toml".
Definition configFilename : string := "config.toml".
Definition toolkitPidFilename : string := "toolkit.pid".

(** [Options]; a [cli.StringSlice] is the list of its values.  The
    field [createDeviceNodes] is named [createDeviceNodes_] here, next
    to the function of that name. *)
Record Options : Type := {
  DriverRoot : string;
  DevRoot : string;
  DriverRootCtrPath : string;
  DevRootCtrPath : string;
  ContainerRuntimeMode : string;
  ContainerRuntimeDebug : string;
  ContainerRuntimeLogLevel : string;
  ContainerRuntimeModesCdiDefaultKind : string;
  ContainerRuntimeModesCDIAnnotationPrefixes : list string;
  ContainerRuntimeRuntimes : list string;
  ContainerRuntimeHookSkipModeDetection : bool;
  ContainerCLIDebug : string;
  cdiEnabled : bool;
  cdiOutputDir : string;
  cdiKind : string;
  cdiVendor : string;
  cdiClass : string;
  createDeviceNodes_ : list string;
  acceptNVIDIAVisibleDevicesWhenUnprivileged : bool;
  acceptNVIDIAVisibleDevicesAsVolumeMounts : bool;
  ignoreErrors : bool;
  optInFeatures : list string;
  packageType : string
}.

(** The options with the four fields [ValidateOptions] assigns. *)
Definition assign (opts : Options) (vendor class : string) (enabled : bool)
           (modes : list string) : Options :=
  {| DriverRoot := DriverRoot opts;
     DevRoot := DevRoot opts;
     DriverRootCtrPath := DriverRootCtrPath opts;
     DevRootCtrPath := DevRootCtrPath opts;
     ContainerRuntimeMode := ContainerRuntimeMode opts;
     ContainerRuntimeDebug := ContainerRuntimeDebug opts;
     ContainerRuntimeLogLevel := ContainerRuntimeLogLevel opts;
     ContainerRuntimeModesCdiDefaultKind := ContainerRuntimeModesCdiDefaultKind opts;
     ContainerRuntimeModesCDIAnnotationPrefixes :=
       ContainerRuntimeModesCDIAnnotationPrefixes opts;
     ContainerRuntimeRuntimes := ContainerRuntimeRuntimes opts;
     ContainerRuntimeHookSkipModeDetection :=
       ContainerRuntimeHookSkipModeDetection opts;
     ContainerCLIDebug := ContainerCLIDebug opts;
     cdiEnabled := enabled;
     cdiOutputDir := cdiOutputDir opts;
     cdiKind := cdiKind opts;
     cdiVendor := vendor;
     cdiClass := class;
     createDeviceNodes_ := modes;
     acceptNVIDIAVisibleDevicesWhenUnprivileged :=
       acceptNVIDIAVisibleDevicesWhenUnprivileged opts;
     acceptNVIDIAVisibleDevicesAsVolumeMounts :=
       acceptNVIDIAVisibleDevicesAsVolumeMounts opts;
     ignoreErrors := ignoreErrors opts;
     optInFeatures := optInFeatures opts;
     packageType := packageType opts |}.

(** The lines written through [logrus], each with its level. *)
Inductive Level : Type := InfoLevel | WarningLevel | ErrorLevel.
Definition entry : Type := (Level * string)%type.

(** The [parser] package of the CDI library. *)
Class Parser : Type := {
  ParseQualifier : string -> string * string;
  ValidateVendorName : string -> option error;
  ValidateClassName : string -> option error
}.

(** The loop of [ValidateOptions] over the device node modes: the
    error of the first invalid mode, or whether a mode left of every
    invalid one disables the creation of device nodes. *)
Fixpoint ValidateOptions_modes (modes : list string) : error + bool :=
  match modes with
  | [] => inr false
  | mode :: rest =>
      if negb (String.eqb mode "") && negb (String.eqb mode "none")
         && negb (String.eqb mode "control")
      then inl (ErrNew ("invalid --create-device-nodes value: " +:+ mode))
      else if String.eqb mode "" || String.eqb mode "none" then inr true
      else ValidateOptions_modes rest
  end.

(** [ValidateOptions]: the error, the options as they are left, and
    the lines logged. *)
Definition ValidateOptions `{Parser} (opts : Options) (toolkitRoot : string)
  : option error * Options * list entry :=
  if String.eqb toolkitRoot "" then
    (Some (ErrNew ("invalid --toolkit-root option: " +:+ toolkitRoot)), opts, [])
  else
    let '(vendor, class) := ParseQualifier (cdiKind opts) in
    match ValidateVendorName vendor with
    | Some err => (Some (ErrWrap "invalid CDI vendor name" err), opts, [])
    | None =>
        match ValidateClassName class with
        | Some err => (Some (ErrWrap "invalid CDI class name" err), opts, [])
        | None =>
            let opts := assign opts vendor class (cdiEnabled opts)
                               (createDeviceNodes_ opts) in
            let '(opts, log1) :=
              if cdiEnabled opts && String.eqb (cdiOutputDir opts) "" then
                (assign opts (cdiVendor opts) (cdiClass opts) false
                        (createDeviceNodes_ opts),
                 [(WarningLevel,
                   "Skipping CDI spec generation (no output directory specified)")])
              else (opts, []) in
            match ValidateOptions_modes (createDeviceNodes_ opts) with
            | inl err => (Some err, opts, log1)
            | inr isDisabled =>
                let '(isDisabled, log2) :=
                  if negb (cdiEnabled opts) && negb isDisabled then
                    (true,
                     [(InfoLevel,
                       "disabling device node creation since --cdi-enabled=false")])
                  else (isDisabled, []) in
                let opts :=
                  if isDisabled
                  then assign opts (cdiVendor opts) (cdiClass opts)
                              (cdiEnabled opts) []
                  else opts in
                (None, opts, log1 ++ log2)
            end
        end
    end.

(** What the installation asks of the operating system, on a world
    [W]: [os.ReadDir] (the names of the entries), whether an error is
    [os.ErrNotExist], [os.RemoveAll] and [os.MkdirAll]. *)
Class OS (W : Type) : Type := {
  ReadDir : W -> string -> result (list string);
  IsNotExist : error -> bool;
  RemoveAll : W -> string -> option error * W;
  MkdirAll : W -> string -> option error * W
}.

Definition could_not_remove (name : string) (err : option error) : list entry :=
  match err with
  | Some e =>
      [(WarningLevel, "could not remove " +:+ name +:+ ": " +:+ error_text e)]
  | None => []
  end.

(** The loop of [TryDelete] over the contents of the toolkit folder. *)
Fixpoint TryDelete_loop {W : Type} `{OS W} (toolkitRoot : string)
         (contents : list string) (w : W) : W * list entry :=
  match contents with
  | [] => (w, [])
  | content :: rest =>
      if String.eqb content toolkitPidFilename
      then TryDelete_loop toolkitRoot rest w
      else
        let name := filepath.Join [toolkitRoot; content] in
        let '(err, w1) := RemoveAll w name in
        let '(w2, log) := TryDelete_loop toolkitRoot rest w1 in
        (w2, could_not_remove name err ++ log)
  end.

(** [TryDelete] attempts to remove the specified toolkit folder. *)
Definition TryDelete {W : Type} `{OS W} (toolkitRoot : string) (w : W)
  : option error * W * list entry :=
  let log0 :=
    [(InfoLevel, "Attempting to delete NVIDIA container toolkit from '"
                   +:+ toolkitRoot +:+ "'")] in
  let '(contents, err) := ReadDir w toolkitRoot in
  match err with
  | Some e =>
      if IsNotExist e then (None, w, log0)
      else (Some (ErrWrap ("failed to read the contents of " +:+ toolkitRoot) e),
            w, log0)
  | None =>
      let '(w1, log1) := TryDelete_loop toolkitRoot contents w in
      let '(err, w2) := RemoveAll w1 toolkitRoot in
      (None, w2, log0 ++ log1 ++ could_not_remove toolkitRoot err)
  end.

(** [createDirectories]. *)
Fixpoint createDirectories {W : Type} `{OS W} (dir : list string) (w : W)
  : option error * W * list entry :=
  match dir with
  | [] => (None, w, [])
  | d :: rest =>
      let line := (InfoLevel, "Creating directory '" +:+ d +:+ "'") in
      let '(err, w1) := MkdirAll w d in
      match err with
      | Some e => (Some (ErrWrap "error creating directory" e), w1, [line])
      | None =>
          let '(err', w2, log) := createDirectories rest w1 in
          (err', w2, line :: log)
      end
  end.

(** The [nvdevices] package: the library for a dev root, and the
    creation of the NVIDIA control device nodes below it. *)
Class NVDevices (W : Type) : Type := {
  nvdevices_New : W -> string -> option error;
  CreateNVIDIAControlDevices : W -> string -> option error * W
}.

(** The loop of [createDeviceNodes] over the modes. *)
Fixpoint createDeviceNodes_loop {W : Type} `{NVDevices W} (devRoot : string)
         (modes : list string) (w : W) : option error * W * list entry :=
  match modes with
  | [] => (None, w, [])
  | mode :: rest =>
      let line :=
        (InfoLevel, "Creating " +:+ mode +:+ " device nodes at " +:+ devRoot) in
      if negb (String.eqb mode "control") then
        let '(err, w1, log) := createDeviceNodes_loop devRoot rest w in
        (err, w1,
         line :: (WarningLevel, "Unrecognised device mode: " +:+ mode) :: log)
      else
        let '(err, w1) := CreateNVIDIAControlDevices w devRoot in
        match err with
        | Some e =>
            (Some (ErrWrap "failed to create control device nodes" e), w1, [line])
        | None =>
            let '(err', w2, log) := createDeviceNodes_loop devRoot rest w1 in
            (err', w2, line :: log)
        end
  end.

(** [createDeviceNodes]. *)
Definition createDeviceNodes {W : Type} `{NVDevices W} (opts : Options) (w : W)
  : option error * W * list entry :=
  match createDeviceNodes_ opts with
  | [] => (None, w, [])
  | modes =>
      match nvdevices_New w (DevRootCtrPath opts) with
      | Some e => (Some (ErrWrap "failed to create library" e), w, [])
      | None => createDeviceNodes_loop (DevRootCtrPath opts) modes w
      end
  end.

(** The [nvcdi] library in management mode, the transformation of the
    driver and dev roots of a spec, and the naming and saving of a spec
    by the CDI library; [LibT] is the library, [SpecT] a spec. *)
Class CDISpecs (W LibT SpecT : Type) : Type := {
  nvcdi_New : W -> string -> string -> string -> string -> string -> LibT + error;
  GetSpec : W -> LibT -> SpecT + error;
  Transform : string -> string -> string -> string -> SpecT -> SpecT + error;
  GenerateNameForSpec : SpecT -> string + error;
  Save : W -> SpecT -> string -> option error * W
}.

(** [generateCDISpec] generates a CDI spec for use in management
    containers. *)
Definition generateCDISpec {W LibT SpecT : Type} `{CDISpecs W LibT SpecT}
           (opts : Options) (nvidiaCDIHookPath : string) (w : W)
  : option error * W * list entry :=
  if negb (cdiEnabled opts) then (None, w, [])
  else
    let log := [(InfoLevel, "Generating CDI spec for management containers")] in
    match nvcdi_New w (DriverRootCtrPath opts) (DevRootCtrPath opts)
                    nvidiaCDIHookPath (cdiVendor opts) (cdiClass opts) with
    | inr e =>
        (Some (ErrWrap
                 "failed to create CDI library for management containers" e),
         w, log)
    | inl cdilib =>
        match GetSpec w cdilib with
        | inr e =>
            (Some (ErrWrap
                     "failed to genereate CDI spec for management containers" e),
             w, log)
        | inl spec =>
            match Transform (DriverRootCtrPath opts) (DriverRoot opts)
                            (DevRootCtrPath opts) (DevRoot opts) spec with
            | inr e =>
                (Some (ErrWrap "failed to transform driver root in CDI spec" e),
                 w, log)
            | inl spec' =>
                match GenerateNameForSpec spec' with
                | inr e =>
                    (Some (ErrWrap
                       "failed to generate CDI name for management containers" e),
                     w, log)
                | inl name =>
                    let '(err, w') :=
                      Save w spec' (filepath.Join [cdiOutputDir opts; name]) in
                    match err with
                    | Some e =>
                        (Some (ErrWrap
                           "failed to save CDI spec for management containers" e),
                         w', log)
                    | None => (None, w', log)
                    end
                end
            end
        end
    end.

(** The file status of a world, for the detection of the package type. *)
Class HostStat (W : Type) : Type := host_stat : W -> os.StatFS.

(** [installToolkitConfig] writes the config file of the toolkit
    through the config package; [Install] looks at its error only. *)
Class ConfigInstaller (W : Type) : Type :=
  installToolkitConfig :
    W -> string -> string -> string -> string -> Options -> option error * W.

(** The error of a step of [Install] that ends the installation: the
    error of the step, unless errors are ignored. *)
Definition fatal (ignore : bool) (failed : option installer.joined)
  : option installer.joined :=
  if ignore then None else failed.

(** The line logged for an error that is passed over. *)
Definition ignoring (e : installer.joined) : entry :=
  (ErrorLevel, "Ignoring error: " +:+ installer.joined_text e).

(** [Install] installs the components of the NVIDIA container toolkit.
    Any existing installation is removed. *)
Definition Install {W LibT SpecT : Type} `{OS W} `{HostStat W}
           `{installer.Collector W} `{ConfigInstaller W} `{NVDevices W}
           `{CDISpecs W LibT SpecT}
           (opts : Options) (toolkitRoot hostRoot : string) (w : W)
  : outcome (option installer.joined * W * list entry) :=
  let ignore := ignoreErrors opts in
  let log :=
    [(InfoLevel, "Installing NVIDIA container toolkit to '" +:+ toolkitRoot +:+ "'");
     (InfoLevel, "Removing existing NVIDIA container toolkit installation")] in
  let '(err, w) := RemoveAll w toolkitRoot in
  let failed :=
    option_map (fun e => installer.Plain
                           (ErrWrap "error removing toolkit directory" e)) err in
  match fatal ignore failed with
  | Some e => Returned (Some e, w, log)
  | None =>
  let log := log ++ match failed with Some e => [ignoring e] | None => [] end in
  let toolkitConfigDir :=
    filepath.Join [toolkitRoot; ".config"; "nvidia-container-runtime"] in
  let toolkitConfigPath := filepath.Join [toolkitConfigDir; configFilename] in
  let '(err, w, log') := createDirectories [toolkitRoot; toolkitConfigDir] w in
  let log := log ++ log' in
  let failed :=
    option_map (fun e => installer.Plain
                           (ErrWrap "could not create required directories" e))
               err in
  match fatal ignore failed with
  | Some e => Returned (Some e, w, log)
  | None =>
  let log := log ++ match failed with Some e => [ignoring e] | None => [] end in
  match installer.New (H := host_stat w)
          [installer.WithHostRoot hostRoot;
           installer.WithPackageType (packageType opts)] with
  | Panicked msg => Panicked msg
  | Returned (toolkit, err) =>
  let failed :=
    option_map (fun e => installer.Plain
                           (ErrWrap "could not create toolkit installer" e)) err in
  match fatal ignore failed with
  | Some e => Returned (Some e, w, log)
  | None =>
  let log := log ++ match failed with Some e => [ignoring e] | None => [] end in
  match toolkit with
  | None => Panicked "invalid memory address or nil pointer dereference"
  | Some toolkit =>
  let '(err, w) := installer.Install toolkit toolkitRoot w in
  let failed :=
    option_map (installer.Wrapped "could not install toolkit components") err in
  match fatal ignore failed with
  | Some e => Returned (Some e, w, log)
  | None =>
  let log := log ++ match failed with Some e => [ignoring e] | None => [] end in
  let nvidiaContainerCliExecutable :=
    filepath.Join [toolkitRoot; "nvidia-container-cli"] in
  let nvidiaCTKPath := filepath.Join [toolkitRoot; "nvidia-ctk"] in
  let nvidiaCDIHookPath := filepath.Join [toolkitRoot; "nvidia-cdi-hook"] in
  let nvidiaContainerRuntimeHookPath :=
    filepath.Join [toolkitRoot; "nvidia-container-runtime-hook"] in
  let '(err, w) :=
    installToolkitConfig w toolkitConfigPath nvidiaContainerCliExecutable
                         nvidiaCTKPath nvidiaContainerRuntimeHookPath opts in
  let failed :=
    option_map (fun e => installer.Plain
                  (ErrWrap "error installing NVIDIA container toolkit config" e))
               err in
  match fatal ignore failed with
  | Some e => Returned (Some e, w, log)
  | None =>
  let log := log ++ match failed with Some e => [ignoring e] | None => [] end in
  let '(err, w, log') := createDeviceNodes opts w in
  let log := log ++ log' in
  let failed :=
    option_map (fun e => installer.Plain
                           (ErrWrap "error creating device nodes" e)) err in
  match fatal ignore failed with
  | Some e => Returned (Some e, w, log)
  | None =>
  let log := log ++ match failed with Some e => [ignoring e] | None => [] end in
  let '(err, w, log') := generateCDISpec opts nvidiaCDIHookPath w in
  let log := log ++ log' in
  let failed :=
    option_map (fun e => installer.Plain
                           (ErrWrap "error generating CDI specification" e)) err in
  match fatal ignore failed with
  | Some e => Returned (Some e, w, log)
  | None =>
  let log := log ++ match failed with Some e => [ignoring e] | None => [] end in
  Returned (None, w, log)
  end end end end end end end end end.

End toolkit.

Module Spec.

(** The path that is stat'd for a device: [HostPath] if non-empty,
    else [Path]. *)
Definition stat_path (d : discover.Device) : string :=
  match discover.Device_HostPath d with
  | EmptyString => discover.Device_Path d
  | p => p
  end.

(** A char-special file: the file-type bits of its mode are those of
    a character device. *)
Definition is_char_special (st : unix.Stat_t) : bool :=
  (Z.land (unix.Mode st) unix.S_IFMT =? unix.S_IFCHR)%Z.

(** The read and write permission bits for "other": bits 2 and 1 of
    the mode ([r] is 04, [w] is 02). *)
Definition other_read (st : unix.Stat_t) : bool := Z.testbit (unix.Mode st) 2.
Definition other_write (st : unix.Stat_t) : bool := Z.testbit (unix.Mode st) 1.

(** The group id a device requires, in the words of the specification:
    0 when the path is empty, cannot be stat'd or is no char-special
    file; the owning group when "other" may neither read nor write;
    0 otherwise. *)
Definition required_gid `{unix.LstatFS} (d : discover.Device) : Z :=
  match stat_path d with
  | EmptyString => 0%Z
  | path =>
      match unix.Lstat path with
      | inr _ => 0%Z
      | inl st =>
          if is_char_special st then
            if other_read st || other_write st then 0%Z else unix.Gid st
          else 0%Z
      end
  end.

(** The additional group ids of the edits a conversion hands back. *)
Definition additionalGIDs_of (r : result (option cdi.ContainerEdits))
  : list Z :=
  match r with
  | (Some e, _) =>
      match cdi.ContainerEdits_ e with
      | Some ce => specs.AdditionalGIDs ce
      | None => []
      end
  | (None, _) => []
  end.

(** The serialized form of the device node of a device. *)
Definition serialized (d : discover.Device) : list (string * string) :=
  specs.DeviceNode_fields (fst (edits.device_toSpec d)).

(** The rule on [HostPath] as the specification words it: the
    serialized node omits [hostPath] exactly when [HostPath] equals
    [Path], and where they differ both are present and distinct. *)
Definition hostPath_rule_as_stated (d : discover.Device) : Prop :=
  (specs.field "hostPath" (serialized d) = None
   <-> discover.Device_HostPath d = discover.Device_Path d)
  /\ (discover.Device_HostPath d <> discover.Device_Path d ->
      exists h p,
        specs.field "hostPath" (serialized d) = Some h
        /\ specs.field "path" (serialized d) = Some p
        /\ h <> p).

(** The device node, mount and hook entries of discovered resources. *)
Definition device_node (d : discover.Device) : specs.DeviceNode :=
  {| specs.DeviceNode_Path := discover.Device_Path d;
     specs.DeviceNode_HostPath :=
       if String.eqb (discover.Device_HostPath d) (discover.Device_Path d)
       then "" else discover.Device_HostPath d |}.

Definition mount_entry (m : discover.Mount) : specs.Mount :=
  {| specs.Mount_HostPath := discover.Mount_HostPath m;
     specs.Mount_ContainerPath := discover.Mount_Path m;
     specs.Mount_Options := discover.Mount_Options m |}.

Definition hook_entry (h : discover.Hook) : specs.Hook :=
  {| specs.Hook_HookName := discover.Hook_Lifecycle h;
     specs.Hook_Path := discover.Hook_Path h;
     specs.Hook_Args := discover.Hook_Args h |}.

(** The additional group ids of one device: its required group id
    when the feature is enabled and the id is not 0. *)
Definition device_gids `{unix.LstatFS} (allow : bool) (d : discover.Device)
  : list Z :=
  if allow && negb (edits.getRequiredGID d =? 0)%Z
  then [edits.getRequiredGID d] else [].

(** The edit set composed from discovered devices, mounts and hooks. *)
Definition composed `{unix.LstatFS} (allow : bool)
           (devices : list discover.Device) (mounts : list discover.Mount)
           (hooks : list discover.Hook) : cdi.ContainerEdits :=
  {| cdi.ContainerEdits_ := Some {|
       specs.DeviceNodes := map device_node devices;
       specs.Hooks := map hook_entry hooks;
       specs.Mounts := map mount_entry mounts;
       specs.AdditionalGIDs := flat_map (device_gids allow) devices |} |}.

(** The tokens of the pattern [lib?*.so*] of library names. *)
Definition lib_tokens : list filepath.token :=
  [filepath.Lit "l"; filepath.Lit "i"; filepath.Lit "b"; filepath.AnyChar;
   filepath.Star; filepath.Lit "."; filepath.Lit "s"; filepath.Lit "o";
   filepath.Star].

(** A folder is fresh when it is not empty and not among [paths]. *)
Definition fresh (paths : list string) (dir : string) : bool :=
  negb (String.eqb dir "") && negb (existsb (String.eqb dir) paths).

(** The edit set below the pointer of [cdi.ContainerEdits]. *)
Definition edits_of (c : cdi.ContainerEdits) : specs.ContainerEdits :=
  default specs.empty (cdi.ContainerEdits_ c).

(** Deduplication in first-seen order: an element is kept where it
    first appears and removed from the rest. *)
Equations? first_seen (l : list string) : list string by wf (length l) lt :=
  first_seen [] := [];
  first_seen (x :: t) :=
    x :: first_seen (List.filter (fun y => negb (String.eqb y x)) t).
Proof.
  simpl. pose proof (List.filter_length_le (fun y => negb (String.eqb y x)) t).
  lia.
Qed.

(** The unique library folders: the non-empty containing directories
    of the libraries, deduplicated in first-seen order. *)
Definition unique_folders (libraries : list string) : list string :=
  first_seen
    (List.filter (fun dir => negb (String.eqb dir ""))
                 (map filepath.Dir libraries)).

(** The path of the hook executable: the first match of the locator,
    the default path when the locator fails or finds nothing. *)
Definition hook_path (locator : lookup.Locator) (executable : string)
  : string :=
  match locator executable with
  | (t0 :: _, None) => t0
  | _ => discover.nvidiaCTKDefaultFilePath
  end.

Definition located (locator : lookup.Locator) (executable : string) : bool :=
  match locator executable with
  | (_ :: _, None) => true
  | _ => false
  end.

Definition is_warning (l : logline) : bool :=
  match fst l with
  | Warning => true
  | _ => false
  end.

(** One step of the symlink repair for a located library, in the
    words of the specification. *)
Inductive repair_step {FS : Type} `{dotsosymlinks.OS FS} (ver : string)
          (fs : FS) (lib : string) : FS -> Prop :=
| repair_not_versioned :
    strings.HasSuffix lib (".so." +:+ ver) = false ->
    repair_step ver fs lib fs
| repair_no_single_sibling :
    strings.HasSuffix lib (".so." +:+ ver) = true ->
    (forall p, dotsosymlinks.Glob fs
                 (strings.TrimSuffix lib ("." +:+ ver) +:+ ".[0-9]")
               <> ([p], None)) ->
    repair_step ver fs lib fs
| repair_linked (p : string) (fs' : FS) :
    strings.HasSuffix lib (".so." +:+ ver) = true ->
    dotsosymlinks.Glob fs (strings.TrimSuffix lib ("." +:+ ver) +:+ ".[0-9]")
    = ([p], None) ->
    dotsosymlinks.Symlink fs (filepath.Base p)
                          (strings.TrimSuffix lib ("." +:+ ver))
    = (None, fs') ->
    repair_step ver fs lib fs'
| repair_symlink_failed (p : string) (e : error) (fs' : FS) :
    strings.HasSuffix lib (".so." +:+ ver) = true ->
    dotsosymlinks.Glob fs (strings.TrimSuffix lib ("." +:+ ver) +:+ ".[0-9]")
    = ([p], None) ->
    dotsosymlinks.Symlink fs (filepath.Base p)
                          (strings.TrimSuffix lib ("." +:+ ver))
    = (Some e, fs') ->
    repair_step ver fs lib fs.

(** The steps for a list of libraries, one after the other. *)
Inductive repair_all {FS : Type} `{dotsosymlinks.OS FS} (ver : string)
  : FS -> list string -> FS -> Prop :=
| repair_done (fs : FS) : repair_all ver fs [] fs
| repair_next (fs fs1 fs2 : FS) (lib : string) (libs : list string) :
    repair_step ver fs lib fs1 ->
    repair_all ver fs1 libs fs2 ->
    repair_all ver fs (lib :: libs) fs2.


(** What the value of a feature variable says: [enabled] or [true],
    [disabled] or [false], or nothing. *)
Definition toggle (v : string) : option bool :=
  if String.eqb v "enabled" || String.eqb v "true" then Some true
  else if String.eqb v "disabled" || String.eqb v "false" then Some false
  else None.

(** The configured setting of a named feature. *)
Definition setting (fs : config.features) (n : config.featureName)
  : option config.feature :=
  if String.eqb n config.FeatureGDS then config.GDS fs
  else if String.eqb n config.FeatureMOFED then config.MOFED fs
  else if String.eqb n config.FeatureNVSWITCH then config.NVSWITCH fs
  else if String.eqb n config.FeatureGDRCopy then config.GDRCopy fs
  else if String.eqb n config.FeatureAllowAdditionalGIDs
       then config.AllowAdditionalGIDs fs
  else None.

(** The names of the features there are. *)
Definition feature_names : list config.featureName :=
  [config.FeatureGDS; config.FeatureMOFED; config.FeatureNVSWITCH;
   config.FeatureGDRCopy; config.FeatureAllowAdditionalGIDs].

(** The device spec of the GPU at an index of the inventory. *)
Definition vfio_spec (idx : nat) (dev : nvpci.NvidiaPCIDevice) : nvcdi.Device :=
  {| nvcdi.Name := nvcdi.fmt_index idx;
     nvcdi.ContainerEdits := {|
       specs.DeviceNodes :=
         [{| specs.DeviceNode_Path :=
               "/dev/vfio/" +:+ nvcdi.fmt_d (nvpci.IommuGroup dev);
             specs.DeviceNode_HostPath := "" |}];
       specs.Hooks := [];
       specs.Mounts := [];
       specs.AdditionalGIDs := [] |} |}.

Definition is_vfio (dev : nvpci.NvidiaPCIDevice) : bool :=
  String.eqb (nvpci.Driver dev) "vfio-pci".

(** A path list entry that is a plain directory: not empty and without
    a colon. *)
Fixpoint has_colon (s : string) : bool :=
  match s with
  | EmptyString => false
  | String c s' => Ascii.eqb c ":" || has_colon s'
  end.

Definition plain_dir (s : string) : bool :=
  negb (String.eqb s "") && negb (has_colon s).

(** A driver with a version, or a library root, stored in it. *)
Definition with_version (r : root.Driver) (v : string) : root.Driver :=
  {| root.Root := root.Root r;
     root.librarySearchPaths := root.librarySearchPaths r;
     root.configSearchPaths := root.configSearchPaths r;
     root.version := v;
     root.libraryRoot := root.libraryRoot r |}.

Definition with_libraryRoot (r : root.Driver) (d : string) : root.Driver :=
  {| root.Root := root.Root r;
     root.librarySearchPaths := root.librarySearchPaths r;
     root.configSearchPaths := root.configSearchPaths r;
     root.version := root.version r;
     root.libraryRoot := d |}.


(** The errors of the single operations below an error of the
    installer, in order. *)
Fixpoint leaves (j : installer.joined) : list error :=
  match j with
  | installer.Plain e => [e]
  | installer.Joined errs => flat_map leaves errs
  | installer.Wrapped _ inner => leaves inner
  end.

Definition failures (o : option installer.joined) : list error :=
  match o with
  | Some j => leaves j
  | None => []
  end.

(** Running installers one after the other, each on the world the one
    before left: what each handed back, and the world at the end. *)
Fixpoint run_all {W : Type} (installers : list (installer.Installer W))
         (destDir : string) (w : W) : list (option installer.joined) * W :=
  match installers with
  | [] => ([], w)
  | i :: rest =>
      let '(err, w1) := i destDir w in
      let '(errs, w2) := run_all rest destDir w1 in
      (err :: errs, w2)
  end.

(** The world after removing, one after the other, the named entries. *)
Definition remove_each {W : Type} `{toolkit.OS W} (names : list string) (w : W)
  : W :=
  fold_left (fun w name => snd (toolkit.RemoveAll w name)) names w.

(** The world after creating, one after the other, the directories. *)
Definition mkdir_each {W : Type} `{toolkit.OS W} (dirs : list string) (w : W)
  : W :=
  fold_left (fun w d => snd (toolkit.MkdirAll w d)) dirs w.

Definition is_level (l : toolkit.Level) (e : toolkit.entry) : bool :=
  match fst e, l with
  | toolkit.InfoLevel, toolkit.InfoLevel => true
  | toolkit.WarningLevel, toolkit.WarningLevel => true
  | toolkit.ErrorLevel, toolkit.ErrorLevel => true
  | _, _ => false
  end.

End Spec.


(** ** Concrete hosts, on which the functions above are run *)
Module Fixture.

Definition ENOENT : error := ErrNew "no such file or directory".
Definition EEXIST : error := ErrNew "file exists".

(** Device nodes of a host: [/dev/nvidia0] is a char device with mode
    0660 of group 44, [/dev/nvidiactl] one with mode 0666,
    [/dev/nvidia-caps] one with mode 0600 of group 0, and [/etc/passwd]
    a regular file with mode 0640. *)
Definition lstat : unix.LstatFS := fun path =>
  if String.eqb path "/dev/nvidia0"
  then inl {| unix.Mode := 0x21B0; unix.Gid := 44 |}
  else if String.eqb path "/dev/nvidiactl"
  then inl {| unix.Mode := 0x21B6; unix.Gid := 44 |}
  else if String.eqb path "/dev/nvidia-caps"
  then inl {| unix.Mode := 0x2180; unix.Gid := 0 |}
  else if String.eqb path "/etc/passwd"
  then inl {| unix.Mode := 0x81A0; unix.Gid := 42 |}
  else inr ENOENT.

Definition nvidia0 : discover.Device :=
  {| discover.Device_HostPath := ""; discover.Device_Path := "/dev/nvidia0" |}.
Definition nvidiactl : discover.Device :=
  {| discover.Device_HostPath := "/dev/nvidiactl";
     discover.Device_Path := "/dev/nvidiactl" |}.
Definition nvidia_caps : discover.Device :=
  {| discover.Device_HostPath := "/dev/nvidia-caps";
     discover.Device_Path := "/dev/caps" |}.

Definition libcuda_mount : discover.Mount :=
  {| discover.Mount_HostPath := "/usr/lib64/libcuda.so.535.54";
     discover.Mount_Path := "/usr/lib64/libcuda.so.535.54";
     discover.Mount_Options := ["ro"; "nosuid"; "nodev"; "bind"] |}.

Definition a_hook : discover.Hook :=
  {| discover.Hook_Lifecycle := discover.CreateContainerHook;
     discover.Hook_Path := "/usr/bin/nvidia-ctk";
     discover.Hook_Args := ["nvidia-ctk"; "hook"; "update-ldcache"] |}.

(** A discoverer that records the calls made to it; its [Mounts]
    operation fails when [mountsFail] is set. *)
Definition recording (mountsFail : bool) : discover.Discover (list string) := {|
  discover.Devices := fun calls =>
    (([nvidia0; nvidiactl], None), calls ++ ["Devices"]);
  discover.Mounts := fun calls =>
    (if mountsFail then ([], Some (ErrNew "no mounts")) else ([libcuda_mount], None),
     calls ++ ["Mounts"]);
  discover.Hooks := fun calls => (([a_hook], None), calls ++ ["Hooks"])
|}.

(** A discoverer of library mounts. *)
Definition library_mounts : discover.Discover unit := {|
  discover.Devices := fun s => (([], None), s);
  discover.Mounts := fun s =>
    (([ {| discover.Mount_HostPath := "/a/libx.so.1";
           discover.Mount_Path := "/a/libx.so.1"; discover.Mount_Options := [] |};
        {| discover.Mount_HostPath := "/etc/nvidia.conf";
           discover.Mount_Path := "/etc/nvidia.conf"; discover.Mount_Options := [] |};
        {| discover.Mount_HostPath := "/a/liby.so.1";
           discover.Mount_Path := "/a/liby.so.1"; discover.Mount_Options := [] |};
        {| discover.Mount_HostPath := "/b/libz.so.1";
           discover.Mount_Path := "/b/libz.so.1"; discover.Mount_Options := [] |} ],
      None), s);
  discover.Hooks := fun s => (([], None), s)
|}.

Definition ldcache : discover.ldconfig unit := {|
  discover.mountsFrom := library_mounts;
  discover.lookup_ := fun _ => ([], None);
  discover.nvidiaCTKExecutablePath := "nvidia-ctk"
|}.

(** A file system as the list of its file names. *)
Definition files : Type := list string.

Definition files_find (fs : files) : lookup.Finder :=
  fun root _ pattern =>
    List.filter (fun f => strings.HasPrefix f root
                          && fst (filepath.Match pattern (filepath.Base f))) fs.

Definition files_glob (fs : files) (pattern : string) : result (list string) :=
  match filepath.scan (String.length pattern) pattern with
  | None => ([], Some filepath.ErrBadPattern)
  | Some toks => (List.filter (filepath.match_tokens toks) fs, None)
  end.

Definition files_symlink (fs : files) (oldname newname : string)
  : option error * files :=
  if existsb (String.eqb newname) fs then (Some EEXIST, fs)
  else (None, fs ++ [newname]).

Definition files_OS : dotsosymlinks.OS files.
Proof.
  refine {| dotsosymlinks.Find := files_find;
            dotsosymlinks.Glob := files_glob;
            dotsosymlinks.Symlink := files_symlink |}.
  intros fs oldname newname e fs'. unfold files_symlink.
  destruct (existsb (String.eqb newname) fs); intros Heq; inversion Heq; reflexivity.
Defined.

(** A container state is the root of its container. *)
Definition state_OCI : dotsosymlinks.OCI string := {|
  dotsosymlinks.LoadContainerState := fun _ => ("/rootfs", None);
  dotsosymlinks.GetContainerRoot := fun root => (root, None)
|}.

(** A container with two driver libraries: [libcuda] has its one
    [.so.1] sibling, [libnvidia-ml] has two candidates. *)
Definition container : files :=
  [ "/rootfs/usr/lib/libcuda.so.535.54";
    "/rootfs/usr/lib/libcuda.so.1";
    "/rootfs/usr/lib/libnvidia-ml.so.535.54";
    "/rootfs/usr/lib/libnvidia-ml.so.1";
    "/rootfs/usr/lib/libnvidia-ml.so.2" ].

(** A driver root with two copies of [libcuda]. *)
Definition driver_finder : lookup.Finder := fun root _ pattern =>
  if String.eqb pattern "libcuda.so.*.*"
  then [root +:+ "/usr/lib64/libcuda.so.535.54";
        root +:+ "/usr/lib/x86_64-linux-gnu/libcuda.so.535.54"]
  else [].

Definition a_driver : root.Driver := {|
  root.Root := "/run/nvidia/driver";
  root.librarySearchPaths := [];
  root.configSearchPaths := [];
  root.version := "";
  root.libraryRoot := ""
|}.

(** Hosts for the package managers: which of [/usr/bin/rpm] and
    [/usr/bin/dpkg] exist (as regular files). *)
Definition host (rpm dpkg : bool) : os.StatFS := fun name =>
  if String.eqb name "/usr/bin/rpm" && rpm then inl {| os.IsDir := false |}
  else if String.eqb name "/usr/bin/dpkg" && dpkg then inl {| os.IsDir := false |}
  else inr ENOENT.

(** An OCI runtime specification reduced to its device paths, and the
    merge of an edit set into it. *)
Definition paths_Applier : cdi.Applier (list string) := fun ce spec =>
  (None, spec ++ map specs.DeviceNode_Path (specs.DeviceNodes ce)).


(** Environments of a container: the image sets nothing of interest,
    the command line enables the additional GIDs, the orchestrator
    disables them. *)
Definition env_image : config.getenver := fun name =>
  if String.eqb name "PATH" then "/usr/bin" else "".
Definition env_enabled : config.getenver := fun name =>
  if String.eqb name "NVIDIA_ALLOW_ADDITIONAL_GIDS" then "enabled" else "".
Definition env_disabled : config.getenver := fun name =>
  if String.eqb name "NVIDIA_ALLOW_ADDITIONAL_GIDS" then "disabled" else "".

Definition no_features : config.features :=
  {| config.GDS := None; config.MOFED := None; config.NVSWITCH := None;
     config.GDRCopy := None; config.AllowAdditionalGIDs := None |}.

(** An inventory of three GPUs, the first and the last bound to
    [vfio-pci]. *)
Definition gpus : list nvpci.NvidiaPCIDevice :=
  [ {| nvpci.Address := "0000:01:00.0"; nvpci.Driver := "vfio-pci";
       nvpci.IommuGroup := 12; nvpci.Device := 0x2330 |};
    {| nvpci.Address := "0000:02:00.0"; nvpci.Driver := "nvidia";
       nvpci.IommuGroup := 13; nvpci.Device := 0x2330 |};
    {| nvpci.Address := "0000:03:00.0"; nvpci.Driver := "vfio-pci";
       nvpci.IommuGroup := 14; nvpci.Device := 0x2330 |} ].

Definition inventory : nvpci.Interface := (gpus, None).

(** A driver root with explicit library search paths. *)
Definition a_driver_with_paths : root.Driver := {|
  root.Root := "/run/nvidia/driver";
  root.librarySearchPaths := ["/usr/lib64"; "/opt/nvidia/lib"];
  root.configSearchPaths := [];
  root.version := "";
  root.libraryRoot := ""
|}.

Definition no_environ : os.Environ := fun _ => None.

(** The toolkit on the file system of names: the entries of a folder
    are the names below it; removing a name removes all below it;
    creating a directory fails where a file of that name exists. *)
Definition below (dir name : string) : bool :=
  strings.HasPrefix name (dir +:+ "/").

Definition files_toolkit_OS : toolkit.OS files := {|
  toolkit.ReadDir := fun fs dir =>
    match List.filter (below dir) fs with
    | [] => ([], Some ENOENT)
    | entries =>
        (map (fun name => strings.drop (String.length dir + 1) name) entries,
         None)
    end;
  toolkit.IsNotExist := fun e => String.eqb (error_text e) (error_text ENOENT);
  toolkit.RemoveAll := fun fs name =>
    (None,
     List.filter (fun f => negb (String.eqb f name || below name f)) fs);
  toolkit.MkdirAll := fun fs dir =>
    if existsb (String.eqb dir) fs then (Some EEXIST, fs)
    else (None, fs ++ [dir +:+ "/"])
|}.

Definition files_Symlinker : installer.Symlinker files := files_symlink.

(** The toolkit files to install: the second library link is there
    already when its installer runs. *)
Definition toolkit_Collector : installer.Collector files := {|
  installer.collectLibraries := fun _ _ =>
    ([installer.symlink_Install (H := files_Symlinker)
        {| installer.linkname := "libnvidia-container.so.1";
           installer.target := "libnvidia-container.so.1.17.0" |};
      installer.symlink_Install (H := files_Symlinker)
        {| installer.linkname := "libnvidia-container.so.1";
           installer.target := "libnvidia-container.so.1.16.0" |}], None);
  installer.collectExecutables := fun _ _ _ =>
    ([installer.symlink_Install (H := files_Symlinker)
        {| installer.linkname := "nvidia-ctk";
           installer.target := "nvidia-ctk.real" |}], None)
|}.

Definition an_installer : installer.toolkitInstaller :=
  {| installer.toolkit_artifactRoot := None; installer.hostRoot := "/";
     installer.packageType := "deb"; installer.ignoreErrors := false |}.

(** The artifacts of the rpm package. *)
Definition artifacts : files :=
  [ "/artifacts/rpm/usr/bin/nvidia-ctk";
    "/artifacts/rpm/usr/lib64/libnvidia-container.so.1.17.0";
    "/artifacts/rpm/usr/lib64/libnvidia-container-go.so.1.17.0" ].

(** A parser of CDI kinds: vendor and class are the parts left and
    right of the first slash, and neither may be empty. *)
Fixpoint slash_split (kind : string) : string * string :=
  match kind with
  | EmptyString => (EmptyString, EmptyString)
  | String c rest =>
      if Ascii.eqb c "/" then (EmptyString, rest)
      else let '(vendor, class) := slash_split rest in (String c vendor, class)
  end.

Definition kind_Parser : toolkit.Parser := {|
  toolkit.ParseQualifier := slash_split;
  toolkit.ValidateVendorName := fun vendor =>
    if String.eqb vendor "" then Some (ErrNew "empty vendor") else None;
  toolkit.ValidateClassName := fun class =>
    if String.eqb class "" then Some (ErrNew "empty class") else None
|}.

Definition toolkit_options_of (package : string) (modes : list string)
           (cdi ignore : bool) : toolkit.Options := {|
  toolkit.DriverRoot := "/run/nvidia/driver";
  toolkit.DevRoot := "/";
  toolkit.DriverRootCtrPath := "/driver-root";
  toolkit.DevRootCtrPath := "/driver-root";
  toolkit.ContainerRuntimeMode := "auto";
  toolkit.ContainerRuntimeDebug := "";
  toolkit.ContainerRuntimeLogLevel := "";
  toolkit.ContainerRuntimeModesCdiDefaultKind := "";
  toolkit.ContainerRuntimeModesCDIAnnotationPrefixes := [];
  toolkit.ContainerRuntimeRuntimes := [];
  toolkit.ContainerRuntimeHookSkipModeDetection := false;
  toolkit.ContainerCLIDebug := "";
  toolkit.cdiEnabled := cdi;
  toolkit.cdiOutputDir := "/var/run/cdi";
  toolkit.cdiKind := "management.nvidia.com/gpu";
  toolkit.cdiVendor := "";
  toolkit.cdiClass := "";
  toolkit.createDeviceNodes_ := modes;
  toolkit.acceptNVIDIAVisibleDevicesWhenUnprivileged := true;
  toolkit.acceptNVIDIAVisibleDevicesAsVolumeMounts := false;
  toolkit.ignoreErrors := ignore;
  toolkit.optInFeatures := [];
  toolkit.packageType := package
|}.

Definition toolkit_options : list string -> bool -> bool -> toolkit.Options :=
  toolkit_options_of "deb".

Definition files_NVDevices : toolkit.NVDevices files := {|
  toolkit.nvdevices_New := fun _ _ => None;
  toolkit.CreateNVIDIAControlDevices := fun fs devRoot =>
    (None, fs ++ [devRoot +:+ "/dev/nvidiactl"])
|}.

Definition files_HostStat : toolkit.HostStat files := fun _ => host false true.

(** The config cannot be written. *)
Definition failing_ConfigInstaller : toolkit.ConfigInstaller files :=
  fun fs _ _ _ _ _ => (Some (ErrNew "could not create target config file"), fs).

(** A CDI library whose one spec is saved under the name it is given. *)
Definition files_CDISpecs : toolkit.CDISpecs files unit string := {|
  toolkit.nvcdi_New := fun _ _ _ _ _ _ => inl tt;
  toolkit.GetSpec := fun _ _ => inl "management";
  toolkit.Transform := fun _ _ _ _ spec => inl spec;
  toolkit.GenerateNameForSpec := fun spec => inl (spec +:+ ".yaml");
  toolkit.Save := fun fs _ name => (None, fs ++ [name])
|}.

(** An installation in place. *)
Definition installed : files :=
  [ "/usr/local/nvidia/toolkit/nvidia-ctk";
    "/usr/local/nvidia/toolkit/toolkit.pid";
    "/usr/local/nvidia/toolkit/.config/nvidia-container-runtime/config.toml";
    "/etc/passwd" ].

End Fixture.


(* ================================================================= *)
(** * Part II: properties                                              *)
(* ================================================================= *)

(** ** Additional group ids ([internal/edits/device.go]) *)

Section RequiredGID.

Context `{FS : unix.LstatFS}.

(** Of a mode only the two "other" bits survive the mask 06 applied to
    its permission bits. *)
Lemma perm_other_bits (m : Z) :
  Z.land (os.Perm m) 6 = 0%Z
  <-> Z.testbit m 1 = false /\ Z.testbit m 2 = false.
Proof.
  unfold os.Perm, os.ModePerm.
  rewrite <- Z.land_assoc. change (Z.land 511 6) with 6%Z.
  split.
  - intros Hz. split.
    + assert (Hb : Z.testbit (Z.land m 6) 1 = false) by (rewrite Hz; reflexivity).
      rewrite Z.land_spec in Hb. change (Z.testbit 6 1) with true in Hb.
      now rewrite andb_true_r in Hb.
    + assert (Hb : Z.testbit (Z.land m 6) 2 = false) by (rewrite Hz; reflexivity).
      rewrite Z.land_spec in Hb. change (Z.testbit 6 2) with true in Hb.
      now rewrite andb_true_r in Hb.
  - intros [H1 H2]. apply Z.bits_inj'. intros n Hn.
    rewrite Z.land_spec, Z.bits_0.
    destruct (Z.eq_dec n 1%Z) as [-> | N1]; [now rewrite H1 |].
    destruct (Z.eq_dec n 2%Z) as [-> | N2]; [now rewrite H2 |].
    destruct (Z.eq_dec n 0%Z) as [-> | N0]; [apply andb_false_r |].
    assert (Hbig : (3 <= n)%Z) by lia.
    replace (Z.testbit 6 n) with false; [apply andb_false_r |].
    symmetry. apply Z.bits_above_log2; [lia |].
    change (Z.log2 6) with 2%Z. lia.
Qed.

Lemma stat_path_code (d : discover.Device) :
  (if String.eqb (discover.Device_HostPath d) ""
   then discover.Device_Path d else discover.Device_HostPath d)
  = Spec.stat_path d.
Proof.
  unfold Spec.stat_path. destruct (discover.Device_HostPath d); reflexivity.
Qed.

Lemma eqb_empty (s : string) :
  String.eqb s "" = match s with EmptyString => true | _ => false end.
Proof. destruct s; reflexivity. Qed.

(** [getRequiredGID] computes the group id of the specification. *)
Lemma getRequiredGID_required_gid (d : discover.Device) :
  edits.getRequiredGID d = Spec.required_gid d.
Proof.
  unfold edits.getRequiredGID, Spec.required_gid.
  rewrite stat_path_code, eqb_empty.
  destruct (Spec.stat_path d) as [| c p]; [reflexivity |].
  destruct (unix.Lstat (String c p)) as [st | e]; [| reflexivity].
  unfold Spec.is_char_special, Spec.other_read, Spec.other_write.
  destruct (Z.land (unix.Mode st) unix.S_IFMT =? unix.S_IFCHR)%Z;
    [| reflexivity].
  cbn [negb].
  destruct (Z.eqb_spec (Z.land (os.Perm (unix.Mode st)) 6) 0) as [Hz | Hnz].
  - apply perm_other_bits in Hz. destruct Hz as [-> ->]. reflexivity.
  - destruct (Z.testbit (unix.Mode st) 2) eqn:H2; [reflexivity |].
    destruct (Z.testbit (unix.Mode st) 1) eqn:H1; [reflexivity |].
    exfalso. apply Hnz. apply perm_other_bits. auto.
Qed.

(** C1.  For every device, [getRequiredGID] is the group id the
    specification asks for: 0 when both paths are empty, when the path
    (HostPath if non-empty, else Path) cannot be stat'd or is not a
    char-special file; for a char-special file the owning group when
    both the "other" read and write bits are absent, and 0 when either
    is set.  A result other than 0 is therefore the owning group of a
    char-special file that "other" may neither read nor write.  The
    function is total: it hands back a number and never an error. *)
Theorem getRequiredGID_spec (d : discover.Device) :
  edits.getRequiredGID d = Spec.required_gid d
  /\ (edits.getRequiredGID d <> 0%Z ->
      exists st : unix.Stat_t,
        Spec.stat_path d <> ""
        /\ unix.Lstat (Spec.stat_path d) = inl st
        /\ Spec.is_char_special st = true
        /\ Spec.other_read st = false
        /\ Spec.other_write st = false
        /\ edits.getRequiredGID d = unix.Gid st).
Proof.
  split; [apply getRequiredGID_required_gid |].
  rewrite getRequiredGID_required_gid. unfold Spec.required_gid.
  destruct (Spec.stat_path d) as [| c p]; [congruence |].
  destruct (unix.Lstat (String c p)) as [st | e]; [| congruence].
  destruct (Spec.is_char_special st) eqn:Hchr; [| congruence].
  destruct (Spec.other_read st) eqn:Hr; cbn [orb]; [congruence |].
  destruct (Spec.other_write st) eqn:Hw; [congruence |].
  intros _. exists st. repeat split; auto; discriminate.
Qed.

(** The additional group ids of the edits of one device. *)
Lemma device_toEdits_gids (d : discover.Device) (allow : bool) :
  Spec.additionalGIDs_of (edits.device_toEdits d allow)
  = Spec.device_gids allow d.
Proof.
  unfold edits.device_toEdits, edits.device_toSpec, Spec.device_gids.
  cbn. destruct allow; cbn; [| reflexivity].
  destruct (edits.getRequiredGID d =? 0)%Z; reflexivity.
Qed.

(** C10.  With additional GIDs enabled (or not), the AdditionalGIDs of
    the edits of a device never contain 0; and a char-special device
    that "other" may neither read nor write, owned by group 0, yields
    no additional GID at all. *)
Theorem additionalGIDs_never_zero (d : discover.Device) (allow : bool) :
  ~ In 0%Z (Spec.additionalGIDs_of (edits.device_toEdits d allow))
  /\ (forall st : unix.Stat_t,
        Spec.stat_path d <> "" ->
        unix.Lstat (Spec.stat_path d) = inl st ->
        Spec.is_char_special st = true ->
        Spec.other_read st = false ->
        Spec.other_write st = false ->
        unix.Gid st = 0%Z ->
        Spec.additionalGIDs_of (edits.device_toEdits d true) = []).
Proof.
  split.
  - rewrite device_toEdits_gids. unfold Spec.device_gids.
    destruct allow; cbn; [| tauto].
    destruct (Z.eqb_spec (edits.getRequiredGID d) 0) as [Hz | Hnz]; cbn.
    + tauto.
    + intros [Heq | []]. congruence.
  - intros st Hpath Hstat Hchr Hr Hw Hgid.
    rewrite device_toEdits_gids. unfold Spec.device_gids.
    rewrite getRequiredGID_required_gid. unfold Spec.required_gid.
    destruct (Spec.stat_path d) as [| c p]; [congruence |].
    rewrite Hstat, Hchr, Hr, Hw, Hgid. reflexivity.
Qed.

End RequiredGID.

(** [/dev/nvidia0] on the fixture host: mode 0660, group 44. *)
Lemma getRequiredGID_spec_witness :
  edits.getRequiredGID (H := Fixture.lstat) Fixture.nvidia0 <> 0%Z
  /\ exists st : unix.Stat_t,
      unix.Lstat (LstatFS := Fixture.lstat) "/dev/nvidia0" = inl st
      /\ edits.getRequiredGID (H := Fixture.lstat) Fixture.nvidia0 = unix.Gid st.
Proof.
  assert (Hnz : edits.getRequiredGID (H := Fixture.lstat) Fixture.nvidia0 <> 0%Z)
    by discriminate.
  split; [exact Hnz |].
  destruct (proj2 (@getRequiredGID_spec Fixture.lstat Fixture.nvidia0) Hnz)
    as (st & _ & Hstat & _ & _ & _ & Hgid).
  exists st. split; [exact Hstat | exact Hgid].
Defined.

(** The devices of the fixture host: only the restricted device of a
    group other than 0 requires a group id. *)
Example getRequiredGID_on_host :
  map (edits.getRequiredGID (H := Fixture.lstat))
      [Fixture.nvidia0; Fixture.nvidiactl; Fixture.nvidia_caps;
       {| discover.Device_HostPath := ""; discover.Device_Path := "" |};
       {| discover.Device_HostPath := ""; discover.Device_Path := "/etc/passwd" |};
       {| discover.Device_HostPath := "/dev/none"; discover.Device_Path := "/dev/nvidia0" |}]
  = [44; 0; 0; 0; 0; 0]%Z.
Proof. reflexivity. Qed.

(** The restricted device node of group 0 on the fixture host. *)
Lemma additionalGIDs_never_zero_witness :
  ~ In 0%Z (Spec.additionalGIDs_of
              (edits.device_toEdits (H := Fixture.lstat) Fixture.nvidia_caps true))
  /\ Spec.additionalGIDs_of
       (edits.device_toEdits (H := Fixture.lstat) Fixture.nvidia_caps true) = [].
Proof.
  pose proof (@additionalGIDs_never_zero Fixture.lstat Fixture.nvidia_caps true)
    as [Hnz Hroot].
  split; [exact Hnz |].
  apply (Hroot {| unix.Mode := 0x2180; unix.Gid := 0 |});
    first [reflexivity | discriminate].
Defined.

(** ** The device node of a device ([toSpec]) *)

Lemma serialized_code (d : discover.Device) :
  Spec.serialized d = specs.DeviceNode_fields (Spec.device_node d).
Proof. reflexivity. Qed.

Lemma serialized_path (d : discover.Device) :
  specs.field "path" (Spec.serialized d) = Some (discover.Device_Path d).
Proof. reflexivity. Qed.

Lemma serialized_hostPath (d : discover.Device) :
  specs.field "hostPath" (Spec.serialized d)
  = if String.eqb (discover.Device_HostPath d) (discover.Device_Path d)
       || String.eqb (discover.Device_HostPath d) ""
    then None else Some (discover.Device_HostPath d).
Proof.
  rewrite serialized_code. unfold Spec.device_node, specs.DeviceNode_fields.
  cbn [specs.DeviceNode_HostPath specs.DeviceNode_Path].
  destruct (String.eqb (discover.Device_HostPath d) (discover.Device_Path d));
    [reflexivity |].
  cbn [orb].
  destruct (String.eqb (discover.Device_HostPath d) ""); reflexivity.
Qed.

(** A device without a host path, the usual case: its serialized node
    has no [hostPath] although the (empty) HostPath differs from Path. *)
Lemma hostPath_rule_fails_without_HostPath :
  ~ Spec.hostPath_rule_as_stated Fixture.nvidia0.
Proof.
  intros [Homit _]. destruct Homit as [Hto _].
  assert (Habs : discover.Device_HostPath Fixture.nvidia0
                 = discover.Device_Path Fixture.nvidia0)
    by (apply Hto; reflexivity).
  discriminate Habs.
Qed.

(** C3 (amended).  The serialized device node omits [hostPath] exactly
    when HostPath equals Path or HostPath is itself empty; [path] is
    always written, unchanged; and for every device whose HostPath is
    non-empty and differs from Path, the node carries both fields,
    unchanged and distinct. *)
Theorem toSpec_hostPath_omitted (d : discover.Device) :
  (specs.field "hostPath" (Spec.serialized d) = None
   <-> (discover.Device_HostPath d = discover.Device_Path d
        \/ discover.Device_HostPath d = ""))
  /\ specs.field "path" (Spec.serialized d) = Some (discover.Device_Path d)
  /\ (discover.Device_HostPath d <> discover.Device_Path d ->
      discover.Device_HostPath d <> "" ->
      specs.field "hostPath" (Spec.serialized d)
      = Some (discover.Device_HostPath d)
      /\ specs.field "path" (Spec.serialized d) = Some (discover.Device_Path d)
      /\ discover.Device_HostPath d <> discover.Device_Path d).
Proof.
  rewrite serialized_hostPath, serialized_path.
  destruct (String.eqb_spec (discover.Device_HostPath d) (discover.Device_Path d))
    as [Heq | Hne]; cbn [orb].
  - split; [| split]; [tauto | reflexivity | intros Hne; contradiction].
  - destruct (String.eqb_spec (discover.Device_HostPath d) "") as [He | Hn].
    + split; [| split]; [tauto | reflexivity | intros _ Hn; contradiction].
    + split; [| split]; [| reflexivity | auto].
      split; [discriminate | intros [H1 | H1]; contradiction].
Qed.

(** The device node of [/dev/nvidia-caps], found at [/dev/caps] in the
    container. *)
Lemma toSpec_hostPath_omitted_witness :
  specs.field "hostPath" (Spec.serialized Fixture.nvidia_caps)
  = Some "/dev/nvidia-caps"
  /\ specs.field "path" (Spec.serialized Fixture.nvidia_caps) = Some "/dev/caps"
  /\ "/dev/nvidia-caps" <> "/dev/caps".
Proof.
  apply (proj2 (proj2 (toSpec_hostPath_omitted Fixture.nvidia_caps)));
    discriminate.
Defined.

(** ** Applying edits ([Modify]) *)

(** C9.  [Modify] on a nil applier, or on an applier whose underlying
    container edits are nil, hands back no error, leaves the target
    spec unchanged and logs nothing; the merge of the CDI library is
    not called. *)
Theorem Modify_nil_noop {Spec : Type} `{A : cdi.Applier Spec} (spec : Spec) :
  edits.Modify None spec = (None, spec, [])
  /\ edits.Modify
       (Some {| edits.edits_ContainerEdits := {| cdi.ContainerEdits_ := None |} |})
       spec
     = (None, spec, []).
Proof. split; reflexivity. Qed.

(** Otherwise the merge is delegated, and its error handed back. *)
Lemma Modify_delegates {Spec : Type} `{A : cdi.Applier Spec}
      (ce : specs.ContainerEdits) (spec : Spec) :
  edits.Modify
    (Some {| edits.edits_ContainerEdits := {| cdi.ContainerEdits_ := Some ce |} |})
    spec
  = (fst (cdi.Apply ce spec), snd (cdi.Apply ce spec), edits.Modify_log ce).
Proof. unfold edits.Modify. cbn. destruct (cdi.Apply ce spec); reflexivity. Qed.

(** A nil applier leaves a spec with one device as it is; an applier
    with edits merges them and logs what it injects. *)
Example Modify_on_paths :
  edits.Modify (H := Fixture.paths_Applier) None ["/dev/null"]
  = (None, ["/dev/null"], [])
  /\ edits.Modify (H := Fixture.paths_Applier)
       (Some {| edits.edits_ContainerEdits :=
                  Spec.composed (H := Fixture.lstat) true [Fixture.nvidia0] [] [] |})
       ["/dev/null"]
     = (None, ["/dev/null"; "/dev/nvidia0"],
        [(Info, "Mounts:"); (Info, "Devices:");
         (Info, "Injecting /dev/nvidia0"); (Info, "Hooks:")]).
Proof. split; reflexivity. Qed.

(** ** Composing edits ([EditsFromDiscoverer]) *)

Section Compose.

Context `{FS : unix.LstatFS}.

Lemma append_devices_spec (allow : bool) (devices : list discover.Device) :
  forall ce : specs.ContainerEdits,
    edits.append_devices allow devices {| cdi.ContainerEdits_ := Some ce |}
    = inl {| cdi.ContainerEdits_ := Some {|
               specs.DeviceNodes :=
                 specs.DeviceNodes ce ++ map Spec.device_node devices;
               specs.Hooks := specs.Hooks ce;
               specs.Mounts := specs.Mounts ce;
               specs.AdditionalGIDs :=
                 specs.AdditionalGIDs ce
                   ++ flat_map (Spec.device_gids allow) devices |} |}.
Proof.
  induction devices as [| d rest IH]; intros ce.
  - cbn. rewrite !app_nil_r. destruct ce; reflexivity.
  - cbn [edits.append_devices].
    unfold edits.device_toEdits, edits.device_toSpec.
    cbn [cdi.Append cdi.ContainerEdits_ default from_option id].
    rewrite IH. cbn [specs.DeviceNodes specs.Hooks specs.Mounts specs.AdditionalGIDs].
    rewrite !app_nil_r. cbn [map flat_map].
    rewrite <- !app_assoc. cbn [app].
    unfold Spec.device_gids at 2.
    destruct allow; cbn [andb]; [| reflexivity].
    destruct (negb (edits.getRequiredGID d =? 0)%Z); reflexivity.
Qed.

Lemma append_mounts_spec (mounts : list discover.Mount) :
  forall ce : specs.ContainerEdits,
    fold_left (fun c m => cdi.Append c (edits.mount_toEdits m)) mounts
              {| cdi.ContainerEdits_ := Some ce |}
    = {| cdi.ContainerEdits_ := Some {|
           specs.DeviceNodes := specs.DeviceNodes ce;
           specs.Hooks := specs.Hooks ce;
           specs.Mounts := specs.Mounts ce ++ map Spec.mount_entry mounts;
           specs.AdditionalGIDs := specs.AdditionalGIDs ce |} |}.
Proof.
  induction mounts as [| m rest IH]; intros ce.
  - cbn. rewrite !app_nil_r. destruct ce; reflexivity.
  - cbn [fold_left]. unfold edits.mount_toEdits at 2.
    cbn [cdi.Append cdi.ContainerEdits_ default from_option id].
    rewrite IH. cbn [specs.DeviceNodes specs.Hooks specs.Mounts specs.AdditionalGIDs].
    rewrite !app_nil_r. cbn [map]. rewrite <- !app_assoc. reflexivity.
Qed.

Lemma append_hooks_spec (hooks : list discover.Hook) :
  forall ce : specs.ContainerEdits,
    fold_left (fun c h => cdi.Append c (edits.hook_toEdits h)) hooks
              {| cdi.ContainerEdits_ := Some ce |}
    = {| cdi.ContainerEdits_ := Some {|
           specs.DeviceNodes := specs.DeviceNodes ce;
           specs.Hooks := specs.Hooks ce ++ map Spec.hook_entry hooks;
           specs.Mounts := specs.Mounts ce;
           specs.AdditionalGIDs := specs.AdditionalGIDs ce |} |}.
Proof.
  induction hooks as [| h rest IH]; intros ce.
  - cbn. rewrite !app_nil_r. destruct ce; reflexivity.
  - cbn [fold_left]. unfold edits.hook_toEdits at 2.
    cbn [cdi.Append cdi.ContainerEdits_ default from_option id].
    rewrite IH. cbn [specs.DeviceNodes specs.Hooks specs.Mounts specs.AdditionalGIDs].
    rewrite !app_nil_r. cbn [map]. rewrite <- !app_assoc. reflexivity.
Qed.

(** C2.  [EditsFromDiscoverer] calls Devices, then Mounts on the state
    Devices left, then Hooks on the state Mounts left.  When one of
    them fails the calls after it are not made (the state is the one
    the failing call left), the edit set handed back is nil, and the
    error wraps the failure below the name of the failing phase.  When
    all three succeed the edit set holds exactly the device node of
    every discovered device, in order, with the additional GIDs of each
    device when these are enabled, the mount entry of every discovered
    mount and the hook entry of every discovered hook. *)
Theorem EditsFromDiscoverer_spec {St : Type} (o : edits.options)
        (d : discover.Discover St) (s : St) :
  edits.EditsFromDiscoverer o d s
  = let '((devices, devicesErr), s1) := discover.Devices d s in
    match devicesErr with
    | Some e => ((None, Some (ErrWrap "failed to discover devices" e)), s1)
    | None =>
        let '((mounts, mountsErr), s2) := discover.Mounts d s1 in
        match mountsErr with
        | Some e => ((None, Some (ErrWrap "failed to discover mounts" e)), s2)
        | None =>
            let '((hooks, hooksErr), s3) := discover.Hooks d s2 in
            match hooksErr with
            | Some e => ((None, Some (ErrWrap "failed to discover hooks" e)), s3)
            | None =>
                ((Some (Spec.composed (edits.allowAdditionalGIDs o)
                                      devices mounts hooks), None), s3)
            end
        end
    end.
Proof.
  unfold edits.EditsFromDiscoverer.
  destruct (discover.Devices d s) as [[devices [e1 |]] s1]; [reflexivity |].
  destruct (discover.Mounts d s1) as [[mounts [e2 |]] s2]; [reflexivity |].
  destruct (discover.Hooks d s2) as [[hooks [e3 |]] s3]; [reflexivity |].
  unfold edits.NewContainerEdits. rewrite append_devices_spec.
  rewrite append_mounts_spec, append_hooks_spec. reflexivity.
Qed.

(** One entry per discovered resource. *)
Lemma composed_counts (allow : bool) (devices : list discover.Device)
      (mounts : list discover.Mount) (hooks : list discover.Hook) :
  let ce := Spec.edits_of (Spec.composed allow devices mounts hooks) in
  length (specs.DeviceNodes ce) = length devices
  /\ length (specs.Mounts ce) = length mounts
  /\ length (specs.Hooks ce) = length hooks.
Proof. cbn. rewrite !length_map. auto. Qed.

(** No composed edit set holds the group id 0. *)
Lemma composed_gids_nonzero (allow : bool) (devices : list discover.Device) :
  ~ In 0%Z (flat_map (Spec.device_gids allow) devices).
Proof.
  rewrite in_flat_map. intros (d & _ & Hin). unfold Spec.device_gids in Hin.
  destruct allow; cbn [andb] in Hin; [| exact Hin].
  destruct (Z.eqb_spec (edits.getRequiredGID d) 0) as [Hz | Hnz];
    cbn [negb] in Hin; [exact Hin |].
  destruct Hin as [Heq | []]. congruence.
Qed.

End Compose.

(** Two devices, one mount, one hook: the calls are made in order. *)
Example EditsFromDiscoverer_two_devices :
  exists c,
    edits.EditsFromDiscoverer (H := Fixture.lstat)
      {| edits.allowAdditionalGIDs := true |} (Fixture.recording false) []
    = ((Some c, None), ["Devices"; "Mounts"; "Hooks"])
    /\ length (specs.DeviceNodes (Spec.edits_of c)) = 2
    /\ length (specs.Mounts (Spec.edits_of c)) = 1
    /\ length (specs.Hooks (Spec.edits_of c)) = 1
    /\ specs.AdditionalGIDs (Spec.edits_of c) = [44%Z].
Proof. eexists. vm_compute. repeat split. Qed.

(** When Mounts fails, Hooks is not called and no edits come back. *)
Example EditsFromDiscoverer_mounts_fail :
  edits.EditsFromDiscoverer (H := Fixture.lstat)
    {| edits.allowAdditionalGIDs := true |} (Fixture.recording true) []
  = ((None, Some (ErrWrap "failed to discover mounts" (ErrNew "no mounts"))),
     ["Devices"; "Mounts"]).
Proof. reflexivity. Qed.

(** ** Library names ([isLibName]) *)

Section Splitting.

Lemma app_cons (c : ascii) (a b : string) :
  String c a +:+ b = String c (a +:+ b).
Proof. reflexivity. Qed.

Lemma app_nil (b : string) : "" +:+ b = b.
Proof. reflexivity. Qed.

Lemma app_assoc_string (a b c : string) : (a +:+ b) +:+ c = a +:+ (b +:+ c).
Proof.
  induction a as [| x a IH]; [reflexivity |].
  rewrite !app_cons. f_equal. exact IH.
Qed.

Lemma prefix_drop (p s : string) :
  String.prefix p s = true -> s = p +:+ strings.drop (String.length p) s.
Proof.
  revert s. induction p as [| c p IH]; intros s Hp; [reflexivity |].
  destruct s as [| d s]; [discriminate |]. cbn in Hp.
  destruct (Ascii.ascii_dec c d) as [-> | Hne]; [| discriminate].
  cbn [String.length strings.drop]. rewrite app_cons. f_equal. now apply IH.
Qed.

Lemma prefix_app (p s : string) : String.prefix p (p +:+ s) = true.
Proof.
  induction p as [| c p IH]; [rewrite app_nil; now destruct s |].
  rewrite app_cons. cbn.
  destruct (Ascii.ascii_dec c c); [assumption | contradiction].
Qed.

Lemma prefix_length (p s : string) :
  String.prefix p s = true -> String.length p <= String.length s.
Proof.
  revert s. induction p as [| c p IH]; intros s Hp; cbn; [lia |].
  destruct s as [| d s]; [discriminate |]. cbn in Hp |- *.
  destruct (Ascii.ascii_dec c d); [| discriminate].
  apply IH in Hp. lia.
Qed.

Lemma drop_length (n : nat) (s : string) :
  String.length (strings.drop n s) = String.length s - n.
Proof.
  revert s. induction n as [| n IH]; intros s; cbn; [lia |].
  destruct s as [| c s]; cbn; [reflexivity | apply IH].
Qed.

Lemma Contains_cons (c : ascii) (s sub : string) :
  strings.Contains s sub = true -> strings.Contains (String c s) sub = true.
Proof. intros H. cbn [strings.Contains]. rewrite H. apply orb_true_r. Qed.

Lemma Contains_prefix (s sub : string) :
  String.prefix sub s = true -> strings.Contains s sub = true.
Proof. intros H. destruct s; cbn [strings.Contains]; rewrite H; reflexivity. Qed.

Lemma Contains_app (pre sub s : string) :
  strings.Contains (pre +:+ (sub +:+ s)) sub = true.
Proof.
  induction pre as [| c pre IH].
  - rewrite app_nil. apply Contains_prefix, prefix_app.
  - rewrite app_cons. now apply Contains_cons.
Qed.

(** Passing over [k] bytes is splitting what is left after them. *)
Lemma split_from_skip (sep : string) (s : string) :
  forall k, k <= String.length s ->
            strings.split_from sep k s
            = strings.split_from sep 0 (strings.drop k s).
Proof.
  induction s as [| c s IH]; intros k Hk.
  - cbn in Hk. assert (k = 0) as -> by lia. reflexivity.
  - destruct k as [| k]; [reflexivity |].
    cbn [strings.split_from strings.drop]. apply IH. cbn in Hk. lia.
Qed.

Variable sep : string.
Hypothesis sep_nonempty : sep <> "".

Lemma Split_nonempty_sep (s : string) :
  strings.Split s sep = strings.split_from sep 0 s.
Proof. unfold strings.Split. destruct sep; [contradiction | reflexivity]. Qed.

Lemma Split_empty : strings.Split "" sep = [""].
Proof. now rewrite Split_nonempty_sep. Qed.

Lemma Split_at_sep (s : string) :
  String.prefix sep s = true ->
  strings.Split s sep
  = "" :: strings.Split (strings.drop (String.length sep) s) sep.
Proof.
  intros Hp. rewrite !Split_nonempty_sep.
  destruct s as [| c s].
  - destruct sep; [contradiction | discriminate].
  - cbn [strings.split_from]. rewrite Hp. f_equal.
    pose proof (prefix_length _ _ Hp) as Hlen. cbn in Hlen.
    destruct sep as [| c0 sep0]; [contradiction |].
    cbn [String.length strings.drop] in *.
    replace (S (String.length sep0) - 1) with (String.length sep0) by lia.
    apply split_from_skip. lia.
Qed.

Lemma Split_not_at_sep (c : ascii) (s : string) :
  String.prefix sep (String c s) = false ->
  strings.Split (String c s) sep = strings.cons_head c (strings.Split s sep).
Proof.
  intros Hp. rewrite !Split_nonempty_sep. cbn [strings.split_from].
  now rewrite Hp.
Qed.

Lemma Contains_empty : strings.Contains "" sep = false.
Proof. cbn. destruct sep; [contradiction | reflexivity]. Qed.

(** Either the separator does not occur and the string is the one part,
    or the last part is what follows an occurrence of the separator and
    holds none. *)
Lemma Split_last (n : nat) :
  forall s, String.length s <= n ->
    (strings.Contains s sep = false /\ strings.Split s sep = [s])
    \/ (exists pre,
          s = pre +:+ (sep +:+ List.last (strings.Split s sep) "")
          /\ strings.Contains (List.last (strings.Split s sep) "") sep = false
          /\ 2 <= length (strings.Split s sep)).
Proof.
  induction n as [| n IH]; intros s Hlen.
  - destruct s; [| cbn in Hlen; lia]. left. split; [apply Contains_empty | apply Split_empty].
  - destruct s as [| c s]; [left; split; [apply Contains_empty | apply Split_empty] |].
    destruct (String.prefix sep (String c s)) eqn:Hp.
    + right. rewrite (Split_at_sep _ Hp).
      set (rest := strings.drop (String.length sep) (String c s)).
      assert (Hrest : String.length rest <= n).
      { unfold rest. rewrite drop_length. cbn in Hlen |- *.
        destruct sep; [contradiction |]. cbn. lia. }
      pose proof (prefix_drop _ _ Hp) as Hs. fold rest in Hs.
      destruct (IH rest Hrest) as [[Hno Hone] | (pre & Heq & Hno & Hlen2)].
      * exists "". rewrite Hone. cbn [List.last length]. rewrite app_nil.
        repeat split; [exact Hs | exact Hno | lia].
      * exists (sep +:+ pre).
        assert (Hl : List.last ("" :: strings.Split rest sep) ""
                     = List.last (strings.Split rest sep) "").
        { destruct (strings.Split rest sep); [cbn in Hlen2; lia | reflexivity]. }
        rewrite Hl. repeat split; [| exact Hno | cbn [length]; lia].
        rewrite app_assoc_string, <- Heq. exact Hs.
    + rewrite (Split_not_at_sep _ _ Hp).
      assert (Hs : String.length s <= n) by (cbn in Hlen; lia).
      destruct (IH s Hs) as [[Hno Hone] | (pre & Heq & Hno & Hlen2)].
      * left. rewrite Hone. split; [| reflexivity].
        cbn [strings.Contains]. rewrite Hp, Hno. reflexivity.
      * right. exists (String c pre).
        destruct (strings.Split s sep) as [| h [| h2 t]]; [cbn in Hlen2; lia ..|].
        cbn [strings.cons_head]. 
        change (List.last (String c h :: h2 :: t) "") with (List.last (h2 :: t) "").
        change (List.last (h :: h2 :: t) "") with (List.last (h2 :: t) "") in Heq, Hno.
        repeat split; [| exact Hno | cbn [length]; lia].
        rewrite app_cons. now rewrite <- Heq.
Qed.

End Splitting.

Section LibraryNames.

Lemma so_nonempty : ".so" <> "".
Proof. discriminate. Qed.

(** [.so] cannot overlap itself: what follows an occurrence that is
    followed by no other is determined. *)
Lemma after_so_head (f pre' f' : string) :
  ".so" +:+ f = pre' +:+ (".so" +:+ f') ->
  strings.Contains f ".so" = false ->
  pre' = "" /\ f = f'.
Proof.
  intros Heq Hno.
  destruct pre' as [| c1 [| c2 [| c3 p]]];
    rewrite ?app_cons, ?app_nil in Heq; try discriminate Heq.
  - injection Heq as <-. auto.
  - injection Heq as _ _ _ Hf. rewrite Hf in Hno.
    change (String "." (String "s" (String "o" f'))) with (".so" +:+ f') in Hno.
    rewrite Contains_app in Hno. discriminate.
Qed.

Lemma after_last_so_unique (pre : string) :
  forall pre' f f',
    pre +:+ (".so" +:+ f) = pre' +:+ (".so" +:+ f') ->
    strings.Contains f ".so" = false ->
    strings.Contains f' ".so" = false ->
    f = f'.
Proof.
  induction pre as [| c pre IH]; intros pre' f f' Heq Hf Hf'.
  - rewrite app_nil in Heq. now destruct (after_so_head _ _ _ Heq Hf).
  - destruct pre' as [| c' pre'].
    + rewrite app_nil in Heq. symmetry in Heq.
      destruct (after_so_head _ _ _ Heq Hf') as [Habs _]. discriminate.
    + rewrite !app_cons in Heq. injection Heq as _ Heq. eauto.
Qed.

Lemma Match_lib (name : string) :
  filepath.Match "lib?*.so*" name = (filepath.match_tokens Spec.lib_tokens name, None).
Proof. reflexivity. Qed.

Lemma match_so_prefix (s : string) :
  filepath.match_tokens
    [filepath.Lit "."; filepath.Lit "s"; filepath.Lit "o"; filepath.Star] s = true ->
  String.prefix ".so" s = true.
Proof.
  intros H.
  destruct s as [| c1 s]; cbn [filepath.match_tokens] in H; [discriminate |].
  destruct (Ascii.eqb_spec "." c1) as [<- | _]; [| discriminate].
  destruct s as [| c2 s]; cbn [andb] in H; [discriminate |].
  destruct (Ascii.eqb_spec "s" c2) as [<- | _]; [| discriminate].
  destruct s as [| c3 s]; cbn [andb] in H; [discriminate |].
  destruct (Ascii.eqb_spec "o" c3) as [<- | _]; [| discriminate].
  now destruct s.
Qed.

Lemma match_star_so (s : string) :
  filepath.match_tokens
    [filepath.Star; filepath.Lit "."; filepath.Lit "s"; filepath.Lit "o";
     filepath.Star] s = true ->
  strings.Contains s ".so" = true.
Proof.
  induction s as [| c s IH]; intros H.
  - cbn in H. discriminate.
  - cbn [filepath.match_tokens] in H, IH.
    apply orb_prop in H as [H | H].
    + apply Contains_prefix. apply match_so_prefix. exact H.
    + apply andb_prop in H as [_ H]. apply Contains_cons. apply IH. exact H.
Qed.

(** A name that matches the pattern holds [.so]. *)
Lemma match_lib_Contains (name : string) :
  filepath.match_tokens Spec.lib_tokens name = true ->
  strings.Contains name ".so" = true.
Proof.
  unfold Spec.lib_tokens. intros H.
  destruct name as [| c1 [| c2 [| c3 [| c4 s]]]]; cbn [filepath.match_tokens] in H;
    try discriminate H; try (rewrite ?andb_false_r in H; discriminate H).
  apply andb_prop in H as [_ H]. apply andb_prop in H as [_ H].
  apply andb_prop in H as [_ H]. apply andb_prop in H as [_ H].
  do 4 apply Contains_cons. now apply match_star_so.
Qed.

(** [isLibName] on a base name that matches the pattern. *)
Lemma isLibName_matched (filename : string) :
  filepath.match_tokens Spec.lib_tokens (filepath.Base filename) = true ->
  exists pre,
    filepath.Base filename
    = pre +:+ (".so" +:+ List.last (strings.Split (filepath.Base filename) ".so") "")
    /\ strings.Contains (List.last (strings.Split (filepath.Base filename) ".so") "")
                        ".so" = false
    /\ discover.isLibName filename
       = (String.eqb (List.last (strings.Split (filepath.Base filename) ".so") "") ""
          || strings.HasPrefix
               (List.last (strings.Split (filepath.Base filename) ".so") "") ".").
Proof.
  intros Hm. unfold discover.isLibName. rewrite Match_lib, Hm.
  cbn [negb orb]. 
  destruct (Split_last ".so" so_nonempty _ (filepath.Base filename) (le_n _))
    as [[Hno _] | (pre & Heq & Hno & Hlen)].
  - rewrite (match_lib_Contains _ Hm) in Hno. discriminate.
  - exists pre. repeat split; [exact Heq | exact Hno |].
    destruct (Nat.eqb_spec (length (strings.Split (filepath.Base filename) ".so")) 1)
      as [H1 | H1]; [lia |].
    reflexivity.
Qed.

(** C8.  [isLibName] accepts libfoo.so, libfoo.so.1 and libfoo.so.1.2.3
    and rejects libfoo.soup, foo.so and libfoo.sox; in general a file
    name is accepted exactly when its base name matches the pattern
    lib?*.so* and the fragment that follows the last occurrence of .so
    in it (the occurrence followed by no other) is empty or starts with
    a dot. *)
Theorem isLibName_spec :
  discover.isLibName "libfoo.so" = true
  /\ discover.isLibName "libfoo.so.1" = true
  /\ discover.isLibName "libfoo.so.1.2.3" = true
  /\ discover.isLibName "libfoo.soup" = false
  /\ discover.isLibName "foo.so" = false
  /\ discover.isLibName "libfoo.sox" = false
  /\ forall filename : string,
      discover.isLibName filename = true
      <-> (filepath.Match "lib?*.so*" (filepath.Base filename) = (true, None)
           /\ exists pre frag,
               filepath.Base filename = pre +:+ (".so" +:+ frag)
               /\ strings.Contains frag ".so" = false
               /\ (frag = "" \/ strings.HasPrefix frag "." = true)).
Proof.
  repeat (split; [reflexivity |]).
  intros filename. rewrite Match_lib. split.
  - intros Hlib.
    destruct (filepath.match_tokens Spec.lib_tokens (filepath.Base filename)) eqn:Hm.
    + split; [reflexivity |].
      destruct (isLibName_matched _ Hm) as (pre & Heq & Hno & Hacc).
      exists pre, (List.last (strings.Split (filepath.Base filename) ".so") "").
      repeat split; [exact Heq | exact Hno |].
      rewrite Hlib in Hacc. symmetry in Hacc.
      apply orb_prop in Hacc as [He | Hp]; [left; now apply String.eqb_eq | now right].
    + unfold discover.isLibName in Hlib. rewrite Match_lib, Hm in Hlib.
      discriminate.
  - intros [Hm (pre & frag & Heq & Hno & Hcond)].
    injection Hm as Hm.
    destruct (isLibName_matched _ Hm) as (pre' & Heq' & Hno' & Hacc).
    rewrite Hacc.
    assert (Hfrag : List.last (strings.Split (filepath.Base filename) ".so") "" = frag).
    { eapply after_last_so_unique; [| exact Hno' | exact Hno].
      rewrite <- Heq'. exact Heq. }
    rewrite Hfrag. destruct Hcond as [-> | Hp]; [reflexivity |].
    rewrite Hp. apply orb_true_r.
Qed.

End LibraryNames.

(** ** The ldcache-update hook *)

Section UniqueFolders.

Lemma filter_filter_and {A : Type} (f g : A -> bool) (l : list A) :
  List.filter f (List.filter g l) = List.filter (fun x => g x && f x) l.
Proof.
  induction l as [| x l IH]; [reflexivity |]. cbn [List.filter].
  destruct (g x); cbn [andb List.filter]; [destruct (f x) |]; now rewrite IH.
Qed.

Lemma first_seen_cons (x : string) (t : list string) :
  Spec.first_seen (x :: t)
  = x :: Spec.first_seen (List.filter (fun y => negb (String.eqb y x)) t).
Proof. now simp first_seen. Qed.

(** The loop keeps [checked] in step with [paths], and appends to
    [paths] the fresh folders in the order they are first seen. *)
Lemma uniqueFolders_loop_spec (libraries : list string) :
  forall (paths : list string) (checked : gmap string bool),
    (forall dir, default false (checked !! dir) = existsb (String.eqb dir) paths) ->
    discover.uniqueFolders_loop libraries paths checked
    = paths ++ Spec.first_seen
                 (List.filter (Spec.fresh paths) (map filepath.Dir libraries)).
Proof.
  induction libraries as [| l rest IH]; intros paths checked Hinv.
  - cbn. simp first_seen. now rewrite app_nil_r.
  - cbn [discover.uniqueFolders_loop map List.filter].
    unfold Spec.fresh at 1.
    destruct (String.eqb (filepath.Dir l) "") eqn:Hempty; cbn [negb andb].
    + now apply IH.
    + rewrite Hinv.
      destruct (existsb (String.eqb (filepath.Dir l)) paths) eqn:Hseen;
        cbn [negb].
      * now apply IH.
      * rewrite first_seen_cons, filter_filter_and.
        rewrite (IH (paths ++ [filepath.Dir l])
                    (<[filepath.Dir l := true]> checked)).
        -- rewrite <- app_assoc. cbn [app]. do 3 f_equal.
           apply List.filter_ext. intros dir. unfold Spec.fresh.
           rewrite existsb_app. cbn [existsb]. rewrite orb_false_r, negb_orb.
           now rewrite andb_assoc.
        -- intros dir. rewrite existsb_app. cbn [existsb]. rewrite orb_false_r.
           destruct (String.eqb_spec dir (filepath.Dir l)) as [-> | Hne].
           ++ rewrite lookup_insert_eq. cbn. now rewrite orb_true_r.
           ++ rewrite lookup_insert_ne by congruence.
              rewrite Hinv. now rewrite orb_false_r.
Qed.

(** [uniqueFolders] is the deduplication in first-seen order of the
    non-empty folders of the libraries. *)
Lemma uniqueFolders_spec (libraries : list string) :
  discover.uniqueFolders libraries = Spec.unique_folders libraries.
Proof.
  unfold discover.uniqueFolders, Spec.unique_folders.
  rewrite (uniqueFolders_loop_spec libraries [] ∅).
  - cbn [app]. f_equal. apply List.filter_ext. intros dir. unfold Spec.fresh.
    cbn [existsb negb]. apply andb_true_r.
  - intros dir. now rewrite lookup_empty.
Qed.

Lemma first_seen_In (n : nat) :
  forall l x, length l <= n -> In x (Spec.first_seen l) <-> In x l.
Proof.
  induction n as [| n IH]; intros l x Hlen.
  - destruct l; [| cbn in Hlen; lia]. simp first_seen. tauto.
  - destruct l as [| y t]; [simp first_seen; tauto |].
    rewrite first_seen_cons. cbn [In].
    rewrite IH, filter_In.
    + destruct (String.eqb_spec x y) as [-> | Hne]; cbn [negb]; [tauto |].
      intuition congruence.
    + pose proof (List.filter_length_le (fun z => negb (String.eqb z y)) t).
      cbn in Hlen. lia.
Qed.

Lemma first_seen_NoDup (n : nat) :
  forall l, length l <= n -> List.NoDup (Spec.first_seen l).
Proof.
  induction n as [| n IH]; intros l Hlen.
  - destruct l; [| cbn in Hlen; lia]. simp first_seen. constructor.
  - destruct l as [| y t]; [simp first_seen; constructor |].
    rewrite first_seen_cons.
    pose proof (List.filter_length_le (fun z => negb (String.eqb z y)) t) as Hf.
    cbn in Hlen. constructor; [| apply IH; lia].
    rewrite (first_seen_In n) by lia. rewrite filter_In.
    intros [_ Hneq]. rewrite String.eqb_refl in Hneq. discriminate.
Qed.

Lemma folder_args_flat_map (folders : list string) :
  discover.folder_args folders = flat_map (fun dir => ["--folder"; dir]) folders.
Proof. induction folders as [| f rest IH]; cbn; [| rewrite IH]; reflexivity. Qed.

End UniqueFolders.

Section LDCacheHook.

Context {St : Type}.

(** C4.  Given the mounts of the wrapped discoverer, [Hooks] of the
    ldcache-update discoverer emits exactly one hook, at the
    createContainer phase.  Its path is the first match of the locator
    for the configured executable, and the default /usr/bin/nvidia-ctk
    when the locator fails or finds nothing, in which case (and only
    then) a warning is logged.  Its arguments are the base name of that
    path, then [hook update-ldcache], then one [--folder dir] pair for
    every unique non-empty containing directory of the library mounts,
    the directories without duplicates and in first-seen order.  The
    unique folders of /a/libx.so.1, /a/liby.so.1, /b/libz.so.1 are /a
    and /b. *)
Theorem ldcache_hook_spec (d : discover.ldconfig St) (s s' : St)
        (mounts : list discover.Mount) :
  discover.Mounts (discover.mountsFrom d) s = ((mounts, None), s') ->
  let executable := discover.nvidiaCTKExecutablePath d in
  let hookPath := Spec.hook_path (discover.lookup_ d) executable in
  let folders := Spec.unique_folders (discover.getLibraryPaths mounts) in
  exists log,
    discover.ldconfig_Hooks d s
    = (([ {| discover.Hook_Lifecycle := discover.CreateContainerHook;
             discover.Hook_Path := hookPath;
             discover.Hook_Args :=
               [filepath.Base hookPath; "hook"; "update-ldcache"]
                 ++ flat_map (fun dir => ["--folder"; dir]) folders |} ],
        None), log, s')
    /\ existsb Spec.is_warning log
       = negb (Spec.located (discover.lookup_ d) executable)
    /\ List.NoDup folders
    /\ (forall dir, In dir folders
                    <-> dir <> ""
                        /\ In dir (map filepath.Dir (discover.getLibraryPaths mounts)))
    /\ discover.uniqueFolders ["/a/libx.so.1"; "/a/liby.so.1"; "/b/libz.so.1"]
       = ["/a"; "/b"].
Proof.
  intros Hmounts executable hookPath folders.
  unfold discover.ldconfig_Hooks. rewrite Hmounts.
  unfold discover.CreateLDCacheUpdateHook.
  rewrite uniqueFolders_spec, folder_args_flat_map.
  fold executable folders.
  unfold hookPath, Spec.hook_path, Spec.located. 
  assert (Hfolders : List.NoDup folders
            /\ (forall dir, In dir folders
                   <-> dir <> ""
                       /\ In dir (map filepath.Dir (discover.getLibraryPaths mounts)))).
  { split; [apply (first_seen_NoDup _ _ (le_n _)) |].
    intros dir. unfold folders, Spec.unique_folders.
    rewrite (first_seen_In _ _ _ (le_n _)), filter_In.
    destruct (String.eqb_spec dir ""); cbn [negb]; intuition congruence. }
  destruct Hfolders as [Hnodup Hin].
  destruct (discover.lookup_ d executable) as [[| t0 more] [e |]] eqn:Hl;
    (eexists; split; [reflexivity |]; split; [reflexivity |];
     split; [exact Hnodup |]; split; [exact Hin | reflexivity]).
Qed.

End LDCacheHook.

(** The library mounts of the fixture, with no toolkit CLI to be found. *)
Lemma ldcache_hook_spec_witness :
  discover.Mounts (discover.mountsFrom Fixture.ldcache) tt
  = ((fst (fst (discover.Mounts Fixture.library_mounts tt)), None), tt)
  /\ exists log,
      discover.ldconfig_Hooks Fixture.ldcache tt
      = (([ {| discover.Hook_Lifecycle := "createContainer";
               discover.Hook_Path := "/usr/bin/nvidia-ctk";
               discover.Hook_Args :=
                 ["nvidia-ctk"; "hook"; "update-ldcache";
                  "--folder"; "/a"; "--folder"; "/b"] |} ], None), log, tt)
      /\ existsb Spec.is_warning log = true.
Proof.
  split; [reflexivity |].
  destruct (ldcache_hook_spec Fixture.ldcache tt tt _ eq_refl)
    as (log & Hhook & Hwarn & _).
  exists log. split; [exact Hhook | exact Hwarn].
Defined.

(** ** The driver version ([Driver.Version]) *)

Section DriverVersion.

Context `{F : lookup.Finder}.

(** The locator of [Libraries] is not optional: it finds a match or
    fails, and so [libcudaPath] never indexes an empty slice. *)
Lemma Locate_required (o : lookup.options) (pattern : string) :
  lookup.isOptional o = false ->
  lookup.count o = 0 ->
  lookup.Locate o pattern
  = match lookup.find (lookup.root o) (lookup.searchPaths o) pattern with
    | [] => ([], Some (ErrWrap ("pattern " +:+ pattern) lookup.ErrNotFound))
    | found => (found, None)
    end.
Proof.
  intros Hopt Hcount. unfold lookup.Locate. rewrite Hopt, Hcount.
  destruct (lookup.find (lookup.root o) (lookup.searchPaths o) pattern);
    reflexivity.
Qed.

Lemma drop_app_length (p s : string) :
  strings.drop (String.length p) (p +:+ s) = s.
Proof. induction p as [| c p IH]; [reflexivity | exact IH]. Qed.

(** What is left of a name after its prefix. *)
Lemma TrimPrefix_app (p s : string) : strings.TrimPrefix (p +:+ s) p = s.
Proof.
  unfold strings.TrimPrefix, strings.HasPrefix.
  rewrite prefix_app. apply drop_app_length.
Qed.

(** C5.  On a driver root with no version cached, [Version] locates
    the pattern libcuda.so.*.* with the library locator.  With no match
    it fails (the locator is not optional, so the first path is never
    taken from an empty slice).  With matches it selects the first, and
    logs a warning when there are more.  The version is what is left of
    the base name of that path after the prefix [libcuda.so.]; an empty
    rest is an error, any other is handed back and cached. *)
Theorem Version_spec (r : root.Driver) :
  root.version r = "" ->
  root.Version r
  = match lookup.find (root.Root r)
                      (root.normalizeSearchPaths (root.librarySearchPaths r))
                      "libcuda.so.*.*" with
    | [] =>
        Returned
          (("", Some (ErrWrap "failed to locate libcuda.so"
                        (ErrWrap "failed to locate libcuda.so.*.*"
                           (ErrWrap "pattern libcuda.so.*.*" lookup.ErrNotFound)))),
           [], r)
    | first :: more =>
        let log :=
          match more with
          | [] => []
          | _ => [(Warning, "Selecting " +:+ first
                              +:+ " out of multiple libcuda.so paths.")]
          end in
        let suffix := strings.TrimPrefix (filepath.Base first) "libcuda.so." in
        if String.eqb suffix "" then
          Returned
            (("", Some (ErrNew ("failed to determine libcuda.so version from path: "
                                  +:+ first))), log, r)
        else
          Returned
            ((suffix, None), log,
             {| root.Root := root.Root r;
                root.librarySearchPaths := root.librarySearchPaths r;
                root.configSearchPaths := root.configSearchPaths r;
                root.version := suffix;
                root.libraryRoot := root.libraryRoot r |})
    end
    /\ forall v : string,
        strings.TrimPrefix ("libcuda.so." +:+ v) "libcuda.so." = v.
Proof.
  intros Hfresh. split; [| intros v; apply TrimPrefix_app].
  unfold root.Version. rewrite Hfresh. cbn [String.eqb negb].
  unfold root.libcudaPath.
  rewrite Locate_required by reflexivity.
  cbn [root.Libraries lookup.root lookup.searchPaths].
  destruct (lookup.find (root.Root r)
              (root.normalizeSearchPaths (root.librarySearchPaths r))
              "libcuda.so.*.*") as [| first more]; [reflexivity |].
  destruct more as [| second more];
    destruct (String.eqb (strings.TrimPrefix (filepath.Base first) "libcuda.so.") "");
    reflexivity.
Qed.

(** A locator that handed back no path and no error would make
    [libcudaPath] index an empty slice. *)
Lemma libcudaPath_needs_a_match :
  root.libcudaPath (fun _ => ([], None))
  = Panicked "index out of range [0] with length 0".
Proof. reflexivity. Qed.

End DriverVersion.

(** The driver root of the fixture, with two copies of libcuda. *)
Lemma Version_spec_witness :
  root.version Fixture.a_driver = ""
  /\ root.Version (H := Fixture.driver_finder) Fixture.a_driver
     = Returned
      (("535.54", None),
       [(Warning,
         "Selecting /run/nvidia/driver/usr/lib64/libcuda.so.535.54 out of multiple libcuda.so paths.")],
       {| root.Root := "/run/nvidia/driver";
          root.librarySearchPaths := [];
          root.configSearchPaths := [];
          root.version := "535.54";
          root.libraryRoot := "" |}).
Proof.
  split; [reflexivity |].
  exact (proj1 (@Version_spec Fixture.driver_finder Fixture.a_driver eq_refl)).
Defined.

(** ** The package type ([resolvePackageType]) *)

Section PackageType.

Context `{S : os.StatFS}.

(** What [os.Stat] hands back never satisfies the condition tested:
    beside an error there is no info to ask. *)
Lemma stat_failed_and_not_dir_Stat (name : string) :
  installer.stat_failed_and_not_dir (os.Stat name)
  = match os.stat name with
    | inl _ => Returned false
    | inr _ => Panicked "invalid memory address or nil pointer dereference"
    end.
Proof. unfold os.Stat. destruct (os.stat name); reflexivity. Qed.

(** An explicit package type is handed back unchanged. *)
Lemma resolvePackageType_explicit (hostRoot packageType : string) :
  packageType <> "" -> packageType <> "auto" ->
  installer.resolvePackageType hostRoot packageType = Returned (packageType, None).
Proof.
  intros H1 H2. unfold installer.resolvePackageType.
  destruct (String.eqb_spec packageType ""); [contradiction |].
  destruct (String.eqb_spec packageType "auto"); [contradiction |].
  reflexivity.
Qed.

(** Left to detect the package type, the function hands back "deb" when
    both executables are there and panics otherwise; never "rpm". *)
Lemma resolvePackageType_auto (hostRoot : string) :
  installer.resolvePackageType hostRoot "auto"
  = match os.stat (filepath.Join [hostRoot; "/usr/bin/rpm"]),
          os.stat (filepath.Join [hostRoot; "/usr/bin/dpkg"]) with
    | inl _, inl _ => Returned ("deb", None)
    | _, _ => Panicked "invalid memory address or nil pointer dereference"
    end.
Proof.
  unfold installer.resolvePackageType. cbn [String.eqb Ascii.eqb negb andb].
  rewrite !stat_failed_and_not_dir_Stat.
  destruct (os.stat (filepath.Join [hostRoot; "/usr/bin/rpm"]));
    destruct (os.stat (filepath.Join [hostRoot; "/usr/bin/dpkg"])); reflexivity.
Qed.

End PackageType.

(** C6.  The code at hand does not select "rpm" where the rpm
    executable is present.  On a host with /usr/bin/rpm and without
    /usr/bin/dpkg the detection panics: the condition tested is
    [err != nil && !info.IsDir()], so a successful stat never selects a
    package type, and a failed one asks a nil [FileInfo].  With both
    executables present it hands back "deb"; with neither it panics
    instead of defaulting to "deb". *)
Theorem resolvePackageType_rpm_host :
  installer.resolvePackageType (H := Fixture.host true false) "/" "auto"
  = Panicked "invalid memory address or nil pointer dereference"
  /\ installer.resolvePackageType (H := Fixture.host true true) "/" "auto"
     = Returned ("deb", None)
  /\ installer.resolvePackageType (H := Fixture.host false false) "/" "auto"
     = Panicked "invalid memory address or nil pointer dereference".
Proof. repeat split; reflexivity. Qed.

(** ** The symlink repair ([create-dot-so-symlinks]) *)

Section SymlinkRepair.

Context {FS State : Type} `{O : dotsosymlinks.OS FS} `{C : dotsosymlinks.OCI State}.

(** The body of the loop takes one step of the repair. *)
Lemma run_lib_step (cfg : dotsosymlinks.config) (fs : FS) (lib : string) :
  Spec.repair_step (dotsosymlinks.driverVersion cfg) fs lib
                   (dotsosymlinks.run_lib cfg fs lib).
Proof.
  unfold dotsosymlinks.run_lib.
  destruct (strings.HasSuffix lib (".so." +:+ dotsosymlinks.driverVersion cfg))
    eqn:Hsuffix; cbn [negb].
  2: { now apply Spec.repair_not_versioned. }
  destruct (dotsosymlinks.Glob fs
              (strings.TrimSuffix lib ("." +:+ dotsosymlinks.driverVersion cfg)
                 +:+ ".[0-9]")) as [paths err] eqn:Hglob.
  destruct paths as [| p [| q more]], err as [e |];
    try (apply Spec.repair_no_single_sibling;
         [exact Hsuffix | intros p0 Hp0; rewrite Hglob in Hp0; discriminate Hp0]).
  destruct (dotsosymlinks.Symlink fs (filepath.Base p)
              (strings.TrimSuffix lib ("." +:+ dotsosymlinks.driverVersion cfg)))
    as [[e |] fs'] eqn:Hlink.
  - rewrite (dotsosymlinks.Symlink_failed _ _ _ _ _ Hlink).
    eapply Spec.repair_symlink_failed; eauto.
  - eapply Spec.repair_linked; eauto.
Qed.

Lemma run_loop_steps (cfg : dotsosymlinks.config) (libs : list string) :
  forall fs : FS,
    Spec.repair_all (dotsosymlinks.driverVersion cfg) fs libs
                    (fold_left (dotsosymlinks.run_lib cfg) libs fs).
Proof.
  induction libs as [| lib libs IH]; intros fs; cbn [fold_left].
  - constructor.
  - econstructor; [apply run_lib_step | apply IH].
Qed.

(** The optional locator of the command never fails. *)
Lemma Locate_optional `{F : lookup.Finder} (root pattern : string) :
  lookup.Locate {| lookup.root := root; lookup.searchPaths := [];
                   lookup.isOptional := true; lookup.count := 0 |} pattern
  = (lookup.find root [] pattern, None).
Proof.
  unfold lookup.Locate. cbn.
  destruct (lookup.find root [] pattern); reflexivity.
Qed.

(** C7.  Once the container state and its root are had, the command
    hands back no error, whatever happens to the single libraries.  For
    each located file, in order, it takes one step of the repair: a
    file not named *.so.<version> is passed over; so is one for which
    the pattern <base>.so.[0-9] does not yield exactly one sibling (none,
    several, or a failed glob); with exactly one sibling a symlink to
    the base name of the sibling is created at <base>.so; and when that
    symlink call fails the file system is left as it was. *)
Theorem run_best_effort (cfg : dotsosymlinks.config) (fs : FS) (st : State)
        (containerRoot : string) :
  dotsosymlinks.LoadContainerState (dotsosymlinks.containerSpec cfg) = (st, None) ->
  dotsosymlinks.GetContainerRoot st = (containerRoot, None) ->
  exists fs' : FS,
    dotsosymlinks.run cfg fs = (None, fs')
    /\ Spec.repair_all
         (dotsosymlinks.driverVersion cfg) fs
         (dotsosymlinks.Find fs containerRoot []
                             ("*.so." +:+ dotsosymlinks.driverVersion cfg))
         fs'.
Proof.
  intros Hload Hroot. unfold dotsosymlinks.run. rewrite Hload, Hroot.
  rewrite (Locate_optional (F := dotsosymlinks.Find fs)).
  eexists. split; [reflexivity | apply run_loop_steps].
Qed.

End SymlinkRepair.

(** The container of the fixture: [libcuda.so] is linked, the library
    with two candidates is passed over. *)
Lemma run_best_effort_witness :
  let cfg := {| dotsosymlinks.containerSpec := "";
                dotsosymlinks.driverVersion := "535.54" |} in
  dotsosymlinks.LoadContainerState (OCI := Fixture.state_OCI)
    (dotsosymlinks.containerSpec cfg) = ("/rootfs", None)
  /\ dotsosymlinks.GetContainerRoot (OCI := Fixture.state_OCI) "/rootfs"
     = ("/rootfs", None)
  /\ exists fs' : Fixture.files,
      dotsosymlinks.run (H := Fixture.files_OS) (H0 := Fixture.state_OCI)
                        cfg Fixture.container = (None, fs')
      /\ Spec.repair_all (H := Fixture.files_OS) "535.54" Fixture.container
           ["/rootfs/usr/lib/libcuda.so.535.54";
            "/rootfs/usr/lib/libnvidia-ml.so.535.54"] fs'.
Proof.
  intros cfg. split; [reflexivity |]. split; [reflexivity |].
  exact (@run_best_effort _ _ Fixture.files_OS Fixture.state_OCI cfg
           Fixture.container "/rootfs" "/rootfs" eq_refl eq_refl).
Defined.

Example run_on_container :
  dotsosymlinks.run (H := Fixture.files_OS) (H0 := Fixture.state_OCI)
    {| dotsosymlinks.containerSpec := "";
       dotsosymlinks.driverVersion := "535.54" |} Fixture.container
  = (None, Fixture.container ++ ["/rootfs/usr/lib/libcuda.so"]).
Proof. reflexivity. Qed.

(** ** Feature toggles ([internal/config/features.go]) *)

Section Features.

Lemma isEnabled_loop_toggle (envvar : string) (in_ : config.getenver)
      (rest : list config.getenver) :
  config.isEnabled_loop envvar (in_ :: rest)
  = match Spec.toggle (in_ envvar) with
    | Some b => Some b
    | None => config.isEnabled_loop envvar rest
    end.
Proof.
  cbn [config.isEnabled_loop]. unfold Spec.toggle.
  destruct (String.eqb (in_ envvar) "enabled" || String.eqb (in_ envvar) "true");
    [reflexivity |].
  destruct (String.eqb (in_ envvar) "disabled" || String.eqb (in_ envvar) "false");
    reflexivity.
Qed.

Lemma isEnabled_loop_silent (envvar : string) (ins rest : list config.getenver) :
  Forall (fun in_ => Spec.toggle (in_ envvar) = None) ins ->
  config.isEnabled_loop envvar (ins ++ rest) = config.isEnabled_loop envvar rest.
Proof.
  induction 1 as [| in_ ins Hin _ IH]; [reflexivity |].
  cbn [app]. rewrite isEnabled_loop_toggle, Hin. exact IH.
Qed.

(** The loop reads the environments at the one variable only. *)
Lemma isEnabled_loop_values (envvar : string) (ins ins' : list config.getenver) :
  map (fun in_ => in_ envvar) ins = map (fun in_ => in_ envvar) ins' ->
  config.isEnabled_loop envvar ins = config.isEnabled_loop envvar ins'.
Proof.
  revert ins'. induction ins as [| in_ ins IH]; intros [| in' ins'] Heq;
    try discriminate Heq; [reflexivity |].
  cbn [map] in Heq. injection Heq as Hv Hrest.
  rewrite !isEnabled_loop_toggle, Hv. now rewrite (IH ins').
Qed.

(** X1.  An environment overrides the configuration: the first
    environment, in the order given, whose value for the variable is
    recognised decides whether the feature is enabled, whatever the
    configured setting and whatever the later environments say. *)
Theorem isEnabled_first_environment_decides
        (f : option config.feature) (envvar : string)
        (silent : list config.getenver) (in_ : config.getenver)
        (later : list config.getenver) (b : bool) :
  envvar <> "" ->
  Forall (fun e => Spec.toggle (e envvar) = None) silent ->
  Spec.toggle (in_ envvar) = Some b ->
  config.isEnabled f envvar (silent ++ in_ :: later) = b.
Proof.
  intros Hname Hsilent Hsays. unfold config.isEnabled.
  destruct (String.eqb_spec envvar "") as [He | _]; [contradiction |].
  cbn [negb]. rewrite (isEnabled_loop_silent _ _ _ Hsilent).
  now rewrite isEnabled_loop_toggle, Hsays.
Qed.

(** X2.  Without a variable to read, or when no environment has a
    recognised value for it (unset, empty or anything but enabled,
    true, disabled, false), the configured setting decides, and a
    feature that is not configured is disabled. *)
Theorem isEnabled_falls_back_to_setting
        (f : option config.feature) (envvar : string)
        (ins : list config.getenver) :
  envvar = "" \/ Forall (fun e => Spec.toggle (e envvar) = None) ins ->
  config.isEnabled f envvar ins = default false f.
Proof.
  intros Hcase. unfold config.isEnabled.
  assert (Hnone : (if negb (String.eqb envvar "")
                   then config.isEnabled_loop envvar ins else None) = None).
  { destruct Hcase as [-> | Hsilent]; [reflexivity |].
    destruct (negb (String.eqb envvar "")); [| reflexivity].
    rewrite <- (app_nil_r ins). now rewrite (isEnabled_loop_silent _ _ _ Hsilent). }
  rewrite Hnone. destruct f; reflexivity.
Qed.

Lemma isEnabled_values (f : option config.feature) (envvar : string)
      (ins ins' : list config.getenver) :
  map (fun in_ => in_ envvar) ins = map (fun in_ => in_ envvar) ins' ->
  config.isEnabled f envvar ins = config.isEnabled f envvar ins'.
Proof.
  intros Heq. unfold config.isEnabled.
  now rewrite (isEnabled_loop_values _ _ _ Heq).
Qed.

Lemma IsEnabled_setting (fs : config.features) (n : config.featureName)
      (ins : list config.getenver) :
  config.IsEnabled fs n ins
  = if bool_decide (n ∈ Spec.feature_names)
    then config.isEnabled (Spec.setting fs n)
                          (default "" (config.featureEnvvars !! n)) ins
    else false.
Proof.
  unfold config.IsEnabled, Spec.setting, Spec.feature_names.
  destruct (String.eqb_spec n config.FeatureGDS) as [-> | N1]; [reflexivity |].
  destruct (String.eqb_spec n config.FeatureMOFED) as [-> | N2]; [reflexivity |].
  destruct (String.eqb_spec n config.FeatureNVSWITCH) as [-> | N3]; [reflexivity |].
  destruct (String.eqb_spec n config.FeatureGDRCopy) as [-> | N4]; [reflexivity |].
  destruct (String.eqb_spec n config.FeatureAllowAdditionalGIDs) as [-> | N5];
    [reflexivity |].
  rewrite bool_decide_eq_false_2; [reflexivity |].
  rewrite !elem_of_cons, elem_of_nil. tauto.
Qed.

(** X3.  A named feature depends on its own setting and its own
    variable only: two configurations that agree on the setting of the
    feature, read in environments that agree on the variable of the
    feature, give the same answer. *)
Theorem IsEnabled_own_setting_and_variable
        (fs fs' : config.features) (n : config.featureName)
        (ins ins' : list config.getenver) :
  Spec.setting fs n = Spec.setting fs' n ->
  map (fun e => e (default "" (config.featureEnvvars !! n))) ins
  = map (fun e => e (default "" (config.featureEnvvars !! n))) ins' ->
  config.IsEnabled fs n ins = config.IsEnabled fs' n ins'.
Proof.
  intros Hset Henv. rewrite !IsEnabled_setting, Hset.
  destruct (bool_decide (n ∈ Spec.feature_names)); [| reflexivity].
  now apply isEnabled_values.
Qed.

(** A name that is not the name of one of the five features is
    never enabled, whatever the configuration and the environments. *)
Lemma IsEnabled_unknown_name
        (fs : config.features) (n : config.featureName)
        (ins : list config.getenver) :
  ~ In n Spec.feature_names -> config.IsEnabled fs n ins = false.
Proof.
  intros Hn. rewrite IsEnabled_setting.
  rewrite bool_decide_eq_false_2; [reflexivity |].
  now rewrite list_elem_of_In.
Qed.

(** The variable each feature reads. *)
Lemma IsEnabled_variables (fs : config.features) (ins : list config.getenver) :
  config.IsEnabled fs config.FeatureGDS ins
  = config.isEnabled (config.GDS fs) "NVIDIA_GDS" ins
  /\ config.IsEnabled fs config.FeatureMOFED ins
     = config.isEnabled (config.MOFED fs) "NVIDIA_MOFED" ins
  /\ config.IsEnabled fs config.FeatureNVSWITCH ins
     = config.isEnabled (config.NVSWITCH fs) "NVIDIA_NVSWITCH" ins
  /\ config.IsEnabled fs config.FeatureGDRCopy ins
     = config.isEnabled (config.GDRCopy fs) "NVIDIA_GDRCOPY" ins
  /\ config.IsEnabled fs config.FeatureAllowAdditionalGIDs ins
     = config.isEnabled (config.AllowAdditionalGIDs fs)
                        "NVIDIA_ALLOW_ADDITIONAL_GIDS" ins.
Proof. repeat split; reflexivity. Qed.

End Features.

(** The image says nothing, the command line enables, the orchestrator
    would disable: the command line decides. *)
Lemma isEnabled_first_environment_decides_witness :
  "NVIDIA_ALLOW_ADDITIONAL_GIDS" <> ""
  /\ Forall (fun e => Spec.toggle (e "NVIDIA_ALLOW_ADDITIONAL_GIDS") = None)
            [Fixture.env_image]
  /\ Spec.toggle (Fixture.env_enabled "NVIDIA_ALLOW_ADDITIONAL_GIDS") = Some true
  /\ config.isEnabled (Some config.featureDisabled) "NVIDIA_ALLOW_ADDITIONAL_GIDS"
       ([Fixture.env_image] ++ Fixture.env_enabled :: [Fixture.env_disabled])
     = true.
Proof.
  assert (Hname : "NVIDIA_ALLOW_ADDITIONAL_GIDS" <> "") by discriminate.
  assert (Hsilent : Forall
            (fun e => Spec.toggle (e "NVIDIA_ALLOW_ADDITIONAL_GIDS") = None)
            [Fixture.env_image]) by (repeat constructor).
  split; [exact Hname |]. split; [exact Hsilent |]. split; [reflexivity |].
  exact (isEnabled_first_environment_decides
           (Some config.featureDisabled) "NVIDIA_ALLOW_ADDITIONAL_GIDS"
           [Fixture.env_image] Fixture.env_enabled [Fixture.env_disabled] true
           Hname Hsilent eq_refl).
Defined.

Lemma isEnabled_falls_back_to_setting_witness :
  Forall (fun e => Spec.toggle (e "NVIDIA_GDS") = None)
         [Fixture.env_image; Fixture.env_enabled]
  /\ config.isEnabled (Some config.featureEnabled) "NVIDIA_GDS"
       [Fixture.env_image; Fixture.env_enabled] = true.
Proof.
  assert (Hsilent : Forall (fun e => Spec.toggle (e "NVIDIA_GDS") = None)
                           [Fixture.env_image; Fixture.env_enabled])
    by (repeat constructor).
  split; [exact Hsilent |].
  exact (isEnabled_falls_back_to_setting (Some config.featureEnabled) "NVIDIA_GDS"
           [Fixture.env_image; Fixture.env_enabled] (or_intror Hsilent)).
Defined.

(** A configuration that differs in GDS only, read in an environment
    that differs in other variables only, answers alike for the
    additional GIDs. *)
Lemma IsEnabled_own_setting_and_variable_witness :
  config.IsEnabled Fixture.no_features config.FeatureAllowAdditionalGIDs
                   [Fixture.env_enabled]
  = config.IsEnabled
      {| config.GDS := Some true; config.MOFED := None; config.NVSWITCH := None;
         config.GDRCopy := None; config.AllowAdditionalGIDs := None |}
      config.FeatureAllowAdditionalGIDs
      [fun name => if String.eqb name "NVIDIA_GDS" then "disabled"
                   else Fixture.env_enabled name].
Proof.
  apply IsEnabled_own_setting_and_variable; reflexivity.
Defined.

(** The cases of the unit tests of the package. *)
Example features_tests :
  config.isEnabled None "" [] = false
  /\ config.isEnabled (Some config.featureEnabled) "" [] = true
  /\ config.isEnabled (Some config.featureDisabled) "" [] = false
  /\ config.isEnabled (Some config.featureDisabled) "FEATURE"
       [fun k => if String.eqb k "FEATURE" then "enabled" else ""] = true
  /\ config.isEnabled (Some config.featureEnabled) "FEATURE"
       [fun k => if String.eqb k "FEATURE" then "disabled" else ""] = false
  /\ map (fun n => config.IsEnabled Fixture.no_features n [Fixture.env_enabled])
         Spec.feature_names
     = [false; false; false; false; true].
Proof. repeat split; reflexivity. Qed.

(** ** The VFIO device specs ([pkg/nvcdi/lib-vfio.go]) *)

Section VFIO.

Lemma fmt_index_inj (i j : nat) : nvcdi.fmt_index i = nvcdi.fmt_index j -> i = j.
Proof.
  unfold nvcdi.fmt_index. intros Heq.
  apply DecimalNat.Unsigned.to_uint_inj.
  assert (Hs : Some (Nat.to_uint i) = Some (Nat.to_uint j)).
  { rewrite <- (DecimalString.NilEmpty.usu (Nat.to_uint i)),
            <- (DecimalString.NilEmpty.usu (Nat.to_uint j)).
    now rewrite Heq. }
  now injection Hs.
Qed.

Lemma loop_specs (devices : list nvpci.NvidiaPCIDevice) :
  forall idx,
    fst (nvcdi.GetAllDeviceSpecs_loop idx devices)
    = map (fun p => Spec.vfio_spec (fst p) (snd p))
          (List.filter (fun p => Spec.is_vfio (snd p))
                       (combine (seq idx (length devices)) devices)).
Proof.
  induction devices as [| dev rest IH]; intros idx; [reflexivity |].
  cbn [nvcdi.GetAllDeviceSpecs_loop length seq combine List.filter].
  specialize (IH (S idx)).
  destruct (nvcdi.GetAllDeviceSpecs_loop (S idx) rest) as [deviceSpecs log].
  cbn [fst snd] in IH |- *. unfold Spec.is_vfio at 1. cbn [snd].
  destruct (String.eqb (nvpci.Driver dev) "vfio-pci"); cbn [fst map];
    now rewrite IH.
Qed.

Lemma in_combine_seq {A : Type} (l : list A) :
  forall idx i (x : A),
    In (i, x) (combine (seq idx (length l)) l)
    <-> (idx <= i /\ nth_error l (i - idx) = Some x)%nat.
Proof.
  induction l as [| y l IH]; intros idx i x; cbn [length seq combine In].
  - split; [tauto |]. intros [_ H]. now destruct (i - idx)%nat.
  - rewrite IH. split.
    + intros [Heq | [Hle Hnth]].
      * injection Heq as <- <-. rewrite Nat.sub_diag. auto.
      * split; [lia |]. replace (i - idx)%nat with (S (i - S idx)) by lia.
        exact Hnth.
    + intros [Hle Hnth]. destruct (Nat.eq_dec i idx) as [-> | Hne].
      * rewrite Nat.sub_diag in Hnth. cbn in Hnth. injection Hnth as <-. now left.
      * right. split; [lia |].
        replace (i - idx)%nat with (S (i - S idx)) in Hnth by lia. exact Hnth.
Qed.

(** X4.  With the inventory at hand, [GetAllDeviceSpecs] hands back no
    error and, in the order of the inventory, one device spec for every
    GPU bound to [vfio-pci] and none for the others: a spec is in the
    result exactly when it is the spec of a vfio-pci GPU at some index
    of the inventory, named after that index (the position among all
    GPUs, not among the vfio ones) and holding the single device node
    /dev/vfio/<IOMMU group> and nothing else. *)
Theorem GetAllDeviceSpecs_vfio `{I : nvpci.Interface}
        (devices : list nvpci.NvidiaPCIDevice) :
  nvpci.GetGPUs = (devices, None) ->
  snd (fst nvcdi.GetAllDeviceSpecs) = None
  /\ length (fst (fst nvcdi.GetAllDeviceSpecs))
     = length (List.filter Spec.is_vfio devices)
  /\ forall d : nvcdi.Device,
      In d (fst (fst nvcdi.GetAllDeviceSpecs))
      <-> exists idx dev,
          nth_error devices idx = Some dev
          /\ nvpci.Driver dev = "vfio-pci"
          /\ d = {| nvcdi.Name := nvcdi.fmt_index idx;
                    nvcdi.ContainerEdits := {|
                      specs.DeviceNodes :=
                        [{| specs.DeviceNode_Path :=
                              "/dev/vfio/" +:+ nvcdi.fmt_d (nvpci.IommuGroup dev);
                            specs.DeviceNode_HostPath := "" |}];
                      specs.Hooks := [];
                      specs.Mounts := [];
                      specs.AdditionalGIDs := [] |} |}.
Proof.
  intros Hgpus. unfold nvcdi.GetAllDeviceSpecs. rewrite Hgpus.
  pose proof (loop_specs devices 0) as Hloop.
  destruct (nvcdi.GetAllDeviceSpecs_loop 0 devices) as [deviceSpecs log].
  cbn [fst snd] in Hloop |- *. subst deviceSpecs.
  split; [reflexivity |]. split.
  - rewrite length_map. clear Hgpus. generalize 0%nat.
    induction devices as [| dev rest IH]; intros idx; [reflexivity |].
    cbn [length seq combine List.filter snd].
    destruct (Spec.is_vfio dev); cbn [length]; now rewrite IH.
  - intros d. rewrite in_map_iff. split.
    + intros ([idx dev] & Hd & Hin). apply filter_In in Hin as [Hin Hvfio].
      apply in_combine_seq in Hin as [_ Hnth]. rewrite Nat.sub_0_r in Hnth.
      exists idx, dev. cbn [fst snd] in *.
      split; [exact Hnth |]. split; [now apply String.eqb_eq |]. now symmetry.
    + intros (idx & dev & Hnth & Hdrv & ->).
      exists (idx, dev). split; [reflexivity |].
      apply filter_In. split.
      * apply in_combine_seq. rewrite Nat.sub_0_r. split; [lia | exact Hnth].
      * cbn [snd]. unfold Spec.is_vfio. now apply String.eqb_eq.
Qed.

Lemma loop_names (devices : list nvpci.NvidiaPCIDevice) :
  forall idx name,
    In name (map nvcdi.Name (fst (nvcdi.GetAllDeviceSpecs_loop idx devices))) ->
    exists i, (idx <= i)%nat /\ name = nvcdi.fmt_index i.
Proof.
  intros idx name. rewrite loop_specs, map_map. cbn [Spec.vfio_spec nvcdi.Name].
  rewrite in_map_iff. intros ([i dev] & <- & Hin).
  apply filter_In in Hin as [Hin _]. apply in_combine_seq in Hin as [Hle _].
  exists i. auto.
Qed.

Lemma loop_names_NoDup (devices : list nvpci.NvidiaPCIDevice) :
  forall idx,
    List.NoDup (map nvcdi.Name (fst (nvcdi.GetAllDeviceSpecs_loop idx devices))).
Proof.
  induction devices as [| dev rest IH]; intros idx; [constructor |].
  cbn [nvcdi.GetAllDeviceSpecs_loop].
  pose proof (loop_names rest (S idx)) as Hnames. specialize (IH (S idx)).
  destruct (nvcdi.GetAllDeviceSpecs_loop (S idx) rest) as [deviceSpecs log].
  cbn [fst] in *.
  destruct (String.eqb (nvpci.Driver dev) "vfio-pci"); cbn [fst map nvcdi.Name];
    [| exact IH].
  constructor; [| exact IH].
  intros Hin. apply Hnames in Hin as (i & Hle & Heq).
  apply fmt_index_inj in Heq. lia.
Qed.

(** X5.  The names of the device specs [GetAllDeviceSpecs] hands back
    are pairwise distinct, whatever the inventory holds and however
    many GPUs are passed over. *)
Theorem GetAllDeviceSpecs_names_distinct `{I : nvpci.Interface} :
  List.NoDup (map nvcdi.Name (fst (fst nvcdi.GetAllDeviceSpecs))).
Proof.
  unfold nvcdi.GetAllDeviceSpecs.
  destruct nvpci.GetGPUs as [devices [e |]]; [constructor |].
  pose proof (loop_names_NoDup devices 0) as Hnd.
  destruct (nvcdi.GetAllDeviceSpecs_loop 0 devices) as [deviceSpecs log].
  exact Hnd.
Qed.

End VFIO.

(** The inventory of the fixture: the GPUs at the indices 0 and 2. *)
Lemma GetAllDeviceSpecs_vfio_witness :
  nvpci.GetGPUs (Interface := Fixture.inventory) = (Fixture.gpus, None)
  /\ snd (fst (nvcdi.GetAllDeviceSpecs (H := Fixture.inventory))) = None
  /\ length (fst (fst (nvcdi.GetAllDeviceSpecs (H := Fixture.inventory)))) = 2.
Proof.
  split; [reflexivity |].
  destruct (@GetAllDeviceSpecs_vfio Fixture.inventory Fixture.gpus eq_refl)
    as (Herr & Hlen & _).
  split; [exact Herr | exact Hlen].
Defined.

Example GetAllDeviceSpecs_on_inventory :
  map (fun d => (nvcdi.Name d,
                 map specs.DeviceNode_Path
                     (specs.DeviceNodes (nvcdi.ContainerEdits d))))
      (fst (fst (nvcdi.GetAllDeviceSpecs (H := Fixture.inventory))))
  = [("0", ["/dev/vfio/12"]); ("2", ["/dev/vfio/14"])].
Proof. reflexivity. Qed.

(** ** Lexical paths *)

Section Paths.

Lemma clean_step_nonempty (rooted : bool) (out : list string) (e : string) :
  Forall (fun x => x <> "") out ->
  Forall (fun x => x <> "") (filepath.clean_step rooted out e).
Proof.
  intros Hout. unfold filepath.clean_step.
  destruct (String.eqb_spec e "") as [-> | He]; cbn [orb]; [exact Hout |].
  destruct (String.eqb e "."); [exact Hout |].
  destruct (String.eqb e "..").
  - destruct out as [| top rest].
    + destruct rooted; [constructor | now repeat constructor].
    + destruct (String.eqb top ".."); [now constructor |].
      now inversion Hout.
  - now constructor.
Qed.

Lemma clean_fold_nonempty (rooted : bool) (es : list string) :
  forall out,
    Forall (fun x => x <> "") out ->
    Forall (fun x => x <> "") (fold_left (filepath.clean_step rooted) es out).
Proof.
  induction es as [| e es IH]; intros out Hout; [exact Hout |].
  cbn [fold_left]. apply IH. now apply clean_step_nonempty.
Qed.

Lemma concat_nonempty (sep : string) (l : list string) :
  l <> [] -> Forall (fun x => x <> "") l -> String.concat sep l <> "".
Proof.
  intros Hl Hall. destruct l as [| x xs]; [contradiction |].
  inversion Hall as [| ? ? Hx _]; subst.
  destruct x as [| c x]; [contradiction |].
  destruct xs; cbn; discriminate.
Qed.

(** [Clean] never hands back the empty string. *)
Lemma Clean_nonempty (path : string) : filepath.Clean path <> "".
Proof.
  unfold filepath.Clean. destruct path as [| c p]; [discriminate |].
  destruct (filepath.IsPathSeparator c); [discriminate |].
  destruct (rev (fold_left (filepath.clean_step false)
                           (filepath.elements (String c p)) [])) eqn:Hout;
    [discriminate |].
  rewrite <- Hout. apply concat_nonempty.
  - rewrite Hout. discriminate.
  - apply Forall_rev. apply clean_fold_nonempty. constructor.
Qed.

Lemma Dir_nonempty (path : string) : filepath.Dir path <> "".
Proof. apply Clean_nonempty. Qed.

End Paths.

(** ** The driver root ([internal/lookup/root/root.go]), further *)

Section DriverRoot.

Context `{F : lookup.Finder}.

(** The first [libcuda.so.*.*] of the driver root, if there is one. *)
Lemma libcudaPath_Libraries (r : root.Driver) :
  root.libcudaPath (lookup.Locate (root.Libraries r))
  = match lookup.find (root.Root r)
                      (root.normalizeSearchPaths (root.librarySearchPaths r))
                      "libcuda.so.*.*" with
    | [] =>
        Returned
          (("", Some (ErrWrap "failed to locate libcuda.so.*.*"
                        (ErrWrap "pattern libcuda.so.*.*" lookup.ErrNotFound))),
           [])
    | first :: more =>
        Returned
          ((first, None),
           match more with
           | [] => []
           | _ => [(Warning, "Selecting " +:+ first
                               +:+ " out of multiple libcuda.so paths.")]
           end)
    end.
Proof.
  unfold root.libcudaPath. rewrite Locate_required by reflexivity.
  cbn [root.Libraries lookup.root lookup.searchPaths].
  destruct (lookup.find (root.Root r)
              (root.normalizeSearchPaths (root.librarySearchPaths r))
              "libcuda.so.*.*") as [| first [| second more]]; reflexivity.
Qed.

Lemma Version_fresh (r : root.Driver) :
  root.version r = "" ->
  root.Version r
  = match root.libcudaPath (lookup.Locate (root.Libraries r)) with
    | Panicked msg => Panicked msg
    | Returned ((_, Some err), log) =>
        Returned (("", Some (ErrWrap "failed to locate libcuda.so" err)), log, r)
    | Returned ((first, None), log) =>
        if String.eqb (strings.TrimPrefix (filepath.Base first) "libcuda.so.") ""
        then Returned
               (("", Some (ErrNew
                  ("failed to determine libcuda.so version from path: "
                     +:+ first))), log, r)
        else Returned
               ((strings.TrimPrefix (filepath.Base first) "libcuda.so.", None),
                log,
                Spec.with_version r
                  (strings.TrimPrefix (filepath.Base first) "libcuda.so."))
    end.
Proof. intros Hv. unfold root.Version. now rewrite Hv. Qed.

Lemma LibraryRoot_fresh (r : root.Driver) :
  root.libraryRoot r = "" ->
  root.LibraryRoot r
  = match root.libcudaPath (lookup.Locate (root.Libraries r)) with
    | Panicked msg => Panicked msg
    | Returned ((_, Some err), log) =>
        Returned (("", Some (ErrWrap "failed to locate libcuda.so" err)), log, r)
    | Returned ((first, None), log) =>
        Returned ((filepath.Dir first, None), log,
                  Spec.with_libraryRoot r (filepath.Dir first))
    end.
Proof. intros Hl. unfold root.LibraryRoot. now rewrite Hl. Qed.

Lemma LibraryRoot_stored `{G : lookup.Finder} (r : root.Driver) :
  root.libraryRoot r <> "" ->
  root.LibraryRoot r = Returned ((root.libraryRoot r, None), [], r).
Proof.
  intros Hl. unfold root.LibraryRoot.
  destruct (String.eqb_spec (root.libraryRoot r) ""); [contradiction | reflexivity].
Qed.

(** X6.  The version is computed once: when [Version] hands back a
    version, that version is not empty and is stored in the driver, and
    every later call on that driver hands back the same version, logs
    nothing and leaves the driver as it is, whatever the file system
    holds by then. *)
Theorem Version_cached (r r' : root.Driver) (v : string) (log : list logline) :
  root.Version r = Returned ((v, None), log, r') ->
  v <> ""
  /\ root.version r' = v
  /\ forall F' : lookup.Finder,
      root.Version (H := F') r' = Returned ((v, None), [], r').
Proof.
  unfold root.Version.
  destruct (String.eqb_spec (root.version r) "") as [Hfresh | Hcached]; cbn [negb].
  - rewrite libcudaPath_Libraries.
    destruct (lookup.find (root.Root r)
                (root.normalizeSearchPaths (root.librarySearchPaths r))
                "libcuda.so.*.*") as [| first more]; [discriminate |].
    destruct (String.eqb_spec
                (strings.TrimPrefix (filepath.Base first) "libcuda.so.") "")
      as [Hempty | Hsuffix]; [discriminate |].
    intros Hret. injection Hret as <- _ <-. cbn [root.version].
    split; [exact Hsuffix |]. split; [reflexivity |].
    intros F'. cbn [root.version].
    destruct (String.eqb_spec
                (strings.TrimPrefix (filepath.Base first) "libcuda.so.") "");
      [contradiction | reflexivity].
  - intros Hret. injection Hret as <- _ <-.
    split; [exact Hcached |]. split; [reflexivity |].
    intros F'. destruct (String.eqb_spec (root.version r) "");
      [contradiction | reflexivity].
Qed.

(** X7.  On a driver root with no library root cached, [LibraryRoot]
    fails when the locator finds no [libcuda.so.*.*]; otherwise it
    hands back the directory of the first match (with a warning when
    there are more), stores it in the driver and leaves the cached
    version alone.  The directory is never empty, so every later call
    on that driver hands back the stored directory without a search. *)
Theorem LibraryRoot_spec (r : root.Driver) :
  root.libraryRoot r = "" ->
  root.LibraryRoot r
  = match lookup.find (root.Root r)
                      (root.normalizeSearchPaths (root.librarySearchPaths r))
                      "libcuda.so.*.*" with
    | [] =>
        Returned
          (("", Some (ErrWrap "failed to locate libcuda.so"
                        (ErrWrap "failed to locate libcuda.so.*.*"
                           (ErrWrap "pattern libcuda.so.*.*" lookup.ErrNotFound)))),
           [], r)
    | first :: more =>
        Returned
          ((filepath.Dir first, None),
           match more with
           | [] => []
           | _ => [(Warning, "Selecting " +:+ first
                               +:+ " out of multiple libcuda.so paths.")]
           end,
           {| root.Root := root.Root r;
              root.librarySearchPaths := root.librarySearchPaths r;
              root.configSearchPaths := root.configSearchPaths r;
              root.version := root.version r;
              root.libraryRoot := filepath.Dir first |})
    end
  /\ forall (dir : string) (log : list logline) (r' : root.Driver),
      root.LibraryRoot r = Returned ((dir, None), log, r') ->
      forall F' : lookup.Finder,
        root.LibraryRoot (H := F') r' = Returned ((dir, None), [], r').
Proof.
  intros Hfresh. rewrite (LibraryRoot_fresh r Hfresh), libcudaPath_Libraries.
  destruct (lookup.find (root.Root r)
              (root.normalizeSearchPaths (root.librarySearchPaths r))
              "libcuda.so.*.*") as [| first more].
  - split; [reflexivity |]. intros dir log r' Hret. discriminate Hret.
  - split; [reflexivity |]. intros dir log r' Hret F'.
    injection Hret as <- _ <-.
    apply (LibraryRoot_stored (G := F')). cbn [Spec.with_libraryRoot root.libraryRoot].
    apply Dir_nonempty.
Qed.

(** X8.  The version and the library root are cached side by side: on
    a driver with neither cached, asking for the version and then for
    the library root gives the same two answers and leaves the same
    driver as asking in the other order, also when one of the two
    fails. *)
Theorem Version_LibraryRoot_commute (r : root.Driver) :
  root.version r = "" ->
  root.libraryRoot r = "" ->
  exists (vres lres : result string) (lv ll ll' lv' : list logline)
         (rv rl r2 : root.Driver),
    root.Version r = Returned (vres, lv, rv)
    /\ root.LibraryRoot rv = Returned (lres, ll, r2)
    /\ root.LibraryRoot r = Returned (lres, ll', rl)
    /\ root.Version rl = Returned (vres, lv', r2).
Proof.
  intros Hv Hl.
  rewrite (Version_fresh r Hv), (LibraryRoot_fresh r Hl), libcudaPath_Libraries.
  destruct (lookup.find (root.Root r)
              (root.normalizeSearchPaths (root.librarySearchPaths r))
              "libcuda.so.*.*") as [| first more] eqn:Hfind.
  - do 9 eexists. split; [reflexivity |].
    rewrite (LibraryRoot_fresh r Hl), (Version_fresh r Hv).
    rewrite libcudaPath_Libraries, Hfind. repeat split; reflexivity.
  - destruct (String.eqb (strings.TrimPrefix (filepath.Base first) "libcuda.so.") "")
      eqn:Hsuffix.
    + do 9 eexists. split; [reflexivity |].
      rewrite (LibraryRoot_fresh r Hl), libcudaPath_Libraries, Hfind.
      split; [reflexivity |]. split; [reflexivity |].
      rewrite (Version_fresh (Spec.with_libraryRoot r (filepath.Dir first)) Hv).
      rewrite libcudaPath_Libraries. cbn [Spec.with_libraryRoot root.Root root.librarySearchPaths].
      rewrite Hfind, Hsuffix. reflexivity.
    + do 9 eexists. split; [reflexivity |].
      rewrite (LibraryRoot_fresh (Spec.with_version r _) Hl), libcudaPath_Libraries.
      cbn [Spec.with_version root.Root root.librarySearchPaths].
      rewrite Hfind. split; [reflexivity |]. split; [reflexivity |].
      rewrite (Version_fresh (Spec.with_libraryRoot r (filepath.Dir first)) Hv).
      rewrite libcudaPath_Libraries. cbn [Spec.with_libraryRoot root.Root root.librarySearchPaths].
      rewrite Hfind, Hsuffix. reflexivity.
Qed.

End DriverRoot.

(** The driver root of the fixture. *)
Lemma Version_cached_witness :
  root.Version (H := Fixture.driver_finder) Fixture.a_driver
  = Returned
      (("535.54", None),
       [(Warning,
         "Selecting /run/nvidia/driver/usr/lib64/libcuda.so.535.54 out of multiple libcuda.so paths.")],
       {| root.Root := "/run/nvidia/driver";
          root.librarySearchPaths := [];
          root.configSearchPaths := [];
          root.version := "535.54";
          root.libraryRoot := "" |})
  /\ root.Version (H := fun _ _ _ => [])
       {| root.Root := "/run/nvidia/driver";
          root.librarySearchPaths := [];
          root.configSearchPaths := [];
          root.version := "535.54";
          root.libraryRoot := "" |}
     = Returned
         (("535.54", None), [],
          {| root.Root := "/run/nvidia/driver";
             root.librarySearchPaths := [];
             root.configSearchPaths := [];
             root.version := "535.54";
             root.libraryRoot := "" |}).
Proof.
  split; [reflexivity |].
  exact (proj2 (proj2 (@Version_cached Fixture.driver_finder Fixture.a_driver _ _ _
                         eq_refl)) (fun _ _ _ => [])).
Defined.

Lemma LibraryRoot_spec_witness :
  root.libraryRoot Fixture.a_driver = ""
  /\ exists log r',
      root.LibraryRoot (H := Fixture.driver_finder) Fixture.a_driver
      = Returned (("/run/nvidia/driver/usr/lib64", None), log, r')
      /\ root.libraryRoot r' = "/run/nvidia/driver/usr/lib64".
Proof.
  split; [reflexivity |].
  rewrite (proj1 (@LibraryRoot_spec Fixture.driver_finder Fixture.a_driver eq_refl)).
  do 2 eexists. split; reflexivity.
Defined.

Lemma Version_LibraryRoot_commute_witness :
  root.version Fixture.a_driver = ""
  /\ root.libraryRoot Fixture.a_driver = ""
  /\ exists (vres lres : result string) (lv ll ll' lv' : list logline)
            (rv rl r2 : root.Driver),
      root.Version (H := Fixture.driver_finder) Fixture.a_driver
      = Returned (vres, lv, rv)
      /\ root.LibraryRoot (H := Fixture.driver_finder) rv = Returned (lres, ll, r2)
      /\ root.LibraryRoot (H := Fixture.driver_finder) Fixture.a_driver
         = Returned (lres, ll', rl)
      /\ root.Version (H := Fixture.driver_finder) rl = Returned (vres, lv', r2).
Proof.
  split; [reflexivity |]. split; [reflexivity |].
  exact (@Version_LibraryRoot_commute Fixture.driver_finder Fixture.a_driver
           eq_refl eq_refl).
Defined.

(** ** Search paths ([normalizeSearchPaths], [configSearchOptions]) *)

Section SearchPaths.

Lemma concat_cons2 (sep x y : string) (l : list string) :
  String.concat sep (x :: y :: l) = x +:+ sep +:+ String.concat sep (y :: l).
Proof. reflexivity. Qed.

Lemma split_colon_nonnil (s : string) : root.split_colon s <> [].
Proof.
  destruct s as [| c s]; cbn; [discriminate |].
  destruct (Ascii.eqb c ":"); [discriminate |].
  destruct (root.split_colon s); discriminate.
Qed.

Lemma split_colon_concat (s : string) :
  String.concat ":" (root.split_colon s) = s.
Proof.
  induction s as [| c s IH]; [reflexivity |].
  cbn [root.split_colon].
  destruct (Ascii.eqb_spec c ":") as [-> | Hc].
  - pose proof (split_colon_nonnil s) as Hnn.
    destruct (root.split_colon s) as [| y l]; [contradiction |].
    rewrite concat_cons2, IH. reflexivity.
  - pose proof (split_colon_nonnil s) as Hnn.
    destruct (root.split_colon s) as [| y l]; [contradiction |].
    cbn [strings.cons_head]. destruct l as [| z l].
    + cbn in IH |- *. now rewrite IH.
    + rewrite concat_cons2 in IH |- *. rewrite app_cons. now rewrite IH.
Qed.

Lemma split_colon_no_colon (s : string) :
  Forall (fun e => Spec.has_colon e = false) (root.split_colon s).
Proof.
  induction s as [| c s IH]; [repeat constructor |].
  cbn [root.split_colon].
  destruct (Ascii.eqb c ":") eqn:Hc; [now constructor |].
  destruct (root.split_colon s) as [| y l]; [repeat constructor; cbn; now rewrite Hc |].
  cbn [strings.cons_head]. inversion IH; subst.
  constructor; [| assumption]. cbn. rewrite Hc. assumption.
Qed.

Lemma split_colon_plain (s : string) :
  Spec.has_colon s = false -> root.split_colon s = [s].
Proof.
  induction s as [| c s IH]; [reflexivity |].
  cbn [Spec.has_colon root.split_colon]. intros H.
  apply orb_false_iff in H as [Hc Hs]. rewrite Hc, (IH Hs). reflexivity.
Qed.

Lemma split_colon_app (a rest : string) :
  Spec.has_colon a = false ->
  root.split_colon (a +:+ ":" +:+ rest) = a :: root.split_colon rest.
Proof.
  induction a as [| c a IH]; intros Ha.
  - reflexivity.
  - cbn [Spec.has_colon] in Ha. apply orb_false_iff in Ha as [Hc Ha].
    rewrite app_cons. cbn [root.split_colon]. rewrite Hc, (IH Ha). reflexivity.
Qed.

(** [SplitList] loses nothing: joining the elements it hands
    back with colons gives the path list back, and no element holds a
    colon. *)
Lemma SplitList_join (path : string) :
  String.concat ":" (root.SplitList path) = path
  /\ Forall (fun e => Spec.has_colon e = false) (root.SplitList path).
Proof.
  unfold root.SplitList.
  destruct (String.eqb_spec path "") as [-> | Hne].
  - split; [reflexivity | constructor].
  - split; [apply split_colon_concat | apply split_colon_no_colon].
Qed.

Lemma SplitList_plain (s : string) :
  Spec.plain_dir s = true -> root.SplitList s = [s].
Proof.
  unfold Spec.plain_dir, root.SplitList. intros H.
  apply andb_prop in H as [Hne Hc].
  destruct (String.eqb s ""); [discriminate |].
  apply split_colon_plain. now destruct (Spec.has_colon s).
Qed.

Lemma SplitList_joined (dirs : list string) :
  Forall (fun d => Spec.plain_dir d = true) dirs ->
  root.SplitList (String.concat ":" dirs) = dirs.
Proof.
  induction 1 as [| d dirs Hd Hall IH]; [reflexivity |].
  destruct dirs as [| d' dirs].
  - now apply SplitList_plain.
  - rewrite concat_cons2. unfold root.SplitList in *.
    apply andb_prop in Hd as [Hne Hc].
    destruct d as [| c d]; [discriminate |].
    rewrite app_cons at 1. cbn [String.eqb].
    rewrite split_colon_app by now destruct (Spec.has_colon (String c d)).
    f_equal.
    inversion Hall as [| ? ? Hd' _]; subst.
    apply andb_prop in Hd' as [Hne' _].
    destruct (String.concat ":" (d' :: dirs)) as [| c' s'] eqn:Hcat.
    + destruct d' as [| c' d'']; [discriminate |].
      destruct dirs; cbn in Hcat; discriminate.
    + exact IH.
Qed.

(** X9.  [normalizeSearchPaths] leaves a list of plain directories
    (not empty, without a colon) as it is, and expands one path list,
    such as the contents of PATH, into the directories it joins. *)
Theorem normalizeSearchPaths_plain (dirs : list string) :
  Forall (fun d => Spec.plain_dir d = true) dirs ->
  root.normalizeSearchPaths dirs = dirs
  /\ root.normalizeSearchPaths [String.concat ":" dirs] = dirs.
Proof.
  intros Hall. split.
  - unfold root.normalizeSearchPaths.
    induction Hall as [| d dirs Hd _ IH]; [reflexivity |].
    cbn [flat_map]. rewrite (SplitList_plain d Hd), IH. reflexivity.
  - unfold root.normalizeSearchPaths. cbn [flat_map]. rewrite app_nil_r.
    now apply SplitList_joined.
Qed.

Lemma xdgDataDirs_nonnil `{E : os.Environ} : root.xdgDataDirs <> [].
Proof.
  unfold root.xdgDataDirs.
  destruct (os.LookupEnv "XDG_DATA_DIRS") as [dirs |]; [| discriminate].
  destruct (String.eqb_spec dirs "") as [-> | Hne]; cbn [negb]; [discriminate |].
  unfold root.normalizeSearchPaths. cbn [flat_map]. rewrite app_nil_r.
  unfold root.SplitList. destruct (String.eqb_spec dirs ""); [contradiction |].
  apply split_colon_nonnil.
Qed.

(** X10.  Explicit config search paths replace the driver root: with
    any configured, the locator for driver configs searches them below
    [/], whatever the driver root is.  With none it searches below the
    driver root, first in [/etc] and then in at least one data
    directory: those of XDG_DATA_DIRS, or /usr/local/share and
    /usr/share when that variable is unset or empty. *)
Theorem configSearchOptions_roots `{E : os.Environ} (r : root.Driver) :
  (root.configSearchPaths r <> [] ->
   lookup.root (root.configSearchOptions r) = "/"
   /\ lookup.searchPaths (root.configSearchOptions r)
      = root.normalizeSearchPaths (root.configSearchPaths r))
  /\ (root.configSearchPaths r = [] ->
      lookup.root (root.configSearchOptions r) = root.Root r
      /\ exists dirs,
          dirs <> []
          /\ lookup.searchPaths (root.configSearchOptions r) = "/etc" :: dirs
          /\ (os.LookupEnv "XDG_DATA_DIRS" = None
              \/ os.LookupEnv "XDG_DATA_DIRS" = Some "" ->
              dirs = ["/usr/local/share"; "/usr/share"])).
Proof.
  unfold root.configSearchOptions. split.
  - intros Hpaths. destruct (root.configSearchPaths r); [contradiction |].
    cbn. auto.
  - intros ->. cbn. split; [reflexivity |].
    exists root.xdgDataDirs. split; [apply xdgDataDirs_nonnil |].
    split; [reflexivity |].
    unfold root.xdgDataDirs. intros [-> | ->]; reflexivity.
Qed.

End SearchPaths.

Lemma normalizeSearchPaths_plain_witness :
  Forall (fun d => Spec.plain_dir d = true) ["/usr/lib64"; "/opt/nvidia/lib"]
  /\ root.normalizeSearchPaths ["/usr/lib64"; "/opt/nvidia/lib"]
     = ["/usr/lib64"; "/opt/nvidia/lib"]
  /\ root.normalizeSearchPaths ["/usr/lib64:/opt/nvidia/lib"]
     = ["/usr/lib64"; "/opt/nvidia/lib"].
Proof.
  assert (Hall : Forall (fun d => Spec.plain_dir d = true)
                        ["/usr/lib64"; "/opt/nvidia/lib"])
    by (repeat constructor).
  split; [exact Hall |].
  exact (normalizeSearchPaths_plain ["/usr/lib64"; "/opt/nvidia/lib"] Hall).
Defined.

Lemma configSearchOptions_roots_witness :
  root.configSearchPaths Fixture.a_driver = []
  /\ lookup.root (root.configSearchOptions (H := Fixture.no_environ) Fixture.a_driver)
     = "/run/nvidia/driver"
  /\ lookup.searchPaths
       (root.configSearchOptions (H := Fixture.no_environ) Fixture.a_driver)
     = ["/etc"; "/usr/local/share"; "/usr/share"].
Proof.
  split; [reflexivity |].
  destruct (proj2 (@configSearchOptions_roots Fixture.no_environ Fixture.a_driver)
              eq_refl) as (Hroot & dirs & _ & Hpaths & Hdefault).
  split; [exact Hroot |].
  rewrite Hpaths, (Hdefault (or_introl eq_refl)). reflexivity.
Defined.

(** A path list with an empty element is not left as it is: the
    element is kept by the first expansion and dropped by a second. *)
Example normalizeSearchPaths_empty_element :
  root.normalizeSearchPaths ["/a::/b"] = ["/a"; ""; "/b"]
  /\ root.normalizeSearchPaths ["/a"; ""; "/b"] = ["/a"; "/b"].
Proof. split; reflexivity. Qed.

(** ** Edits, further ([internal/edits]) *)

Section Modifier.

Context `{FS : unix.LstatFS}.

(** What [EditsFromDiscoverer] composes when the three phases succeed. *)
Lemma EditsFromDiscoverer_composed {St : Type} (o : edits.options)
      (d : discover.Discover St) (s s1 s2 s3 : St)
      (devices : list discover.Device) (mounts : list discover.Mount)
      (hooks : list discover.Hook) :
  discover.Devices d s = ((devices, None), s1) ->
  discover.Mounts d s1 = ((mounts, None), s2) ->
  discover.Hooks d s2 = ((hooks, None), s3) ->
  edits.EditsFromDiscoverer o d s
  = ((Some (Spec.composed (edits.allowAdditionalGIDs o) devices mounts hooks),
      None), s3).
Proof.
  intros Hd Hm Hh. unfold edits.EditsFromDiscoverer. rewrite Hd, Hm, Hh.
  unfold edits.NewContainerEdits.
  rewrite append_devices_spec, append_mounts_spec, append_hooks_spec.
  reflexivity.
Qed.

(** [EditsFromDiscoverer] hands back edits or an error, never neither. *)
Lemma EditsFromDiscoverer_edits_or_error {St : Type} (o : edits.options)
      (d : discover.Discover St) (s : St) :
  (exists c, fst (edits.EditsFromDiscoverer o d s) = (Some c, None))
  \/ (exists e, fst (edits.EditsFromDiscoverer o d s) = (None, Some e)).
Proof.
  unfold edits.EditsFromDiscoverer.
  destruct (discover.Devices d s) as [[devices [e1 |]] s1]; [right; eauto |].
  destruct (discover.Mounts d s1) as [[mounts [e2 |]] s2]; [right; eauto |].
  destruct (discover.Hooks d s2) as [[hooks [e3 |]] s3]; [right; eauto |].
  unfold edits.NewContainerEdits. rewrite append_devices_spec. left. eauto.
Qed.

(** X11.  [SpecModifierFromDiscoverer] never dereferences a nil edit
    set.  When the three phases of the discoverer succeed it hands back
    a modifier, and applying that modifier to a spec is applying the
    edit set composed from the discovered devices, mounts and hooks:
    the error and the spec are those of the merge of the CDI library
    on that edit set. *)
Theorem SpecModifierFromDiscoverer_applies {St Spec_ : Type}
        `{A : cdi.Applier Spec_} (o : edits.options)
        (d : discover.Discover St) (s s1 s2 s3 : St)
        (devices : list discover.Device) (mounts : list discover.Mount)
        (hooks : list discover.Hook) :
  discover.Devices d s = ((devices, None), s1) ->
  discover.Mounts d s1 = ((mounts, None), s2) ->
  discover.Hooks d s2 = ((hooks, None), s3) ->
  exists m : edits.edits,
    edits.SpecModifierFromDiscoverer o d s = (Returned (Some m, None), s3)
    /\ forall spec : Spec_,
        edits.Modify (Some m) spec
        = let ce := Spec.edits_of
                      (Spec.composed (edits.allowAdditionalGIDs o)
                                     devices mounts hooks) in
          (fst (cdi.Apply ce spec), snd (cdi.Apply ce spec), edits.Modify_log ce).
Proof.
  intros Hd Hm Hh. unfold edits.SpecModifierFromDiscoverer.
  rewrite (EditsFromDiscoverer_composed o d s s1 s2 s3 _ _ _ Hd Hm Hh).
  eexists. split; [reflexivity |].
  intros spec. unfold edits.Modify. cbn.
  destruct (cdi.Apply _ spec); reflexivity.
Qed.

(** X12.  [SpecModifierFromDiscoverer] never panics: it hands back a
    modifier and no error, or no modifier and the error of
    [EditsFromDiscoverer] wrapped once more. *)
Theorem SpecModifierFromDiscoverer_total {St : Type} (o : edits.options)
        (d : discover.Discover St) (s : St) :
  (exists m, fst (edits.SpecModifierFromDiscoverer o d s)
             = Returned (Some m, None)
             /\ snd (fst (edits.EditsFromDiscoverer o d s)) = None)
  \/ (exists e, snd (fst (edits.EditsFromDiscoverer o d s)) = Some e
                /\ fst (edits.SpecModifierFromDiscoverer o d s)
                   = Returned (None,
                               Some (ErrWrap "error constructing container edits" e))).
Proof.
  unfold edits.SpecModifierFromDiscoverer.
  destruct (EditsFromDiscoverer_edits_or_error o d s) as [[c Hc] | [e He]].
  - destruct (edits.EditsFromDiscoverer o d s) as [[c' err] s'].
    cbn [fst] in Hc. injection Hc as -> ->. left. eexists. split; reflexivity.
  - destruct (edits.EditsFromDiscoverer o d s) as [[c' err] s'].
    cbn [fst] in He. injection He as -> ->. right. eexists. split; reflexivity.
Qed.

End Modifier.

Section NoStat.

Lemma device_gids_disabled `{FS : unix.LstatFS} (devices : list discover.Device) :
  flat_map (Spec.device_gids false) devices = [].
Proof. induction devices as [| d rest IH]; [reflexivity | exact IH]. Qed.

Lemma append_devices_disabled (fs1 fs2 : unix.LstatFS)
      (devices : list discover.Device) (c : cdi.ContainerEdits) :
  edits.append_devices (H := fs1) false devices c
  = edits.append_devices (H := fs2) false devices c.
Proof.
  revert c. induction devices as [| d rest IH]; intros c; [reflexivity |].
  cbn [edits.append_devices]. unfold edits.device_toEdits. cbn. apply IH.
Qed.

(** X13.  With the additional GIDs disabled the host is not consulted:
    [EditsFromDiscoverer] gives the same result on any two hosts,
    whatever their device nodes look like, and the edit set it composes
    holds no additional GID. *)
Theorem EditsFromDiscoverer_disabled_ignores_host {St : Type}
        (fs1 fs2 : unix.LstatFS) (d : discover.Discover St) (s : St) :
  edits.EditsFromDiscoverer (H := fs1) {| edits.allowAdditionalGIDs := false |} d s
  = edits.EditsFromDiscoverer (H := fs2) {| edits.allowAdditionalGIDs := false |} d s
  /\ Spec.additionalGIDs_of
       (fst (edits.EditsFromDiscoverer (H := fs1)
               {| edits.allowAdditionalGIDs := false |} d s)) = [].
Proof.
  unfold edits.EditsFromDiscoverer.
  destruct (discover.Devices d s) as [[devices [e1 |]] s1]; [split; reflexivity |].
  destruct (discover.Mounts d s1) as [[mounts [e2 |]] s2]; [split; reflexivity |].
  destruct (discover.Hooks d s2) as [[hooks [e3 |]] s3]; [split; reflexivity |].
  cbn [edits.allowAdditionalGIDs]. split.
  - now rewrite (append_devices_disabled fs1 fs2).
  - unfold edits.NewContainerEdits.
    rewrite (append_devices_spec (FS := fs1)), append_mounts_spec, append_hooks_spec.
    cbn. apply (device_gids_disabled (FS := fs1)).
Qed.

End NoStat.

Section LDCacheEdits.

Context `{FS : unix.LstatFS} {St : Type}.

(** X14.  The ldcache-update discoverer reads mounts and contributes
    none: the edit set composed from it holds exactly one hook, the
    ldcache-update hook for the library mounts of the wrapped
    discoverer, and no device node, mount or additional GID; and when
    the wrapped discoverer fails to give its mounts, the composition
    fails in the hook phase with that error below. *)
Theorem EditsFromDiscoverer_ldcache (o : edits.options)
        (d : discover.ldconfig St) (s : St) :
  edits.EditsFromDiscoverer o (discover.ldconfig_Discover d) s
  = let '((mounts, err), s') := discover.Mounts (discover.mountsFrom d) s in
    match err with
    | Some e =>
        ((None,
          Some (ErrWrap "failed to discover hooks"
                  (ErrWrap "failed to discover mounts for ldcache update" e))),
         s')
    | None =>
        ((Some {| cdi.ContainerEdits_ := Some {|
                    specs.DeviceNodes := [];
                    specs.Hooks :=
                      [Spec.hook_entry
                         (fst (discover.CreateLDCacheUpdateHook
                                 (discover.lookup_ d)
                                 (discover.nvidiaCTKExecutablePath d)
                                 discover.nvidiaCTKDefaultFilePath
                                 (discover.getLibraryPaths mounts)))];
                    specs.Mounts := [];
                    specs.AdditionalGIDs := [] |} |}, None), s')
    end.
Proof.
  unfold edits.EditsFromDiscoverer, discover.ldconfig_Discover.
  cbn [discover.Devices discover.Mounts discover.Hooks discover.None_].
  unfold discover.ldconfig_Hooks.
  destruct (discover.Mounts (discover.mountsFrom d) s) as [[mounts [e |]] s'];
    [reflexivity |].
  destruct (discover.CreateLDCacheUpdateHook _ _ _ _) as [h log].
  reflexivity.
Qed.

End LDCacheEdits.

(** X15.  [toSpec] normalises: read back as a device, the device node
    of a device converts to the same device node again. *)
Theorem toSpec_normal_form (d : discover.Device) :
  let node := fst (edits.device_toSpec d) in
  edits.device_toSpec
    {| discover.Device_HostPath := specs.DeviceNode_HostPath node;
       discover.Device_Path := specs.DeviceNode_Path node |}
  = (node, None).
Proof.
  unfold edits.device_toSpec. cbn.
  destruct (String.eqb_spec (discover.Device_HostPath d) (discover.Device_Path d))
    as [Heq | Hne].
  - destruct (String.eqb "" (discover.Device_Path d)); reflexivity.
  - destruct (String.eqb_spec (discover.Device_HostPath d) (discover.Device_Path d));
      [contradiction | reflexivity].
Qed.

(** The recording discoverer of the fixture, applied to the device
    paths of a spec. *)
Lemma SpecModifierFromDiscoverer_applies_witness :
  exists m : edits.edits,
    edits.SpecModifierFromDiscoverer (H := Fixture.lstat)
      {| edits.allowAdditionalGIDs := true |} (Fixture.recording false) []
    = (Returned (Some m, None), ["Devices"; "Mounts"; "Hooks"])
    /\ fst (edits.Modify (H := Fixture.paths_Applier) (Some m) ["/dev/null"])
       = (None, ["/dev/null"; "/dev/nvidia0"; "/dev/nvidiactl"]).
Proof.
  destruct (@SpecModifierFromDiscoverer_applies
              Fixture.lstat (list string) (list string) Fixture.paths_Applier
              {| edits.allowAdditionalGIDs := true |} (Fixture.recording false)
              [] ["Devices"] ["Devices"; "Mounts"] ["Devices"; "Mounts"; "Hooks"]
              _ _ _ eq_refl eq_refl eq_refl) as (m & Hm & Happly).
  exists m. split; [exact Hm |]. rewrite Happly. reflexivity.
Defined.

(** ** Library names and folders, further ([internal/discover]) *)

Section BaseNames.

Lemma strip_no_sep (s : string) :
  filepath.has_sep s = false -> filepath.strip_trailing_seps s = s.
Proof.
  induction s as [| c s IH]; [reflexivity |].
  cbn [filepath.has_sep filepath.strip_trailing_seps]. intros H.
  apply orb_false_iff in H as [Hc Hs]. rewrite (IH Hs).
  destruct s; [now rewrite Hc | reflexivity].
Qed.

Lemma strip_app (a b : string) :
  b <> "" -> filepath.has_sep b = false ->
  filepath.strip_trailing_seps (a +:+ b) = a +:+ b.
Proof.
  intros Hb Hsep. induction a as [| c a IH].
  - rewrite app_nil. now apply strip_no_sep.
  - rewrite app_cons. cbn [filepath.strip_trailing_seps]. rewrite IH.
    destruct (a +:+ b) eqn:E; [| reflexivity].
    destruct a; [rewrite app_nil in E; contradiction | discriminate E].
Qed.

Lemma has_sep_app (a b : string) :
  filepath.has_sep (a +:+ b) = filepath.has_sep a || filepath.has_sep b.
Proof.
  induction a as [| c a IH]; [reflexivity |].
  rewrite app_cons. cbn [filepath.has_sep]. rewrite IH. apply orb_assoc.
Qed.

Lemma after_last_sep_no_sep (s : string) :
  filepath.has_sep (filepath.after_last_sep s) = false.
Proof.
  induction s as [| c s IH]; [reflexivity |].
  cbn [filepath.after_last_sep].
  destruct (filepath.has_sep s) eqn:Hs; [exact IH |].
  destruct (filepath.IsPathSeparator c) eqn:Hc; [exact Hs |].
  cbn [filepath.has_sep]. now rewrite Hc, Hs.
Qed.

Lemma after_last_sep_id (s : string) :
  filepath.has_sep s = false -> filepath.after_last_sep s = s.
Proof.
  destruct s as [| c s]; [reflexivity |].
  cbn [filepath.has_sep filepath.after_last_sep]. intros H.
  apply orb_false_iff in H as [Hc Hs]. now rewrite Hs, Hc.
Qed.

Lemma after_last_sep_dir (dir name : string) :
  filepath.has_sep name = false ->
  filepath.after_last_sep (dir +:+ "/" +:+ name) = name.
Proof.
  intros Hname. induction dir as [| c dir IH].
  - rewrite app_nil. change ("/" +:+ name) with (String "/" name).
    cbn [filepath.after_last_sep]. now rewrite Hname.
  - rewrite app_cons. cbn [filepath.after_last_sep].
    rewrite has_sep_app. change ("/" +:+ name) with (String "/" name).
    cbn [filepath.has_sep]. 
    replace (filepath.IsPathSeparator "/") with true by reflexivity.
    cbn [orb]. rewrite orb_true_r. exact IH.
Qed.

(** The base name of a name without separators is the name. *)
Lemma Base_no_sep (name : string) :
  name <> "" -> filepath.has_sep name = false -> filepath.Base name = name.
Proof.
  intros Hne Hsep. unfold filepath.Base.
  destruct name as [| c n]; [contradiction |].
  rewrite (strip_no_sep _ Hsep), (after_last_sep_id _ Hsep). reflexivity.
Qed.

(** The base name of a name in a directory is the name. *)
Lemma Base_dir_name (dir name : string) :
  name <> "" -> filepath.has_sep name = false ->
  filepath.Base (dir +:+ "/" +:+ name) = name.
Proof.
  intros Hne Hsep. unfold filepath.Base.
  assert (Hfull : filepath.strip_trailing_seps (dir +:+ "/" +:+ name)
                  = dir +:+ "/" +:+ name).
  { rewrite <- app_assoc_string. now apply strip_app. }
  rewrite Hfull, (after_last_sep_dir _ _ Hsep).
  destruct (dir +:+ "/" +:+ name) eqn:E.
  - destruct dir; discriminate E.
  - destruct name; [contradiction | reflexivity].
Qed.

(** Taking the base name twice is taking it once. *)
Lemma Base_shape (path : string) :
  filepath.Base path = "." \/ filepath.Base path = "/"
  \/ (filepath.Base path <> "" /\ filepath.has_sep (filepath.Base path) = false).
Proof.
  unfold filepath.Base. destruct path as [| c p]; [now left |].
  destruct (filepath.after_last_sep (filepath.strip_trailing_seps (String c p)))
    as [| b bs] eqn:Hb; [right; now left |].
  right; right. split; [discriminate |].
  rewrite <- Hb. apply after_last_sep_no_sep.
Qed.

Lemma Base_idempotent (path : string) :
  filepath.Base (filepath.Base path) = filepath.Base path.
Proof.
  destruct (Base_shape path) as [-> | [-> | [Hne Hsep]]]; [reflexivity ..|].
  now apply Base_no_sep.
Qed.

End BaseNames.

Section LibraryNamesFurther.

(** X16.  [isLibName] looks at the base name only: a path is a library
    name exactly when its base name is. *)
Theorem isLibName_base_only (filename : string) :
  discover.isLibName (filepath.Base filename) = discover.isLibName filename.
Proof. unfold discover.isLibName. now rewrite Base_idempotent. Qed.

Lemma match_trailing_star (s : string) :
  filepath.has_sep s = false ->
  filepath.match_tokens [filepath.Star] s = true.
Proof.
  induction s as [| c s IH]; [reflexivity |].
  cbn [filepath.has_sep]. intros H. apply orb_false_iff in H as [Hc Hs].
  cbn [filepath.match_tokens] in IH |- *. rewrite Hc, (IH Hs).
  cbn. now rewrite ?orb_true_r.
Qed.

Lemma match_star_so_frag (stem frag : string) :
  filepath.has_sep stem = false ->
  filepath.has_sep frag = false ->
  filepath.match_tokens
    [filepath.Star; filepath.Lit "."; filepath.Lit "s"; filepath.Lit "o";
     filepath.Star] (stem +:+ ".so" +:+ frag) = true.
Proof.
  intros Hstem Hfrag. induction stem as [| c stem IH].
  - rewrite app_nil. change (".so" +:+ frag)
      with (String "." (String "s" (String "o" frag))).
    cbn [filepath.match_tokens]. cbn [Ascii.eqb Bool.eqb andb].
    pose proof (match_trailing_star frag Hfrag) as Hstar.
    cbn [filepath.match_tokens] in Hstar. rewrite Hstar. reflexivity.
  - cbn [filepath.has_sep] in Hstem. apply orb_false_iff in Hstem as [Hc Hs].
    rewrite app_cons. cbn [filepath.match_tokens] in IH |- *.
    rewrite Hc, (IH Hs). cbn. now rewrite ?orb_true_r.
Qed.

(** X17.  Every conventionally named library is a library name: in any
    directory, a file named [lib<stem>.so<rest>], with a stem that is
    not empty, no separator in stem or rest, and a rest that holds no
    further [.so] and is empty or starts with a dot (a version such as
    [.1] or [.535.54.03]), is accepted by [isLibName]. *)
Theorem isLibName_versioned (dir stem rest : string) :
  stem <> "" ->
  filepath.has_sep stem = false ->
  filepath.has_sep rest = false ->
  strings.Contains rest ".so" = false ->
  rest = "" \/ strings.HasPrefix rest "." = true ->
  discover.isLibName (dir +:+ "/" +:+ "lib" +:+ stem +:+ ".so" +:+ rest) = true.
Proof.
  intros Hstem Hsep Hrsep Hno Hrest.
  set (name := "lib" +:+ stem +:+ ".so" +:+ rest).
  assert (Hname : filepath.has_sep name = false).
  { unfold name. rewrite !has_sep_app, Hsep, Hrsep. reflexivity. }
  assert (Hbase : filepath.Base (dir +:+ "/" +:+ name) = name).
  { apply Base_dir_name; [discriminate | exact Hname]. }
  assert (Hm : filepath.match_tokens Spec.lib_tokens name = true).
  { unfold name, Spec.lib_tokens. destruct stem as [| c stem]; [contradiction |].
    change ("lib" +:+ String c stem +:+ ".so" +:+ rest)
      with (String "l" (String "i" (String "b"
              (String c (stem +:+ ".so" +:+ rest))))).
    cbn [filepath.match_tokens]. cbn [Ascii.eqb Bool.eqb andb].
    cbn [filepath.has_sep] in Hsep. apply orb_false_iff in Hsep as [Hc Hs].
    rewrite Hc. cbn [negb andb].
    pose proof (match_star_so_frag stem rest Hs Hrsep) as Hstar.
    cbn [filepath.match_tokens] in Hstar. exact Hstar. }
  rewrite <- Hbase in Hm.
  destruct (isLibName_matched _ Hm) as (pre & Heq & Hlast & Hacc).
  rewrite Hacc.
  assert (Hfrag : List.last (strings.Split (filepath.Base (dir +:+ "/" +:+ name))
                                           ".so") "" = rest).
  { eapply (after_last_so_unique pre ("lib" +:+ stem)); [| exact Hlast | exact Hno].
    rewrite <- Heq, Hbase. unfold name. now rewrite <- !app_assoc_string. }
  rewrite Hfrag. destruct Hrest as [-> | Hp]; [reflexivity |].
  rewrite Hp. apply orb_true_r.
Qed.

(** X18.  [uniqueFolders] passes over no library: the folders it hands
    back are exactly the folders of the libraries (a folder is never
    empty, so the check for an empty folder drops nothing), each once,
    and so there are at most as many folders as libraries. *)
Theorem uniqueFolders_all_folders (libraries : list string) :
  (forall dir, In dir (discover.uniqueFolders libraries)
               <-> In dir (map filepath.Dir libraries))
  /\ List.NoDup (discover.uniqueFolders libraries)
  /\ (length (discover.uniqueFolders libraries) <= length libraries)%nat.
Proof.
  rewrite uniqueFolders_spec. unfold Spec.unique_folders.
  assert (Hall : List.filter (fun dir => negb (String.eqb dir ""))
                             (map filepath.Dir libraries)
                 = map filepath.Dir libraries).
  { induction libraries as [| l rest IH]; [reflexivity |].
    cbn [map List.filter].
    destruct (String.eqb_spec (filepath.Dir l) "") as [He | _];
      [now apply Dir_nonempty in He |].
    cbn [negb]. now rewrite IH. }
  rewrite Hall. split; [| split].
  - intros dir. apply (first_seen_In _ _ _ (le_n _)).
  - apply (first_seen_NoDup _ _ (le_n _)).
  - assert (Hle : forall n l, (length l <= n)%nat ->
                              (length (Spec.first_seen l) <= length l)%nat).
    { induction n as [| n IH]; intros l Hl.
      - destruct l; [simp first_seen; reflexivity | cbn in Hl; lia].
      - destruct l as [| x t]; [simp first_seen; reflexivity |].
        rewrite first_seen_cons. cbn [length].
        pose proof (List.filter_length_le (fun y => negb (String.eqb y x)) t) as Hf.
        cbn in Hl. specialize (IH (List.filter (fun y => negb (String.eqb y x)) t)).
        lia. }
    rewrite (Hle _ _ (le_n _)), length_map. reflexivity.
Qed.

End LibraryNamesFurther.

Lemma isLibName_versioned_witness :
  discover.isLibName ("/usr/lib64" +:+ "/" +:+ "lib" +:+ "cuda" +:+ ".so"
                        +:+ ".535.54.03") = true.
Proof.
  apply (isLibName_versioned "/usr/lib64" "cuda" ".535.54.03");
    first [discriminate | reflexivity | (right; reflexivity)].
Defined.

(** ** The installer of the toolkit files *)

Section InstallAll.

Context {W : Type}.

Lemma errors_Join_two (a b : option installer.joined) :
  Spec.failures (installer.errors_Join [a; b])
  = Spec.failures a ++ Spec.failures b
  /\ (installer.errors_Join [a; b] = None <-> a = None /\ b = None).
Proof.
  destruct a as [ja |], b as [jb |]; cbn.
  - rewrite app_nil_r. split; [reflexivity |]. split; [discriminate | intros [H _]; discriminate H].
  - rewrite !app_nil_r. split; [reflexivity |]. split; [discriminate | intros [H _]; discriminate H].
  - rewrite app_nil_r. split; [reflexivity |]. split; [discriminate | intros [_ H]; discriminate H].
  - split; [reflexivity |]. split; auto.
Qed.

Lemma Install_loop_spec (installers : list (installer.Installer W))
      (destDir : string) :
  forall (errs : option installer.joined) (w : W),
    snd (installer.Install_loop installers destDir errs w)
    = snd (Spec.run_all installers destDir w)
    /\ Spec.failures (fst (installer.Install_loop installers destDir errs w))
       = Spec.failures errs
           ++ flat_map Spec.failures (fst (Spec.run_all installers destDir w))
    /\ (fst (installer.Install_loop installers destDir errs w) = None
        <-> errs = None
            /\ Forall (fun r => r = None)
                      (fst (Spec.run_all installers destDir w))).
Proof.
  induction installers as [| i rest IH]; intros errs w.
  - cbn. rewrite app_nil_r. repeat split; auto. now intros [H _].
  - cbn [installer.Install_loop Spec.run_all].
    destruct (i destDir w) as [err w1].
    specialize (IH (installer.errors_Join [errs; err]) w1).
    destruct (Spec.run_all rest destDir w1) as [results w2].
    cbn [fst snd] in IH |- *.
    destruct IH as (Hw & Hf & Hnil).
    destruct (errors_Join_two errs err) as [Hjf Hjn].
    split; [exact Hw |]. split.
    + rewrite Hf, Hjf. cbn [flat_map]. now rewrite app_assoc.
    + rewrite Hnil, Hjn. split.
      * intros [[He1 He2] Hall]. split; [exact He1 |]. now constructor.
      * intros [He1 Hall]. inversion Hall; subst. auto.
Qed.

(** X19.  [Install] runs every installer it has collected, the
    installers of the libraries before those of the executables, each
    on the world the one before left, whether or not an earlier one
    failed.  It hands back nil exactly when every installer did, and
    otherwise an error that joins the failures of all of them, in
    order. *)
Theorem Install_accumulates `{C : installer.Collector W}
        (t : installer.toolkitInstaller) (destDir : string) (w : W)
        (libs execs : list (installer.Installer W)) :
  installer.collectLibraries t w = (libs, None) ->
  installer.collectExecutables t destDir w = (execs, None) ->
  snd (installer.Install t destDir w)
  = snd (Spec.run_all (libs ++ execs) destDir w)
  /\ Spec.failures (fst (installer.Install t destDir w))
     = flat_map Spec.failures (fst (Spec.run_all (libs ++ execs) destDir w))
  /\ (fst (installer.Install t destDir w) = None
      <-> Forall (fun r => r = None)
                 (fst (Spec.run_all (libs ++ execs) destDir w))).
Proof.
  intros Hl He. unfold installer.Install. rewrite Hl, He.
  destruct (Install_loop_spec (libs ++ execs) destDir None w) as (Hw & Hf & Hn).
  split; [exact Hw |]. split; [exact Hf |].
  rewrite Hn. split; [now intros [_ H] | auto].
Qed.

End InstallAll.

Section NewInstaller.

Context `{S : os.StatFS}.

(** X20.  With an explicit package type the host is not probed: [New]
    hands back an installer rooted at /artifacts/deb or /artifacts/rpm
    for the package types deb and rpm, whose library locator is capped
    to one match, and the error of an invalid package type for any
    other; it does not panic. *)
Theorem New_explicit_package_type (hostRoot packageType : string) :
  packageType <> "" ->
  packageType <> "auto" ->
  installer.New [installer.WithHostRoot hostRoot;
                 installer.WithPackageType packageType]
  = if String.eqb packageType "deb" || String.eqb packageType "rpm" then
      Returned
        (Some {| installer.toolkit_artifactRoot :=
                   Some {| installer.path := "/artifacts/" +:+ packageType;
                           installer.libraries :=
                             {| lookup.root := "/artifacts/" +:+ packageType;
                                lookup.searchPaths :=
                                  ["/usr/lib64"; "/usr/lib/x86_64-linux-gnu";
                                   "/usr/lib/aarch64-linux-gnu"];
                                lookup.isOptional := false;
                                lookup.count := 1 |};
                           installer.executables := "/artifacts/" +:+ packageType |};
                 installer.hostRoot := hostRoot;
                 installer.packageType := packageType;
                 installer.ignoreErrors := false |}, None)
    else
      Returned (None, Some (ErrNew ("invalid package type: " +:+ packageType))).
Proof.
  intros Hne Hauto. unfold installer.New.
  cbn [fold_left installer.WithHostRoot installer.WithPackageType
       installer.toolkit_artifactRoot installer.hostRoot installer.packageType
       installer.ignoreErrors].
  rewrite (resolvePackageType_explicit hostRoot packageType Hne Hauto).
  unfold installer.newArtifactRoot.
  destruct (String.eqb_spec packageType "deb") as [-> | Hdeb]; [reflexivity |].
  destruct (String.eqb_spec packageType "rpm") as [-> | Hrpm]; reflexivity.
Qed.

(** A package type other than deb and rpm gives no installer. *)
Lemma New_invalid_package_type (hostRoot packageType : string) :
  packageType <> "" -> packageType <> "auto" ->
  packageType <> "deb" -> packageType <> "rpm" ->
  installer.New [installer.WithHostRoot hostRoot;
                 installer.WithPackageType packageType]
  = Returned (None, Some (ErrNew ("invalid package type: " +:+ packageType))).
Proof.
  intros Hne Hauto Hdeb Hrpm. unfold installer.New.
  cbn [fold_left installer.WithHostRoot installer.WithPackageType
       installer.toolkit_artifactRoot installer.hostRoot installer.packageType
       installer.ignoreErrors].
  rewrite (resolvePackageType_explicit hostRoot packageType Hne Hauto).
  unfold installer.newArtifactRoot.
  destruct (String.eqb_spec packageType "deb"); [contradiction |].
  destruct (String.eqb_spec packageType "rpm"); [contradiction | reflexivity].
Qed.

(** With an artifact root given, nothing is resolved at all. *)
Lemma New_with_artifact_root (a : installer.artifactRoot)
      (opts : list installer.Option) :
  installer.New (opts ++ [installer.WithArtifactRoot (Some a)])
  = Returned
      (Some (installer.WithArtifactRoot (Some a)
               (fold_left (fun t opt => opt t) opts
                  {| installer.toolkit_artifactRoot := None;
                     installer.hostRoot := ""; installer.packageType := "";
                     installer.ignoreErrors := false |})), None).
Proof. unfold installer.New. rewrite fold_left_app. reflexivity. Qed.

End NewInstaller.

Section FindLibrary.

Context `{F : lookup.Finder}.

(** X21.  In the artifacts of a package type, [findLibrary] hands back
    the first file that the search below the artifact root comes
    across in /usr/lib64 and the two multiarch library directories,
    and fails when the search comes across none. *)
Theorem findLibrary_first_match (packageType name : string)
        (a : installer.artifactRoot) :
  installer.newArtifactRoot packageType = (Some a, None) ->
  installer.findLibrary a name
  = match lookup.find ("/artifacts/" +:+ packageType)
                      ["/usr/lib64"; "/usr/lib/x86_64-linux-gnu";
                       "/usr/lib/aarch64-linux-gnu"] name with
    | [] =>
        ("", Some (ErrWrap "error locating library"
                     (ErrWrap ("pattern " +:+ name) lookup.ErrNotFound)))
    | first :: _ => (first, None)
    end.
Proof.
  unfold installer.newArtifactRoot.
  destruct (String.eqb_spec packageType "deb") as [-> | Hdeb].
  - intros Ha. injection Ha as <-. unfold installer.findLibrary, lookup.Locate.
    cbn [installer.libraries lookup.root lookup.searchPaths lookup.count
         lookup.isOptional].
    change ("/artifacts/" +:+ "deb") with "/artifacts/deb".
    destruct (lookup.find "/artifacts/deb" _ name) as [| first more]; reflexivity.
  - destruct (String.eqb_spec packageType "rpm") as [-> | Hrpm];
      [| discriminate].
    intros Ha. injection Ha as <-. unfold installer.findLibrary, lookup.Locate.
    cbn [installer.libraries lookup.root lookup.searchPaths lookup.count
         lookup.isOptional].
    change ("/artifacts/" +:+ "rpm") with "/artifacts/rpm".
    destruct (lookup.find "/artifacts/rpm" _ name) as [| first more]; reflexivity.
Qed.

End FindLibrary.

Lemma New_explicit_package_type_witness :
  "rpm" <> "" /\ "rpm" <> "auto"
  /\ exists t,
      installer.New (H := Fixture.host false false)
        [installer.WithHostRoot "/host"; installer.WithPackageType "rpm"]
      = Returned (Some t, None)
      /\ option_map installer.path (installer.toolkit_artifactRoot t)
         = Some "/artifacts/rpm".
Proof.
  assert (H1 : "rpm" <> "") by discriminate.
  assert (H2 : "rpm" <> "auto") by discriminate.
  split; [exact H1 |]. split; [exact H2 |].
  rewrite (@New_explicit_package_type (Fixture.host false false) "/host" "rpm" H1 H2).
  eexists. split; reflexivity.
Defined.

(** ** Installing the toolkit ([tools/container/toolkit/toolkit.go]) *)

Section Validate.

Context `{P : toolkit.Parser}.

Lemma ValidateOptions_modes_enabled (modes : list string) :
  toolkit.ValidateOptions_modes modes = inr false ->
  Forall (fun mode => mode = "control") modes.
Proof.
  induction modes as [| mode rest IH]; [constructor |].
  cbn [toolkit.ValidateOptions_modes].
  destruct (String.eqb_spec mode "") as [-> | H1]; cbn [negb andb orb];
    [discriminate |].
  destruct (String.eqb_spec mode "none") as [-> | H2]; cbn [negb andb orb];
    [discriminate |].
  destruct (String.eqb_spec mode "control") as [-> | H3]; cbn [negb];
    [| discriminate].
  intros H. constructor; auto.
Qed.

Lemma ValidateOptions_modes_at (pre post : list string) (m : string) :
  Forall (fun mode => mode = "control") pre ->
  toolkit.ValidateOptions_modes (pre ++ m :: post)
  = toolkit.ValidateOptions_modes (m :: post).
Proof.
  induction 1 as [| mode pre -> _ IH]; [reflexivity | exact IH].
Qed.

(** The modes that accepted options are left with. *)
Lemma ValidateOptions_accepted_modes (opts opts' : toolkit.Options)
      (toolkitRoot : string) (log : list toolkit.entry) :
  toolkit.ValidateOptions opts toolkitRoot = (None, opts', log) ->
  toolkit.createDeviceNodes_ opts' = []
  \/ (toolkit.cdiEnabled opts' = true
      /\ toolkit.createDeviceNodes_ opts' = toolkit.createDeviceNodes_ opts
      /\ Forall (fun mode => mode = "control")
                (toolkit.createDeviceNodes_ opts')).
Proof.
  unfold toolkit.ValidateOptions.
  destruct (String.eqb_spec toolkitRoot "") as [-> | Hroot]; [discriminate |].
  destruct (toolkit.ParseQualifier (toolkit.cdiKind opts)) as [vendor class].
  destruct (toolkit.ValidateVendorName vendor); [discriminate |].
  destruct (toolkit.ValidateClassName class); [discriminate |].
  cbn [toolkit.assign toolkit.cdiEnabled toolkit.cdiOutputDir toolkit.cdiVendor
       toolkit.cdiClass toolkit.createDeviceNodes_].
  destruct (toolkit.cdiEnabled opts) eqn:Hen; cbn [andb].
  - destruct (String.eqb (toolkit.cdiOutputDir opts) "");
      cbn [toolkit.assign toolkit.cdiEnabled toolkit.cdiOutputDir toolkit.cdiVendor
           toolkit.cdiClass toolkit.createDeviceNodes_];
      destruct (toolkit.ValidateOptions_modes (toolkit.createDeviceNodes_ opts))
        as [err | []] eqn:Hmodes; try discriminate;
      cbn; intros H; injection H as <- _; cbn; try (now left).
    right. split; [reflexivity |]. split; [reflexivity |].
    now apply ValidateOptions_modes_enabled.
  - cbn [toolkit.assign toolkit.cdiEnabled toolkit.cdiOutputDir toolkit.cdiVendor
         toolkit.cdiClass toolkit.createDeviceNodes_].
    destruct (toolkit.ValidateOptions_modes (toolkit.createDeviceNodes_ opts))
      as [err | []]; [discriminate | |];
      cbn; intros H; injection H as <- _; now left.
Qed.

(** X22.  Options that [ValidateOptions] accepts are consistent: the
    toolkit root is not empty; the CDI vendor and class are those of
    the CDI kind; CDI is enabled only if it was asked for and an output
    directory is given; and the modes for the creation of device nodes
    are either cleared, or left as given with CDI enabled and every one
    of them [control]. *)
Theorem ValidateOptions_accepts (opts opts' : toolkit.Options)
        (toolkitRoot : string) (log : list toolkit.entry) :
  toolkit.ValidateOptions opts toolkitRoot = (None, opts', log) ->
  toolkitRoot <> ""
  /\ (toolkit.cdiVendor opts', toolkit.cdiClass opts')
     = toolkit.ParseQualifier (toolkit.cdiKind opts)
  /\ (toolkit.cdiEnabled opts' = true ->
      toolkit.cdiEnabled opts = true /\ toolkit.cdiOutputDir opts' <> "")
  /\ (toolkit.createDeviceNodes_ opts' = []
      \/ (toolkit.cdiEnabled opts' = true
          /\ toolkit.createDeviceNodes_ opts' = toolkit.createDeviceNodes_ opts
          /\ Forall (fun mode => mode = "control")
                    (toolkit.createDeviceNodes_ opts'))).
Proof.
  unfold toolkit.ValidateOptions.
  destruct (String.eqb_spec toolkitRoot "") as [-> | Hroot]; [discriminate |].
  destruct (toolkit.ParseQualifier (toolkit.cdiKind opts)) as [vendor class].
  destruct (toolkit.ValidateVendorName vendor); [discriminate |].
  destruct (toolkit.ValidateClassName class); [discriminate |].
  cbn [toolkit.assign toolkit.cdiEnabled toolkit.cdiOutputDir toolkit.cdiVendor
       toolkit.cdiClass toolkit.createDeviceNodes_].
  destruct (toolkit.cdiEnabled opts) eqn:Hen; cbn [andb].
  - destruct (String.eqb_spec (toolkit.cdiOutputDir opts) "") as [Hdir | Hdir];
      cbn [toolkit.assign toolkit.cdiEnabled toolkit.cdiOutputDir toolkit.cdiVendor
           toolkit.cdiClass toolkit.createDeviceNodes_].
    + destruct (toolkit.ValidateOptions_modes (toolkit.createDeviceNodes_ opts))
        as [err | []]; [discriminate | |];
        cbn; intros H; injection H as <- _; cbn;
        (split; [exact Hroot |]; split; [reflexivity |];
         split; [discriminate | now left]).
    + destruct (toolkit.ValidateOptions_modes (toolkit.createDeviceNodes_ opts))
        as [err | []] eqn:Hmodes; [discriminate | |];
        cbn; intros H; injection H as <- _; cbn;
        (split; [exact Hroot |]; split; [reflexivity |]; split; [now auto |]).
      * now left.
      * right. split; [reflexivity |]. split; [reflexivity |].
        now apply ValidateOptions_modes_enabled.
  - cbn [toolkit.assign toolkit.cdiEnabled toolkit.cdiOutputDir toolkit.cdiVendor
         toolkit.cdiClass toolkit.createDeviceNodes_].
    destruct (toolkit.ValidateOptions_modes (toolkit.createDeviceNodes_ opts))
      as [err | []]; [discriminate | |];
      cbn; intros H; injection H as <- _; cbn;
      (split; [exact Hroot |]; split; [reflexivity |];
       split; [discriminate | now left]).
Qed.

(** The error of [ValidateOptions] once the toolkit root and the CDI
    kind are in order. *)
Lemma ValidateOptions_error (opts : toolkit.Options) (toolkitRoot : string) :
  toolkitRoot <> "" ->
  toolkit.ValidateVendorName (fst (toolkit.ParseQualifier (toolkit.cdiKind opts)))
  = None ->
  toolkit.ValidateClassName (snd (toolkit.ParseQualifier (toolkit.cdiKind opts)))
  = None ->
  fst (fst (toolkit.ValidateOptions opts toolkitRoot))
  = match toolkit.ValidateOptions_modes (toolkit.createDeviceNodes_ opts) with
    | inl err => Some err
    | inr _ => None
    end
  /\ (toolkit.ValidateOptions_modes (toolkit.createDeviceNodes_ opts) = inr true ->
      toolkit.createDeviceNodes_ (snd (fst (toolkit.ValidateOptions opts toolkitRoot)))
      = []).
Proof.
  intros Hroot Hv Hc. unfold toolkit.ValidateOptions.
  destruct (String.eqb_spec toolkitRoot ""); [contradiction |].
  destruct (toolkit.ParseQualifier (toolkit.cdiKind opts)) as [vendor class].
  cbn [fst snd] in Hv, Hc. rewrite Hv, Hc.
  cbn [toolkit.assign toolkit.cdiEnabled toolkit.cdiOutputDir toolkit.cdiVendor
       toolkit.cdiClass toolkit.createDeviceNodes_].
  destruct (toolkit.cdiEnabled opts && String.eqb (toolkit.cdiOutputDir opts) "");
    cbn [toolkit.assign toolkit.cdiEnabled toolkit.cdiOutputDir toolkit.cdiVendor
         toolkit.cdiClass toolkit.createDeviceNodes_];
    destruct (toolkit.ValidateOptions_modes (toolkit.createDeviceNodes_ opts))
      as [err | []]; cbn [negb andb];
    try (destruct (toolkit.cdiEnabled opts)); cbn; split; auto; discriminate.
Qed.

(** X23.  The modes for the creation of device nodes are validated
    from the left and only up to the first that disables the creation:
    after any number of [control] modes, a mode other than the empty
    one, [none] and [control] is rejected by name; an empty mode or
    [none] is accepted and clears all modes, whatever follows it, even
    a mode that would be rejected on its own. *)
Theorem ValidateOptions_modes_left_to_right
        (opts : toolkit.Options) (toolkitRoot : string)
        (pre post : list string) (m : string) :
  toolkitRoot <> "" ->
  toolkit.ValidateVendorName (fst (toolkit.ParseQualifier (toolkit.cdiKind opts)))
  = None ->
  toolkit.ValidateClassName (snd (toolkit.ParseQualifier (toolkit.cdiKind opts)))
  = None ->
  toolkit.createDeviceNodes_ opts = pre ++ m :: post ->
  Forall (fun mode => mode = "control") pre ->
  (m <> "" -> m <> "none" -> m <> "control" ->
   fst (fst (toolkit.ValidateOptions opts toolkitRoot))
   = Some (ErrNew ("invalid --create-device-nodes value: " +:+ m)))
  /\ (m = "" \/ m = "none" ->
      fst (fst (toolkit.ValidateOptions opts toolkitRoot)) = None
      /\ toolkit.createDeviceNodes_
           (snd (fst (toolkit.ValidateOptions opts toolkitRoot))) = []).
Proof.
  intros Hroot Hv Hc Hmodes Hpre.
  destruct (ValidateOptions_error opts toolkitRoot Hroot Hv Hc) as [Herr Hclear].
  rewrite Hmodes, (ValidateOptions_modes_at pre post m Hpre) in Herr, Hclear.
  cbn [toolkit.ValidateOptions_modes] in Herr, Hclear.
  split.
  - intros H1 H2 H3.
    destruct (String.eqb_spec m ""); [contradiction |].
    destruct (String.eqb_spec m "none"); [contradiction |].
    destruct (String.eqb_spec m "control"); [contradiction |].
    exact Herr.
  - intros [-> | ->]; cbn in Herr, Hclear; auto.
Qed.

End Validate.

Section DeviceNodes.

Context {W : Type} `{N : toolkit.NVDevices W}.

Lemma createDeviceNodes_loop_control (devRoot : string) (modes : list string) :
  Forall (fun mode => mode = "control") modes ->
  forall w : W,
    Forall (fun e => Spec.is_level toolkit.WarningLevel e = false)
           (snd (toolkit.createDeviceNodes_loop devRoot modes w)).
Proof.
  induction 1 as [| mode rest -> _ IH]; intros w; [constructor |].
  cbn [toolkit.createDeviceNodes_loop String.eqb Ascii.eqb Bool.eqb negb].
  destruct (toolkit.CreateNVIDIAControlDevices w devRoot) as [[e |] w1].
  - repeat constructor.
  - specialize (IH w1).
    destruct (toolkit.createDeviceNodes_loop devRoot rest w1) as [[err' w2] log].
    cbn [snd] in IH |- *. now constructor.
Qed.

(** X24.  Validated options hold no mode that [createDeviceNodes] does
    not know: on options [ValidateOptions] has accepted it logs no
    warning of an unrecognised device mode; and where CDI is not
    enabled after validation it does nothing at all, not even
    construct the device library. *)
Theorem createDeviceNodes_after_validation `{P : toolkit.Parser}
        (opts opts' : toolkit.Options) (toolkitRoot : string)
        (log : list toolkit.entry) (w : W) :
  toolkit.ValidateOptions opts toolkitRoot = (None, opts', log) ->
  Forall (fun e => Spec.is_level toolkit.WarningLevel e = false)
         (snd (toolkit.createDeviceNodes opts' w))
  /\ (toolkit.cdiEnabled opts' = false ->
      toolkit.createDeviceNodes opts' w = (None, w, [])).
Proof.
  intros Hvalid.
  pose proof (ValidateOptions_accepted_modes opts opts' toolkitRoot log Hvalid)
    as Hmodes.
  unfold toolkit.createDeviceNodes.
  destruct Hmodes as [-> | (Hen & _ & Hall)].
  - split; [constructor | reflexivity].
  - split; [| intros Hdis; congruence].
    destruct (toolkit.createDeviceNodes_ opts') as [| mode rest] eqn:Hm;
      [constructor |].
    destruct (toolkit.nvdevices_New w (toolkit.DevRootCtrPath opts'));
      [constructor |].
    now apply createDeviceNodes_loop_control.
Qed.

End DeviceNodes.

Section Delete.

Context {W : Type} `{O : toolkit.OS W}.

Lemma TryDelete_loop_world (toolkitRoot : string) (contents : list string) :
  forall w : W,
    fst (toolkit.TryDelete_loop toolkitRoot contents w)
    = Spec.remove_each
        (map (fun name => filepath.Join [toolkitRoot; name])
             (List.filter
                (fun name => negb (String.eqb name toolkit.toolkitPidFilename))
                contents)) w.
Proof.
  induction contents as [| content rest IH]; intros w; [reflexivity |].
  cbn [toolkit.TryDelete_loop List.filter].
  destruct (String.eqb content toolkit.toolkitPidFilename); cbn [negb]; [apply IH |].
  cbn [map]. unfold Spec.remove_each in *. cbn [fold_left].
  destruct (toolkit.RemoveAll w (filepath.Join [toolkitRoot; content])) as [err w1].
  specialize (IH w1).
  destruct (toolkit.TryDelete_loop toolkitRoot rest w1) as [w2 log].
  exact IH.
Qed.

(** X25.  [TryDelete] fails only when the toolkit folder cannot be
    read for a reason other than its absence, and then removes
    nothing; an absent folder is no error.  Otherwise it hands back
    nil whatever the removals do: it removes every entry of the folder
    except [toolkit.pid] by its path in the folder, in order, and at
    the end the folder itself. *)
Theorem TryDelete_spec (toolkitRoot : string) (w : W) :
  (fst (fst (toolkit.TryDelete toolkitRoot w)),
   snd (fst (toolkit.TryDelete toolkitRoot w)))
  = match toolkit.ReadDir w toolkitRoot with
    | (_, Some e) =>
        if toolkit.IsNotExist e then (None, w)
        else (Some (ErrWrap ("failed to read the contents of " +:+ toolkitRoot) e),
              w)
    | (contents, None) =>
        (None,
         Spec.remove_each
           (map (fun name => filepath.Join [toolkitRoot; name])
                (List.filter
                   (fun name => negb (String.eqb name toolkit.toolkitPidFilename))
                   contents)
              ++ [toolkitRoot]) w)
    end.
Proof.
  unfold toolkit.TryDelete.
  destruct (toolkit.ReadDir w toolkitRoot) as [contents [e |]].
  - destruct (toolkit.IsNotExist e); reflexivity.
  - pose proof (TryDelete_loop_world toolkitRoot contents w) as Hloop.
    destruct (toolkit.TryDelete_loop toolkitRoot contents w) as [w1 log1].
    cbn [fst] in Hloop.
    unfold Spec.remove_each in *. rewrite fold_left_app, <- Hloop.
    cbn [fold_left].
    destruct (toolkit.RemoveAll w1 toolkitRoot) as [err w2]. reflexivity.
Qed.

(** X26.  [createDirectories] creates the directories from the left
    and stops at the first that cannot be created: once the
    directories [pre] have been created, creating [pre ++ post] goes on
    as creating [post] does on the world left; and when the next
    directory fails, that error is handed back and no directory after
    it is touched. *)
Theorem createDirectories_stops (pre post : list string) (w w1 : W)
        (log1 : list toolkit.entry) :
  toolkit.createDirectories pre w = (None, w1, log1) ->
  toolkit.createDirectories (pre ++ post) w
  = (fst (fst (toolkit.createDirectories post w1)),
     snd (fst (toolkit.createDirectories post w1)),
     log1 ++ snd (toolkit.createDirectories post w1))
  /\ forall (d : string) (rest : list string) (e : error) (w2 : W),
      post = d :: rest ->
      toolkit.MkdirAll w1 d = (Some e, w2) ->
      toolkit.createDirectories (pre ++ post) w
      = (Some (ErrWrap "error creating directory" e), w2,
         log1 ++ [(toolkit.InfoLevel, "Creating directory '" +:+ d +:+ "'")]).
Proof.
  intros Hpre.
  assert (Hcompose :
            toolkit.createDirectories (pre ++ post) w
            = (fst (fst (toolkit.createDirectories post w1)),
               snd (fst (toolkit.createDirectories post w1)),
               log1 ++ snd (toolkit.createDirectories post w1))).
  { revert w log1 Hpre. induction pre as [| d pre IH]; intros w log1 Hpre.
    - cbn in Hpre. injection Hpre as <- <-. cbn [app].
      now destruct (toolkit.createDirectories post w) as [[? ?] ?].
    - cbn [app toolkit.createDirectories] in Hpre |- *.
      destruct (toolkit.MkdirAll w d) as [[e |] wd]; [discriminate |].
      destruct (toolkit.createDirectories pre wd) as [[err' w'] log'] eqn:Hrec.
      injection Hpre as -> -> <-.
      rewrite (IH wd log' Hrec). reflexivity. }
  split; [exact Hcompose |].
  intros d rest e w2 -> Hfail. rewrite Hcompose.
  cbn [toolkit.createDirectories]. rewrite Hfail. reflexivity.
Qed.

End Delete.

Section InstallToolkit.

Context {W LibT SpecT : Type} `{O : toolkit.OS W} `{HS : toolkit.HostStat W}
        `{C : installer.Collector W} `{CI : toolkit.ConfigInstaller W}
        `{N : toolkit.NVDevices W} `{CS : toolkit.CDISpecs W LibT SpecT}.

Lemma createDirectories_log (dir : list string) :
  forall w : W,
    Forall (fun e => Spec.is_level toolkit.ErrorLevel e = false)
           (snd (toolkit.createDirectories dir w)).
Proof.
  induction dir as [| d rest IH]; intros w; [constructor |].
  cbn [toolkit.createDirectories].
  destruct (toolkit.MkdirAll w d) as [[e |] w1]; [repeat constructor |].
  specialize (IH w1).
  destruct (toolkit.createDirectories rest w1) as [[err' w2] log].
  cbn [snd] in IH |- *. now constructor.
Qed.

Lemma createDeviceNodes_log (opts : toolkit.Options) (w : W) :
  Forall (fun e => Spec.is_level toolkit.ErrorLevel e = false)
         (snd (toolkit.createDeviceNodes opts w)).
Proof.
  unfold toolkit.createDeviceNodes.
  destruct (toolkit.createDeviceNodes_ opts) as [| mode rest]; [constructor |].
  destruct (toolkit.nvdevices_New w (toolkit.DevRootCtrPath opts)); [constructor |].
  generalize (mode :: rest). clear mode rest. intros modes. revert w.
  induction modes as [| mode rest IH]; intros w; [constructor |].
  cbn [toolkit.createDeviceNodes_loop].
  destruct (negb (String.eqb mode "control")).
  - specialize (IH w).
    destruct (toolkit.createDeviceNodes_loop _ rest w) as [[err w1] log].
    cbn [snd] in IH |- *. now repeat constructor.
  - destruct (toolkit.CreateNVIDIAControlDevices w _) as [[e |] w1];
      [repeat constructor |].
    specialize (IH w1).
    destruct (toolkit.createDeviceNodes_loop _ rest w1) as [[err w2] log].
    cbn [snd] in IH |- *. now constructor.
Qed.

Lemma generateCDISpec_log (opts : toolkit.Options) (hook : string) (w : W) :
  Forall (fun e => Spec.is_level toolkit.ErrorLevel e = false)
         (snd (toolkit.generateCDISpec opts hook w)).
Proof.
  unfold toolkit.generateCDISpec.
  destruct (negb (toolkit.cdiEnabled opts)); [constructor |].
  destruct (toolkit.nvcdi_New _ _ _ _ _ _) as [lib | e]; [| repeat constructor].
  destruct (toolkit.GetSpec w lib) as [spec | e]; [| repeat constructor].
  destruct (toolkit.Transform _ _ _ _ spec) as [spec' | e]; [| repeat constructor].
  destruct (toolkit.GenerateNameForSpec spec') as [name | e]; [| repeat constructor].
  destruct (toolkit.Save w spec' _) as [[e |] w']; repeat constructor.
Qed.

(** The steps of [Install], taken apart one after the other. *)
Ltac install_step :=
  match goal with
  | |- context [toolkit.RemoveAll ?w ?p] =>
      destruct (toolkit.RemoveAll w p) as [[?e |] ?w]
  | |- context [toolkit.createDirectories ?d ?w] =>
      let H := fresh "Hdirs" in
      pose proof (createDirectories_log d w) as H;
      destruct (toolkit.createDirectories d w) as [[[?e |] ?w] ?log]
  | |- context [installer.New ?o] =>
      destruct (installer.New o) as [[[?t |] [?e |]] | ?msg]
  | |- context [installer.Install ?t ?d ?w] =>
      destruct (installer.Install t d w) as [[?e |] ?w]
  | |- context [toolkit.installToolkitConfig ?w ?a ?b ?c ?d ?o] =>
      destruct (toolkit.installToolkitConfig w a b c d o) as [[?e |] ?w]
  | |- context [toolkit.createDeviceNodes ?o ?w] =>
      let H := fresh "Hnodes" in
      pose proof (createDeviceNodes_log o w) as H;
      destruct (toolkit.createDeviceNodes o w) as [[[?e |] ?w] ?log]
  | |- context [toolkit.generateCDISpec ?o ?h ?w] =>
      let H := fresh "Hcdi" in
      pose proof (generateCDISpec_log o h w) as H;
      destruct (toolkit.generateCDISpec o h w) as [[[?e |] ?w] ?log]
  end; cbn [option_map snd toolkit.fatal] in *.

(** X27.  With errors ignored [Install] hands back no error: whatever
    fails among removing the old installation, creating the
    directories, installing the toolkit files, installing the config,
    creating the device nodes and generating the CDI spec is passed
    over. *)
Theorem Install_ignoring_errors (opts : toolkit.Options)
        (toolkitRoot hostRoot : string) (w w' : W)
        (e : installer.joined) (log : list toolkit.entry) :
  toolkit.ignoreErrors opts = true ->
  toolkit.Install opts toolkitRoot hostRoot w <> Returned (Some e, w', log).
Proof.
  intros Hignore. unfold toolkit.Install. rewrite Hignore.
  repeat install_step; discriminate.
Qed.

(** X28.  Without errors ignored [Install] passes over no failure:
    when it returns, nothing has been logged at the error level, the
    level at which an ignored error is logged. *)
Theorem Install_strict (opts : toolkit.Options)
        (toolkitRoot hostRoot : string) (w w' : W)
        (r : option installer.joined) (log : list toolkit.entry) :
  toolkit.ignoreErrors opts = false ->
  toolkit.Install opts toolkitRoot hostRoot w = Returned (r, w', log) ->
  Forall (fun en => Spec.is_level toolkit.ErrorLevel en = false) log.
Proof.
  intros Hignore. unfold toolkit.Install. rewrite Hignore.
  repeat install_step; intros Hret; try discriminate Hret;
    injection Hret as _ _ <-;
    repeat first [assumption | apply Forall_app; split | constructor].
Qed.

(** X29.  With errors ignored, a package type for which no installer
    can be constructed (any but the empty one, auto, deb and rpm) makes
    [Install] panic: the error of [installer.New] is logged and passed
    over, and [Install] is then called on the nil installer. *)
Theorem Install_ignoring_errors_nil_installer (opts : toolkit.Options)
        (toolkitRoot hostRoot : string) (w : W) :
  toolkit.ignoreErrors opts = true ->
  toolkit.packageType opts <> "" -> toolkit.packageType opts <> "auto" ->
  toolkit.packageType opts <> "deb" -> toolkit.packageType opts <> "rpm" ->
  exists msg, toolkit.Install opts toolkitRoot hostRoot w = Panicked msg.
Proof.
  intros Hignore Hne Hauto Hdeb Hrpm. unfold toolkit.Install. rewrite Hignore.
  do 2 install_step;
    rewrite (New_invalid_package_type hostRoot _ Hne Hauto Hdeb Hrpm);
    cbn [option_map snd toolkit.fatal]; eexists; reflexivity.
Qed.

End InstallToolkit.

(** ** The installation on the file system of names *)

Lemma Install_accumulates_witness :
  exists libs execs,
    installer.collectLibraries (Collector := Fixture.toolkit_Collector)
      Fixture.an_installer [] = (libs, None)
    /\ installer.collectExecutables (Collector := Fixture.toolkit_Collector)
         Fixture.an_installer "/usr/local/nvidia/toolkit" [] = (execs, None)
    /\ Spec.failures
         (fst (installer.Install (H := Fixture.toolkit_Collector)
                 Fixture.an_installer "/usr/local/nvidia/toolkit" []))
       = flat_map Spec.failures
           (fst (Spec.run_all (libs ++ execs) "/usr/local/nvidia/toolkit" [])).
Proof.
  eexists. eexists. split; [reflexivity |]. split; [reflexivity |].
  apply (Install_accumulates (C := Fixture.toolkit_Collector)
           Fixture.an_installer "/usr/local/nvidia/toolkit" []);
    reflexivity.
Defined.

Lemma findLibrary_first_match_witness :
  exists a,
    installer.newArtifactRoot "rpm" = (Some a, None)
    /\ installer.findLibrary (H := Fixture.files_find Fixture.artifacts) a
         "libnvidia-container.so.*"
       = ("/artifacts/rpm/usr/lib64/libnvidia-container.so.1.17.0", None).
Proof.
  eexists. split; [reflexivity |].
  rewrite (findLibrary_first_match (F := Fixture.files_find Fixture.artifacts)
             "rpm" "libnvidia-container.so.*" _ eq_refl).
  reflexivity.
Defined.

Lemma ValidateOptions_accepts_witness :
  exists opts' log,
    toolkit.ValidateOptions (H := Fixture.kind_Parser)
      (Fixture.toolkit_options ["control"] true false)
      "/usr/local/nvidia/toolkit" = (None, opts', log)
    /\ (toolkit.cdiVendor opts', toolkit.cdiClass opts')
       = ("management.nvidia.com", "gpu")
    /\ toolkit.createDeviceNodes_ opts' = ["control"].
Proof.
  eexists. eexists. split; [reflexivity |].
  destruct (ValidateOptions_accepts (P := Fixture.kind_Parser)
              (Fixture.toolkit_options ["control"] true false) _
              "/usr/local/nvidia/toolkit" _ eq_refl)
    as (_ & Hkind & _ & _).
  split; [exact Hkind | reflexivity].
Defined.

Lemma ValidateOptions_modes_left_to_right_witness :
  fst (fst (toolkit.ValidateOptions (H := Fixture.kind_Parser)
              (Fixture.toolkit_options ["control"; "none"; "bogus"] true false)
              "/usr/local/nvidia/toolkit")) = None
  /\ fst (fst (toolkit.ValidateOptions (H := Fixture.kind_Parser)
                 (Fixture.toolkit_options ["control"; "bogus"; "none"] true false)
                 "/usr/local/nvidia/toolkit"))
     = Some (ErrNew "invalid --create-device-nodes value: bogus").
Proof.
  assert (Hroot : "/usr/local/nvidia/toolkit" <> "") by discriminate.
  assert (Hpre : Forall (fun mode => mode = "control") ["control"])
    by (repeat constructor).
  split.
  - apply (ValidateOptions_modes_left_to_right (P := Fixture.kind_Parser)
             (Fixture.toolkit_options ["control"; "none"; "bogus"] true false)
             "/usr/local/nvidia/toolkit" ["control"] ["bogus"] "none"
             Hroot eq_refl eq_refl eq_refl Hpre).
    now right.
  - apply (ValidateOptions_modes_left_to_right (P := Fixture.kind_Parser)
             (Fixture.toolkit_options ["control"; "bogus"; "none"] true false)
             "/usr/local/nvidia/toolkit" ["control"] ["none"] "bogus"
             Hroot eq_refl eq_refl eq_refl Hpre); discriminate.
Defined.

Lemma createDeviceNodes_after_validation_witness :
  exists opts' log,
    toolkit.ValidateOptions (H := Fixture.kind_Parser)
      (Fixture.toolkit_options ["control"] true false)
      "/usr/local/nvidia/toolkit" = (None, opts', log)
    /\ Forall (fun e => Spec.is_level toolkit.WarningLevel e = false)
              (snd (toolkit.createDeviceNodes (H := Fixture.files_NVDevices)
                      opts' [])).
Proof.
  eexists. eexists. split; [reflexivity |].
  apply (createDeviceNodes_after_validation (N := Fixture.files_NVDevices)
           (P := Fixture.kind_Parser)
           (Fixture.toolkit_options ["control"] true false) _
           "/usr/local/nvidia/toolkit" _ [] eq_refl).
Defined.

Lemma createDirectories_stops_witness :
  exists w1 log1,
    toolkit.createDirectories (H := Fixture.files_toolkit_OS) ["/a"]
      Fixture.installed = (None, w1, log1)
    /\ toolkit.createDirectories (H := Fixture.files_toolkit_OS)
         (["/a"] ++ ["/etc/passwd"; "/b"]) Fixture.installed
       = (Some (ErrWrap "error creating directory" Fixture.EEXIST), w1,
          log1 ++ [(toolkit.InfoLevel, "Creating directory '/etc/passwd'")]).
Proof.
  eexists. eexists. split; [reflexivity |].
  destruct (createDirectories_stops (O := Fixture.files_toolkit_OS)
              ["/a"] ["/etc/passwd"; "/b"] Fixture.installed _ _ eq_refl)
    as [_ Hfail].
  exact (Hfail "/etc/passwd" ["/b"] Fixture.EEXIST _ eq_refl eq_refl).
Defined.

Lemma Install_ignoring_errors_witness :
  toolkit.ignoreErrors (Fixture.toolkit_options ["control"] true true) = true
  /\ forall e w' log,
      toolkit.Install (H := Fixture.files_toolkit_OS)
        (H0 := Fixture.files_HostStat) (H1 := Fixture.toolkit_Collector)
        (H2 := Fixture.failing_ConfigInstaller) (H3 := Fixture.files_NVDevices)
        (H4 := Fixture.files_CDISpecs)
        (Fixture.toolkit_options ["control"] true true)
        "/usr/local/nvidia/toolkit" "/" Fixture.installed
      <> Returned (Some e, w', log).
Proof.
  split; [reflexivity |]. intros e w' log.
  apply (Install_ignoring_errors (O := Fixture.files_toolkit_OS)
           (HS := Fixture.files_HostStat) (C := Fixture.toolkit_Collector)
           (CI := Fixture.failing_ConfigInstaller) (N := Fixture.files_NVDevices)
           (CS := Fixture.files_CDISpecs)).
  reflexivity.
Defined.

Lemma Install_strict_witness :
  exists r w' log,
    toolkit.Install (H := Fixture.files_toolkit_OS)
      (H0 := Fixture.files_HostStat) (H1 := Fixture.toolkit_Collector)
      (H2 := Fixture.failing_ConfigInstaller) (H3 := Fixture.files_NVDevices)
      (H4 := Fixture.files_CDISpecs)
      (Fixture.toolkit_options ["control"] true false)
      "/usr/local/nvidia/toolkit" "/" Fixture.installed
    = Returned (r, w', log)
    /\ r <> None
    /\ Forall (fun en => Spec.is_level toolkit.ErrorLevel en = false) log.
Proof.
  eexists. eexists. eexists. split; [vm_compute; reflexivity |].
  split; [discriminate |].
  eapply (Install_strict (O := Fixture.files_toolkit_OS)
            (HS := Fixture.files_HostStat) (C := Fixture.toolkit_Collector)
            (CI := Fixture.failing_ConfigInstaller) (N := Fixture.files_NVDevices)
            (CS := Fixture.files_CDISpecs)
            (Fixture.toolkit_options ["control"] true false)
            "/usr/local/nvidia/toolkit" "/" Fixture.installed);
    [reflexivity | vm_compute; reflexivity].
Defined.

Lemma Install_ignoring_errors_nil_installer_witness :
  exists msg,
    toolkit.Install (H := Fixture.files_toolkit_OS)
      (H0 := Fixture.files_HostStat) (H1 := Fixture.toolkit_Collector)
      (H2 := Fixture.failing_ConfigInstaller) (H3 := Fixture.files_NVDevices)
      (H4 := Fixture.files_CDISpecs)
      (Fixture.toolkit_options_of "apk" ["control"] true true)
      "/usr/local/nvidia/toolkit" "/" Fixture.installed
    = Panicked msg.
Proof.
  apply (Install_ignoring_errors_nil_installer
           (O := Fixture.files_toolkit_OS)
           (HS := Fixture.files_HostStat) (C := Fixture.toolkit_Collector)
           (CI := Fixture.failing_ConfigInstaller)
           (N := Fixture.files_NVDevices) (CS := Fixture.files_CDISpecs)
           (Fixture.toolkit_options_of "apk" ["control"] true true)
           "/usr/local/nvidia/toolkit" "/" Fixture.installed);
    [reflexivity | discriminate ..].
Defined.
